(** * xDrip Pebble watchface: the inbound message decoder

    A shallow embedding of [new_xdrip_data_callback] and the helpers it calls
    ([safe_strncpy], [update_displayed_xdrip_data], [update_displayed_time_ago])
    for the revisions of the watchface that decode a graph:

    - [Extended]: src/c/main.c with protocol.h (6-byte graph header, uint16
      count and offsets, capacity 300);
    - [Compact]: the earlier revision of main.c (5-byte graph header, uint8
      count and offsets, capacity 60);
    - [HalfUnits]: the revision of main.c with the extended layout that keeps
      the graph values in units of 2 mg/dL.

    C integers are modelled as [Z] with the conversions to the unsigned
    storage types written out; arrays are lists indexed by [Z]; every indexed
    access the C code performs on the graph payload or on a fixed-size buffer
    is recorded in an access trace, so that memory safety is a property of the
    trace. *)

From stdpp Require Import base numbers list strings.
From Stdlib Require Import ZArith Lia.
From Stdlib Require DecimalString DecimalZ.

Local Open Scope Z_scope.

(** ** Integer conversions *)

Definition to_uint8 (z : Z) : Z := z mod 2 ^ 8.
Definition to_uint16 (z : Z) : Z := z mod 2 ^ 16.
Definition to_uint32 (z : Z) : Z := z mod 2 ^ 32.

Definition is_byte (z : Z) : Prop := 0 <= z < 256.

(** ** Arrays and the access trace *)

(** The arrays the decoder indexes.  [A_data] is the graph payload
    ([graph_tuple->value->data]); the others are the static buffers. *)
Inductive array : Set :=
  | A_data
  | A_bg_string
  | A_delta_string
  | A_time_ago_buffer
  | A_graph_offsets
  | A_graph_bg_values.

Inductive access : Set :=
  | Read (a : array) (i : Z)
  | Write (a : array) (i : Z).

Definition in_bounds (len i : Z) : bool := (0 <=? i) && (i <? len).

(** [a[i]] as an rvalue.  An index outside the list is undefined behaviour in
    C; the model returns 0 there and the trace shows the access. *)
Definition load (l : list Z) (i : Z) : Z :=
  if in_bounds (Z.of_nat (length l)) i then default 0 (l !! Z.to_nat i) else 0.

(** [a[i] = v]. *)
Definition store (l : list Z) (i v : Z) : list Z :=
  if in_bounds (Z.of_nat (length l)) i then <[Z.to_nat i := v]> l else l.

(** ** Dictionary messages *)

(** A [Tuple] of a received dictionary: its key, the bytes of its value (the
    [length] field of the C struct is their number), and the bytes that lie
    behind the value in memory: the rest of the dictionary buffer, which
    starts with the packed header of the next tuple, and what comes after the
    buffer. *)
Record Tuple : Set := mkTupleAt { key : Z; value : list Z; following : list Z }.

(** A tuple with nothing listed behind its value. *)
Definition mkTuple (k : Z) (v : list Z) : Tuple := mkTupleAt k v [].

Definition tuple_length (t : Tuple) : Z := Z.of_nat (length (value t)).

(** The memory at the address of the [value] union. *)
Definition memory (t : Tuple) : list Z := value t ++ following t.

(** The members of the [value] union read by the decoder (the target is
    little-endian).  The decoder never looks at the tuple's type or length
    before it reads a scalar or a string, so the read of a shorter value runs
    on into the bytes that follow it.  Only the bytes listed in [memory] are
    known; statements about a value that was read assume that the read stays
    inside them.  The graph payload is different: the decoder compares its
    [length] with the header size and with the expected size before it reads
    the header and the points, so the reads of [data] stay inside the value
    (the in-bounds theorems of the graph decoder). *)
Definition uint8 (t : Tuple) : Z := load (memory t) 0.
Definition uint16 (t : Tuple) : Z := load (memory t) 0 + 2 ^ 8 * load (memory t) 1.
Definition uint32 (t : Tuple) : Z :=
  load (memory t) 0 + 2 ^ 8 * load (memory t) 1
  + 2 ^ 16 * load (memory t) 2 + 2 ^ 24 * load (memory t) 3.
Definition cstring (t : Tuple) : list Z := memory t.
Definition data (t : Tuple) : list Z := value t.

Definition DictionaryIterator : Set := list Tuple.

Fixpoint dict_find (iter : DictionaryIterator) (k : Z) : option Tuple :=
  match iter with
  | [] => None
  | t :: rest => if key t =? k then Some t else dict_find rest k
  end.

(** ** Static state of the watchface *)

(** Image resources of the trend arrows; [RESOURCE_0] is the literal 0 at
    index 0 of [ARROWS]. *)
Inductive resource_id : Set :=
  | RESOURCE_0
  | RESOURCE_ID_ARROW_UP_DOUBLE
  | RESOURCE_ID_ARROW_UP
  | RESOURCE_ID_ARROW_UP_SLANT
  | RESOURCE_ID_ARROW_FLAT
  | RESOURCE_ID_ARROW_DOWN_SLANT
  | RESOURCE_ID_ARROW_DOWN
  | RESOURCE_ID_ARROW_DOWN_DOUBLE.

Definition ARROWS : list resource_id :=
  [ RESOURCE_0;
    RESOURCE_ID_ARROW_UP_DOUBLE;
    RESOURCE_ID_ARROW_UP;
    RESOURCE_ID_ARROW_UP_SLANT;
    RESOURCE_ID_ARROW_FLAT;
    RESOURCE_ID_ARROW_DOWN_SLANT;
    RESOURCE_ID_ARROW_DOWN;
    RESOURCE_ID_ARROW_DOWN_DOUBLE ].

(** The file-scope variables.  A text layer is modelled by the buffer its text
    pointer refers to, the arrow layer by the bitmap it shows, and the graph
    layer by [None] (NULL) or [Some dirty]. *)
Record globals : Type := mkGlobals {
  s_bg_layer : option array;
  s_delta_layer : option array;
  s_time_ago_layer : option array;
  s_arrow_layer : option resource_id;
  s_arrow_bitmap : option resource_id;
  s_graph_layer : option bool;
  s_bg_timestamp : Z;
  s_bg_string : list Z;
  s_delta_string : list Z;
  s_arrow_index : Z;
  s_time_ago_buffer : list Z;
  s_graph_ref_timestamp : Z;
  s_graph_count : Z;
  s_graph_offsets : list Z;
  s_graph_bg_values : list Z;
  s_graph_high_line : Z;
  s_graph_low_line : Z
}.

Definition set_s_bg_layer (v : option array) (g : globals) : globals :=
  mkGlobals v (s_delta_layer g) (s_time_ago_layer g) (s_arrow_layer g)
    (s_arrow_bitmap g) (s_graph_layer g) (s_bg_timestamp g) (s_bg_string g)
    (s_delta_string g) (s_arrow_index g) (s_time_ago_buffer g)
    (s_graph_ref_timestamp g) (s_graph_count g) (s_graph_offsets g)
    (s_graph_bg_values g) (s_graph_high_line g) (s_graph_low_line g).

Definition set_s_delta_layer (v : option array) (g : globals) : globals :=
  mkGlobals (s_bg_layer g) v (s_time_ago_layer g) (s_arrow_layer g)
    (s_arrow_bitmap g) (s_graph_layer g) (s_bg_timestamp g) (s_bg_string g)
    (s_delta_string g) (s_arrow_index g) (s_time_ago_buffer g)
    (s_graph_ref_timestamp g) (s_graph_count g) (s_graph_offsets g)
    (s_graph_bg_values g) (s_graph_high_line g) (s_graph_low_line g).

Definition set_s_time_ago_layer (v : option array) (g : globals) : globals :=
  mkGlobals (s_bg_layer g) (s_delta_layer g) v (s_arrow_layer g)
    (s_arrow_bitmap g) (s_graph_layer g) (s_bg_timestamp g) (s_bg_string g)
    (s_delta_string g) (s_arrow_index g) (s_time_ago_buffer g)
    (s_graph_ref_timestamp g) (s_graph_count g) (s_graph_offsets g)
    (s_graph_bg_values g) (s_graph_high_line g) (s_graph_low_line g).

Definition set_s_arrow_layer (v : option resource_id) (g : globals) : globals :=
  mkGlobals (s_bg_layer g) (s_delta_layer g) (s_time_ago_layer g) v
    (s_arrow_bitmap g) (s_graph_layer g) (s_bg_timestamp g) (s_bg_string g)
    (s_delta_string g) (s_arrow_index g) (s_time_ago_buffer g)
    (s_graph_ref_timestamp g) (s_graph_count g) (s_graph_offsets g)
    (s_graph_bg_values g) (s_graph_high_line g) (s_graph_low_line g).

Definition set_s_arrow_bitmap (v : option resource_id) (g : globals) : globals :=
  mkGlobals (s_bg_layer g) (s_delta_layer g) (s_time_ago_layer g) (s_arrow_layer g)
    v (s_graph_layer g) (s_bg_timestamp g) (s_bg_string g)
    (s_delta_string g) (s_arrow_index g) (s_time_ago_buffer g)
    (s_graph_ref_timestamp g) (s_graph_count g) (s_graph_offsets g)
    (s_graph_bg_values g) (s_graph_high_line g) (s_graph_low_line g).

Definition set_s_graph_layer (v : option bool) (g : globals) : globals :=
  mkGlobals (s_bg_layer g) (s_delta_layer g) (s_time_ago_layer g) (s_arrow_layer g)
    (s_arrow_bitmap g) v (s_bg_timestamp g) (s_bg_string g)
    (s_delta_string g) (s_arrow_index g) (s_time_ago_buffer g)
    (s_graph_ref_timestamp g) (s_graph_count g) (s_graph_offsets g)
    (s_graph_bg_values g) (s_graph_high_line g) (s_graph_low_line g).

Definition set_s_bg_timestamp (v : Z) (g : globals) : globals :=
  mkGlobals (s_bg_layer g) (s_delta_layer g) (s_time_ago_layer g) (s_arrow_layer g)
    (s_arrow_bitmap g) (s_graph_layer g) v (s_bg_string g)
    (s_delta_string g) (s_arrow_index g) (s_time_ago_buffer g)
    (s_graph_ref_timestamp g) (s_graph_count g) (s_graph_offsets g)
    (s_graph_bg_values g) (s_graph_high_line g) (s_graph_low_line g).

Definition set_s_bg_string (v : list Z) (g : globals) : globals :=
  mkGlobals (s_bg_layer g) (s_delta_layer g) (s_time_ago_layer g) (s_arrow_layer g)
    (s_arrow_bitmap g) (s_graph_layer g) (s_bg_timestamp g) v
    (s_delta_string g) (s_arrow_index g) (s_time_ago_buffer g)
    (s_graph_ref_timestamp g) (s_graph_count g) (s_graph_offsets g)
    (s_graph_bg_values g) (s_graph_high_line g) (s_graph_low_line g).

Definition set_s_delta_string (v : list Z) (g : globals) : globals :=
  mkGlobals (s_bg_layer g) (s_delta_layer g) (s_time_ago_layer g) (s_arrow_layer g)
    (s_arrow_bitmap g) (s_graph_layer g) (s_bg_timestamp g) (s_bg_string g)
    v (s_arrow_index g) (s_time_ago_buffer g)
    (s_graph_ref_timestamp g) (s_graph_count g) (s_graph_offsets g)
    (s_graph_bg_values g) (s_graph_high_line g) (s_graph_low_line g).

Definition set_s_arrow_index (v : Z) (g : globals) : globals :=
  mkGlobals (s_bg_layer g) (s_delta_layer g) (s_time_ago_layer g) (s_arrow_layer g)
    (s_arrow_bitmap g) (s_graph_layer g) (s_bg_timestamp g) (s_bg_string g)
    (s_delta_string g) v (s_time_ago_buffer g)
    (s_graph_ref_timestamp g) (s_graph_count g) (s_graph_offsets g)
    (s_graph_bg_values g) (s_graph_high_line g) (s_graph_low_line g).

Definition set_s_time_ago_buffer (v : list Z) (g : globals) : globals :=
  mkGlobals (s_bg_layer g) (s_delta_layer g) (s_time_ago_layer g) (s_arrow_layer g)
    (s_arrow_bitmap g) (s_graph_layer g) (s_bg_timestamp g) (s_bg_string g)
    (s_delta_string g) (s_arrow_index g) v
    (s_graph_ref_timestamp g) (s_graph_count g) (s_graph_offsets g)
    (s_graph_bg_values g) (s_graph_high_line g) (s_graph_low_line g).

Definition set_s_graph_ref_timestamp (v : Z) (g : globals) : globals :=
  mkGlobals (s_bg_layer g) (s_delta_layer g) (s_time_ago_layer g) (s_arrow_layer g)
    (s_arrow_bitmap g) (s_graph_layer g) (s_bg_timestamp g) (s_bg_string g)
    (s_delta_string g) (s_arrow_index g) (s_time_ago_buffer g)
    v (s_graph_count g) (s_graph_offsets g)
    (s_graph_bg_values g) (s_graph_high_line g) (s_graph_low_line g).

Definition set_s_graph_count (v : Z) (g : globals) : globals :=
  mkGlobals (s_bg_layer g) (s_delta_layer g) (s_time_ago_layer g) (s_arrow_layer g)
    (s_arrow_bitmap g) (s_graph_layer g) (s_bg_timestamp g) (s_bg_string g)
    (s_delta_string g) (s_arrow_index g) (s_time_ago_buffer g)
    (s_graph_ref_timestamp g) v (s_graph_offsets g)
    (s_graph_bg_values g) (s_graph_high_line g) (s_graph_low_line g).

Definition set_s_graph_offsets (v : list Z) (g : globals) : globals :=
  mkGlobals (s_bg_layer g) (s_delta_layer g) (s_time_ago_layer g) (s_arrow_layer g)
    (s_arrow_bitmap g) (s_graph_layer g) (s_bg_timestamp g) (s_bg_string g)
    (s_delta_string g) (s_arrow_index g) (s_time_ago_buffer g)
    (s_graph_ref_timestamp g) (s_graph_count g) v
    (s_graph_bg_values g) (s_graph_high_line g) (s_graph_low_line g).

Definition set_s_graph_bg_values (v : list Z) (g : globals) : globals :=
  mkGlobals (s_bg_layer g) (s_delta_layer g) (s_time_ago_layer g) (s_arrow_layer g)
    (s_arrow_bitmap g) (s_graph_layer g) (s_bg_timestamp g) (s_bg_string g)
    (s_delta_string g) (s_arrow_index g) (s_time_ago_buffer g)
    (s_graph_ref_timestamp g) (s_graph_count g) (s_graph_offsets g)
    v (s_graph_high_line g) (s_graph_low_line g).

Definition set_s_graph_high_line (v : Z) (g : globals) : globals :=
  mkGlobals (s_bg_layer g) (s_delta_layer g) (s_time_ago_layer g) (s_arrow_layer g)
    (s_arrow_bitmap g) (s_graph_layer g) (s_bg_timestamp g) (s_bg_string g)
    (s_delta_string g) (s_arrow_index g) (s_time_ago_buffer g)
    (s_graph_ref_timestamp g) (s_graph_count g) (s_graph_offsets g)
    (s_graph_bg_values g) v (s_graph_low_line g).

Definition set_s_graph_low_line (v : Z) (g : globals) : globals :=
  mkGlobals (s_bg_layer g) (s_delta_layer g) (s_time_ago_layer g) (s_arrow_layer g)
    (s_arrow_bitmap g) (s_graph_layer g) (s_bg_timestamp g) (s_bg_string g)
    (s_delta_string g) (s_arrow_index g) (s_time_ago_buffer g)
    (s_graph_ref_timestamp g) (s_graph_count g) (s_graph_offsets g)
    (s_graph_bg_values g) (s_graph_high_line g) v.

(** A pointer to one of the static buffers is the buffer's name. *)
Definition deref (a : array) (g : globals) : list Z :=
  match a with
  | A_data => []
  | A_bg_string => s_bg_string g
  | A_delta_string => s_delta_string g
  | A_time_ago_buffer => s_time_ago_buffer g
  | A_graph_offsets => s_graph_offsets g
  | A_graph_bg_values => s_graph_bg_values g
  end.

Definition assign (a : array) (v : list Z) (g : globals) : globals :=
  match a with
  | A_data => g
  | A_bg_string => set_s_bg_string v g
  | A_delta_string => set_s_delta_string v g
  | A_time_ago_buffer => set_s_time_ago_buffer v g
  | A_graph_offsets => set_s_graph_offsets v g
  | A_graph_bg_values => set_s_graph_bg_values v g
  end.

(** ** Computations over the static state that record their accesses *)

Definition M (A : Type) : Type := globals -> A * globals * list access.

#[global] Instance M_ret : MRet M := fun A a g => (a, g, []).

#[global] Instance M_bind : MBind M := fun A B f m g =>
  let '(a, g1, t1) := m g in
  let '(b, g2, t2) := f a g1 in
  (b, g2, t1 ++ t2).

Definition get : M globals := fun g => (g, g, []).
Definition modify (f : globals -> globals) : M unit := fun g => (tt, f g, []).

Definition read (a : array) (i : Z) : M Z :=
  fun g => (load (deref a g) i, g, [Read a i]).
Definition write (a : array) (i v : Z) : M unit :=
  fun g => (tt, assign a (store (deref a g) i v) g, [Write a i]).
Definition read_data (payload : list Z) (i : Z) : M Z :=
  fun g => (load payload i, g, [Read A_data i]).

(** The state and the trace a computation ends with. *)
Definition exec {A} (m : M A) (g : globals) : globals := (m g).1.2.
Definition trace {A} (m : M A) (g : globals) : list access := (m g).2.

(** [for (int i = i0; ...; i++) body], run for [n] iterations. *)
Fixpoint for_loop (n : nat) (i : Z) (body : Z -> M unit) : M unit :=
  match n with
  | O => mret tt
  | S n' => body i;; for_loop n' (i + 1) body
  end.

(** ** String helpers *)

(** [strncpy] of the C library: copies characters of [src] up to and
    including the terminator, then pads with NUL, [count] characters in all.
    The end of the list [src] counts as a terminator. *)
Fixpoint strncpy_pad (n : nat) (dest : array) (i : Z) : M unit :=
  match n with
  | O => mret tt
  | S n' => write dest i 0;; strncpy_pad n' dest (i + 1)
  end.

Fixpoint strncpy_loop (n : nat) (dest : array) (i : Z) (src : list Z) : M unit :=
  match n with
  | O => mret tt
  | S n' =>
      match src with
      | c :: src' =>
          if c =? 0 then strncpy_pad n dest i
          else write dest i c;; strncpy_loop n' dest (i + 1) src'
      | [] => strncpy_pad n dest i
      end
  end.

Definition strncpy (dest : array) (src : list Z) (count : Z) : M unit :=
  strncpy_loop (Z.to_nat count) dest 0 src.

Definition safe_strncpy (dest : array) (src : list Z) (count : Z) : M unit :=
  if 0 <? count then
    strncpy dest src count;;
    write dest (count - 1) 0
  else mret tt.

(** Number of characters before the terminator. *)
Fixpoint strlen (src : list Z) : Z :=
  match src with
  | [] => 0
  | c :: src' => if c =? 0 then 0 else 1 + strlen src'
  end.

(** Character codes of a string literal, and ["%d"] of a number. *)
Definition chars (s : string) : list Z :=
  map (fun c => Z.of_N (Ascii.N_of_ascii c)) (String.list_ascii_of_string s).

Definition format_d (n : Z) : list Z :=
  chars (DecimalString.NilZero.string_of_int (Z.to_int n)).

(** [snprintf (dest, size, ...)] of an already formatted text: at most
    [size - 1] characters and a terminator. *)
Fixpoint snprintf_loop (n : nat) (dest : array) (i : Z) (text : list Z) : M unit :=
  match n, text with
  | S n', c :: text' => write dest i c;; snprintf_loop n' dest (i + 1) text'
  | _, _ => write dest i 0
  end.

Definition snprintf (dest : array) (size : Z) (text : list Z) : M unit :=
  if 0 <? size then snprintf_loop (Z.to_nat (size - 1)) dest 0 text else mret tt.

(** ** Display updates *)

(** [now] is the value of [time(NULL)]; the subtraction is unsigned 32-bit
    (a 32-bit [time_t] against [uint32_t]). *)
Definition update_displayed_time_ago (now : Z) : M unit :=
  g ← get;
  if s_bg_timestamp g =? 0 then mret tt
  else
    let minutes_ago := to_uint32 (now - s_bg_timestamp g) / 60 in
    (if minutes_ago <? 60
     then snprintf A_time_ago_buffer 4 (format_d minutes_ago ++ chars "m")
     else snprintf A_time_ago_buffer 4 (format_d (minutes_ago / 60) ++ chars "h"));;
    modify (set_s_time_ago_layer (Some A_time_ago_buffer)).

(** [gbitmap_create_with_resource], assumed to succeed. *)
Definition gbitmap_create_with_resource (r : resource_id) : option resource_id := Some r.

Definition update_displayed_xdrip_data : M unit :=
  modify (set_s_bg_layer (Some A_bg_string));;
  modify (set_s_delta_layer (Some A_delta_string));;
  g ← get;
  (if s_arrow_bitmap g is Some _
   then modify (set_s_arrow_bitmap None)
   else mret tt);;
  g ← get;
  if (0 <? s_arrow_index g) && (s_arrow_index g <? Z.of_nat (length ARROWS)) then
    modify (set_s_arrow_bitmap
              (gbitmap_create_with_resource
                 (default RESOURCE_0 (ARROWS !! Z.to_nat (s_arrow_index g)))));;
    g ← get;
    modify (set_s_arrow_layer (s_arrow_bitmap g))
  else
    modify (set_s_arrow_layer None).

(** [layer_mark_dirty (s_graph_layer)] under its NULL guard. *)
Definition mark_graph_dirty : M unit :=
  g ← get;
  if s_graph_layer g is Some _ then modify (set_s_graph_layer (Some true)) else mret tt.

(** ** Drawing *)

Definition to_int16 (z : Z) : Z := (z + 2 ^ 15) mod 2 ^ 16 - 2 ^ 15.

(** [GPoint] and [GRect] of the SDK have [int16_t] fields; [mk_GPoint] and
    [mk_GRect] are the macros [GPoint(x, y)] and [GRect(x, y, w, h)] applied
    to [int] arguments. *)
Record GPoint : Set := { point_x : Z; point_y : Z }.
Record GRect : Set := { origin_x : Z; origin_y : Z; size_w : Z; size_h : Z }.

Definition mk_GPoint (x y : Z) : GPoint :=
  {| point_x := to_int16 x; point_y := to_int16 y |}.
Definition mk_GRect (x y w h : Z) : GRect :=
  {| origin_x := to_int16 x; origin_y := to_int16 y;
     size_w := to_int16 w; size_h := to_int16 h |}.

(** The calls a render makes on the graphics context, in order (colour and
    stroke width settings are left out). *)
Inductive draw : Set :=
  | graphics_fill_rect (r : GRect)
  | graphics_draw_line (p0 p1 : GPoint)
  | graphics_draw_rect (r : GRect).

(** A counting loop that collects what each iteration draws. *)
Fixpoint for_draw (n : nat) (i : Z) (body : Z -> M (list draw)) : M (list draw) :=
  match n with
  | O => mret []
  | S n' =>
      d ← body i;
      ds ← for_draw n' (i + 1) body;
      mret (d ++ ds)
  end.

(** A counting loop over local variables [s] that also draws. *)
Fixpoint for_fold {S : Type} (n : nat) (i : Z) (body : Z -> S -> M (S * list draw))
    (s : S) : M (S * list draw) :=
  match n with
  | O => mret (s, [])
  | S n' =>
      r ← body i s;
      r' ← for_fold n' (i + 1) body r.1;
      mret (r'.1, r.2 ++ r'.2)
  end.

(** ** The extended revision: src/c/main.c with protocol.h *)

Module Extended.

Definition KEY_BG_TIMESTAMP : Z := 10.
Definition KEY_BG_STRING : Z := 11.
Definition KEY_DELTA_STRING : Z := 12.
Definition KEY_ARROW_INDEX : Z := 13.
Definition KEY_GRAPH_DATA : Z := 14.
Definition KEY_GRAPH_HIGH_LINE : Z := 15.
Definition KEY_GRAPH_LOW_LINE : Z := 16.

Definition MAX_GRAPH_POINTS : Z := 300.

(** The body of [if (graph_tuple && graph_tuple->length >= 6)].  The
    shifts are [int] arithmetic; with two's-complement wrap-around the
    conversion to [uint32_t] keeps the value modulo 2^32.  The arguments of
    the two [APP_LOG] calls after the loops are evaluated, so their array
    reads are part of the trace. *)
Definition parse_graph_data (graph_tuple : Tuple) : M unit :=
  let data := data graph_tuple in
  (* Parse reference timestamp (4 bytes, little-endian) *)
  d0 ← read_data data 0;
  d1 ← read_data data 1;
  d2 ← read_data data 2;
  d3 ← read_data data 3;
  modify (set_s_graph_ref_timestamp
            (to_uint32 (Z.lor (Z.lor (Z.lor d0 (Z.shiftl d1 8)) (Z.shiftl d2 16))
                              (Z.shiftl d3 24))));;
  (* Parse count (uint16, little-endian) *)
  d4 ← read_data data 4;
  d5 ← read_data data 5;
  modify (set_s_graph_count (to_uint16 (Z.lor d4 (Z.shiftl d5 8))));;
  g ← get;
  (if MAX_GRAPH_POINTS <? s_graph_count g
   then modify (set_s_graph_count MAX_GRAPH_POINTS)
   else mret tt);;
  (* Verify we have enough data (6 header + count*2 offsets + count*1 bg values) *)
  g ← get;
  let expected_size := 6 + s_graph_count g * 3 in
  if expected_size <=? tuple_length graph_tuple then
    (* Parse time offsets (uint16, little-endian) *)
    for_loop (Z.to_nat (s_graph_count g)) 0 (fun i =>
      let offset_idx := 6 + i * 2 in
      lo ← read_data data offset_idx;
      hi ← read_data data (offset_idx + 1);
      write A_graph_offsets i (to_uint16 (Z.lor lo (Z.shiftl hi 8))));;
    (* Parse BG values (multiply by 2 to restore original mg/dL) *)
    for_loop (Z.to_nat (s_graph_count g)) 0 (fun i =>
      g ← get;
      v ← read_data data (6 + s_graph_count g * 2 + i);
      write A_graph_bg_values i (to_uint16 (v * 2)));;
    (* First point / last point log lines *)
    _ ← read A_graph_offsets 0;
    _ ← read A_graph_bg_values 0;
    g ← get;
    _ ← read A_graph_offsets (s_graph_count g - 1);
    _ ← read A_graph_bg_values (s_graph_count g - 1);
    (* Trigger graph redraw *)
    mark_graph_dirty
  else mret tt.

Definition new_xdrip_data_callback (now : Z) (iter : DictionaryIterator) : M unit :=
  (* Check for timestamp (always present in data messages) *)
  match dict_find iter KEY_BG_TIMESTAMP with
  | Some timestamp_tuple =>
      modify (set_s_bg_timestamp (uint32 timestamp_tuple));;
      (* BG as string *)
      (match dict_find iter KEY_BG_STRING with
       | Some bg_tuple => safe_strncpy A_bg_string (cstring bg_tuple) 5
       | None => mret tt
       end);;
      (* Trend arrow *)
      (match dict_find iter KEY_ARROW_INDEX with
       | Some arrow_tuple => modify (set_s_arrow_index (uint8 arrow_tuple))
       | None => mret tt
       end);;
      (* Delta as string *)
      (match dict_find iter KEY_DELTA_STRING with
       | Some delta_tuple => safe_strncpy A_delta_string (cstring delta_tuple) 6
       | None => mret tt
       end);;
      (* Graph data *)
      (match dict_find iter KEY_GRAPH_DATA with
       | Some graph_tuple =>
           if 6 <=? tuple_length graph_tuple
           then parse_graph_data graph_tuple
           else mret tt
       | None => mret tt
       end);;
      (* Graph high/low lines *)
      (match dict_find iter KEY_GRAPH_HIGH_LINE with
       | Some high_line_tuple => modify (set_s_graph_high_line (uint16 high_line_tuple))
       | None => mret tt
       end);;
      (match dict_find iter KEY_GRAPH_LOW_LINE with
       | Some low_line_tuple => modify (set_s_graph_low_line (uint16 low_line_tuple))
       | None => mret tt
       end);;
      update_displayed_xdrip_data;;
      update_displayed_time_ago now
  | None => mret tt
  end.

(** The static initialisers. *)
Definition initial : globals :=
  {| s_bg_layer := None; s_delta_layer := None; s_time_ago_layer := None;
     s_arrow_layer := None; s_arrow_bitmap := None; s_graph_layer := None;
     s_bg_timestamp := 0;
     s_bg_string := chars "---" ++ [0; 0];
     s_delta_string := replicate 6 0;
     s_arrow_index := 0;
     s_time_ago_buffer := replicate 4 0;
     s_graph_ref_timestamp := 0;
     s_graph_count := 0;
     s_graph_offsets := replicate (Z.to_nat MAX_GRAPH_POINTS) 0;
     s_graph_bg_values := replicate (Z.to_nat MAX_GRAPH_POINTS) 0;
     s_graph_high_line := 180;
     s_graph_low_line := 72 |}.

Definition GRAPH_HOURS : Z := 3.

(** [graph_layer_update_proc]: [now] is [time(NULL)], [width] and [height]
    the size of the layer's bounds ([int16_t], so the [int] products below
    cannot overflow).  Returns the drawing calls made.  C division truncates:
    [Z.quot]. *)
Definition graph_layer_update_proc (now width height : Z) : M (list draw) :=
  g ← get;
  if s_graph_count g =? 0 then mret [] (* No data to display *)
  else
    (* Graph parameters *)
    let bg_min := 0 in
    let bg_max := 288 in
    (* Draw high/low threshold lines as thin rectangles *)
    let high_y :=
      height - Z.quot ((s_graph_high_line g - bg_min) * height) (bg_max - bg_min) in
    let low_y :=
      height - Z.quot ((s_graph_low_line g - bg_min) * height) (bg_max - bg_min) in
    let graph_minutes := GRAPH_HOURS * 60 in
    let now := to_uint32 now in
    (* Draw each point as a dot *)
    dots ← for_draw (Z.to_nat (s_graph_count g)) 0 (fun i =>
      (* Calculate absolute timestamp of this point *)
      offset ← read A_graph_offsets i;
      g ← get;
      let point_timestamp := to_uint32 (s_graph_ref_timestamp g + offset * 60) in
      (* Calculate how many minutes ago this point was from now *)
      let minutes_ago := Z.quot (to_uint32 (now - point_timestamp)) 60 in
      (* Skip points that are too old (off the left edge) *)
      if graph_minutes <? minutes_ago then mret []
      else
        (* X position: right edge = now (0 min ago), left edge = graph_minutes ago *)
        let x := width - Z.quot (minutes_ago * width) graph_minutes in
        (* Skip points that would be off-screen (negative x or too far right) *)
        if (x <? 0) || (width <=? x) then mret []
        else
          (* Y position: inverted (high BG at top) *)
          bg ← read A_graph_bg_values i;
          let y := height - Z.quot ((bg - bg_min) * height) (bg_max - bg_min) in
          (* Draw a dot *)
          let dot_size := 3 in
          mret [graphics_fill_rect (mk_GRect (x - 1) (y - 1) dot_size dot_size)]);
    mret (graphics_fill_rect (mk_GRect 0 high_y width 2)
          :: graphics_fill_rect (mk_GRect 0 low_y width 2)
          :: dots).

End Extended.

(** ** The compact revision: the earlier main.c *)

Module Compact.

Definition KEY_BG_TIMESTAMP : Z := 10.
Definition KEY_BG_STRING : Z := 11.
Definition KEY_DELTA_STRING : Z := 12.
Definition KEY_ARROW_INDEX : Z := 13.
Definition KEY_GRAPH_DATA : Z := 20.
Definition KEY_GRAPH_HIGH_LINE : Z := 21.
Definition KEY_GRAPH_LOW_LINE : Z := 22.

Definition MAX_GRAPH_POINTS : Z := 60.

(** The body of [if (graph_tuple && graph_tuple->length >= 5)]. *)
Definition parse_graph_data (graph_tuple : Tuple) : M unit :=
  let data := data graph_tuple in
  (* Parse reference timestamp (4 bytes, little-endian) *)
  d0 ← read_data data 0;
  d1 ← read_data data 1;
  d2 ← read_data data 2;
  d3 ← read_data data 3;
  modify (set_s_graph_ref_timestamp
            (to_uint32 (Z.lor (Z.lor (Z.lor d0 (Z.shiftl d1 8)) (Z.shiftl d2 16))
                              (Z.shiftl d3 24))));;
  (* Parse count *)
  d4 ← read_data data 4;
  modify (set_s_graph_count (to_uint8 d4));;
  g ← get;
  (if MAX_GRAPH_POINTS <? s_graph_count g
   then modify (set_s_graph_count MAX_GRAPH_POINTS)
   else mret tt);;
  (* Verify we have enough data *)
  g ← get;
  if 5 + s_graph_count g * 2 <=? tuple_length graph_tuple then
    (* Parse time offsets *)
    for_loop (Z.to_nat (s_graph_count g)) 0 (fun i =>
      v ← read_data data (5 + i);
      write A_graph_offsets i (to_uint8 v));;
    (* Parse BG values (multiply by 2 to restore original mg/dL) *)
    for_loop (Z.to_nat (s_graph_count g)) 0 (fun i =>
      g ← get;
      v ← read_data data (5 + s_graph_count g + i);
      write A_graph_bg_values i (to_uint16 (v * 2)));;
    (* Trigger graph redraw *)
    mark_graph_dirty
  else mret tt.

Definition new_xdrip_data_callback (now : Z) (iter : DictionaryIterator) : M unit :=
  (* Check for timestamp (always present in data messages) *)
  match dict_find iter KEY_BG_TIMESTAMP with
  | Some timestamp_tuple =>
      modify (set_s_bg_timestamp (uint32 timestamp_tuple));;
      (* BG as string *)
      (match dict_find iter KEY_BG_STRING with
       | Some bg_tuple => safe_strncpy A_bg_string (cstring bg_tuple) 5
       | None => mret tt
       end);;
      (* Trend arrow *)
      (match dict_find iter KEY_ARROW_INDEX with
       | Some arrow_tuple => modify (set_s_arrow_index (uint8 arrow_tuple))
       | None => mret tt
       end);;
      (* Delta as string *)
      (match dict_find iter KEY_DELTA_STRING with
       | Some delta_tuple => safe_strncpy A_delta_string (cstring delta_tuple) 6
       | None => mret tt
       end);;
      (* Graph data *)
      (match dict_find iter KEY_GRAPH_DATA with
       | Some graph_tuple =>
           if 5 <=? tuple_length graph_tuple
           then parse_graph_data graph_tuple
           else mret tt
       | None => mret tt
       end);;
      (* Graph high/low lines *)
      (match dict_find iter KEY_GRAPH_HIGH_LINE with
       | Some high_line_tuple => modify (set_s_graph_high_line (uint16 high_line_tuple))
       | None => mret tt
       end);;
      (match dict_find iter KEY_GRAPH_LOW_LINE with
       | Some low_line_tuple => modify (set_s_graph_low_line (uint16 low_line_tuple))
       | None => mret tt
       end);;
      update_displayed_xdrip_data;;
      update_displayed_time_ago now
  | None => mret tt
  end.

Definition initial : globals :=
  {| s_bg_layer := None; s_delta_layer := None; s_time_ago_layer := None;
     s_arrow_layer := None; s_arrow_bitmap := None; s_graph_layer := None;
     s_bg_timestamp := 0;
     s_bg_string := chars "---" ++ [0; 0];
     s_delta_string := replicate 6 0;
     s_arrow_index := 0;
     s_time_ago_buffer := replicate 4 0;
     s_graph_ref_timestamp := 0;
     s_graph_count := 0;
     s_graph_offsets := replicate (Z.to_nat MAX_GRAPH_POINTS) 0;
     s_graph_bg_values := replicate (Z.to_nat MAX_GRAPH_POINTS) 0;
     s_graph_high_line := 180;
     s_graph_low_line := 72 |}.

(** [graph_layer_update_proc] of this revision: positions by offset alone,
    values clamped to the plotted range. *)
Definition graph_layer_update_proc (width height : Z) : M (list draw) :=
  g ← get;
  if s_graph_count g =? 0 then mret [] (* No data to display *)
  else
    (* Graph parameters *)
    let graph_duration_minutes := 3 * 60 in
    let bg_min := 0 in
    let bg_max := 288 in
    (* Draw high/low threshold lines (2px horizontal lines) *)
    let high_y :=
      height - Z.quot ((s_graph_high_line g - bg_min) * height) (bg_max - bg_min) in
    let low_y :=
      height - Z.quot ((s_graph_low_line g - bg_min) * height) (bg_max - bg_min) in
    (* Draw each point as a dot *)
    dots ← for_draw (Z.to_nat (s_graph_count g)) 0 (fun i =>
      (* X position: offset / total_duration * width *)
      offset ← read A_graph_offsets i;
      let x := Z.quot (offset * width) graph_duration_minutes in
      (* Y position: inverted (high BG at top) *)
      bg ← read A_graph_bg_values i;
      let bg := if bg <? bg_min then bg_min else bg in
      let bg := if bg_max <? bg then bg_max else bg in
      let y := height - Z.quot ((bg - bg_min) * height) (bg_max - bg_min) in
      (* Draw a small dot *)
      mret [graphics_fill_rect (mk_GRect (x - 1) (y - 1) 3 3)]);
    mret (graphics_fill_rect (mk_GRect 0 high_y width 2)
          :: graphics_fill_rect (mk_GRect 0 low_y width 2)
          :: dots).

(** [init_test_mode_data] with [TEST_MODE] defined, as this revision's
    test_mode.h has it; [now] is the value of [time(NULL)]. *)
Definition TEST_MINUTES_AGO : Z := 3.
Definition TEST_ARROW_INDEX : Z := 4.
Definition TEST_GRAPH_COUNT : Z := 36.

Definition init_test_mode_data (now : Z) : M unit :=
  modify (set_s_bg_timestamp (to_uint32 (now - TEST_MINUTES_AGO * 60)));;
  safe_strncpy A_bg_string (chars "10.2" ++ [0]) 5;;
  modify (set_s_arrow_index TEST_ARROW_INDEX);;
  safe_strncpy A_delta_string (chars "+0.3" ++ [0]) 6;;
  (* Initialize test graph data (3 hours, every 5 minutes) *)
  modify (set_s_graph_ref_timestamp (to_uint32 (now - 3 * 60 * 60)));;
  modify (set_s_graph_count TEST_GRAPH_COUNT);;
  for_loop (Z.to_nat TEST_GRAPH_COUNT) 0 (fun i =>
    (* Offsets: 0, 5, 10, 15, ... 175 minutes *)
    write A_graph_offsets i (to_uint8 (i * 5));;
    let base_bg := 150 in
    let variation :=
      if Z.rem i 12 <? 6 then Z.rem i 12 * 8 else (12 - Z.rem i 12) * 8 in
    write A_graph_bg_values i (to_uint16 (base_bg + variation - 24))).

End Compact.

(** ** The half-unit revision: the main.c that keeps graph values in mg/dL / 2

    Same payload layout and keys as the extended revision; values are stored
    as received in a [uint8_t] array, the thresholds are read as [uint8], and
    there is no arrow index. *)

Module HalfUnits.

Definition KEY_BG_TIMESTAMP : Z := 10.
Definition KEY_BG_STRING : Z := 11.
Definition KEY_DELTA_STRING : Z := 12.
Definition KEY_GRAPH_DATA : Z := 14.
Definition KEY_GRAPH_HIGH_LINE : Z := 15.
Definition KEY_GRAPH_LOW_LINE : Z := 16.

Definition MAX_GRAPH_POINTS : Z := 300.

Definition update_displayed_xdrip_data : M unit :=
  modify (set_s_bg_layer (Some A_bg_string));;
  modify (set_s_delta_layer (Some A_delta_string));;
  (* Redraw graph (which includes the dynamic arrow) *)
  mark_graph_dirty.

Definition parse_graph_data (graph_tuple : Tuple) : M unit :=
  let data := data graph_tuple in
  d0 ← read_data data 0;
  d1 ← read_data data 1;
  d2 ← read_data data 2;
  d3 ← read_data data 3;
  modify (set_s_graph_ref_timestamp
            (to_uint32 (Z.lor (Z.lor (Z.lor d0 (Z.shiftl d1 8)) (Z.shiftl d2 16))
                              (Z.shiftl d3 24))));;
  d4 ← read_data data 4;
  d5 ← read_data data 5;
  modify (set_s_graph_count (to_uint16 (Z.lor d4 (Z.shiftl d5 8))));;
  g ← get;
  (if MAX_GRAPH_POINTS <? s_graph_count g
   then modify (set_s_graph_count MAX_GRAPH_POINTS)
   else mret tt);;
  g ← get;
  let expected_size := 6 + s_graph_count g * 3 in
  if expected_size <=? tuple_length graph_tuple then
    for_loop (Z.to_nat (s_graph_count g)) 0 (fun i =>
      let offset_idx := 6 + i * 2 in
      lo ← read_data data offset_idx;
      hi ← read_data data (offset_idx + 1);
      write A_graph_offsets i (to_uint16 (Z.lor lo (Z.shiftl hi 8))));;
    (* Parse BG values in "mg/dL / 2" units *)
    for_loop (Z.to_nat (s_graph_count g)) 0 (fun i =>
      g ← get;
      v ← read_data data (6 + s_graph_count g * 2 + i);
      write A_graph_bg_values i (to_uint8 v));;
    (* First point / last point log lines *)
    _ ← read A_graph_offsets 0;
    _ ← read A_graph_bg_values 0;
    g ← get;
    _ ← read A_graph_offsets (s_graph_count g - 1);
    _ ← read A_graph_bg_values (s_graph_count g - 1);
    mark_graph_dirty
  else mret tt.

Definition new_xdrip_data_callback (now : Z) (iter : DictionaryIterator) : M unit :=
  match dict_find iter KEY_BG_TIMESTAMP with
  | Some timestamp_tuple =>
      modify (set_s_bg_timestamp (uint32 timestamp_tuple));;
      (match dict_find iter KEY_BG_STRING with
       | Some bg_tuple => safe_strncpy A_bg_string (cstring bg_tuple) 5
       | None => mret tt
       end);;
      (match dict_find iter KEY_DELTA_STRING with
       | Some delta_tuple => safe_strncpy A_delta_string (cstring delta_tuple) 6
       | None => mret tt
       end);;
      (match dict_find iter KEY_GRAPH_DATA with
       | Some graph_tuple =>
           if 6 <=? tuple_length graph_tuple
           then parse_graph_data graph_tuple
           else mret tt
       | None => mret tt
       end);;
      (* Graph high/low lines (stored as mg/dL / 2) *)
      (match dict_find iter KEY_GRAPH_HIGH_LINE with
       | Some high_line_tuple => modify (set_s_graph_high_line (uint8 high_line_tuple))
       | None => mret tt
       end);;
      (match dict_find iter KEY_GRAPH_LOW_LINE with
       | Some low_line_tuple => modify (set_s_graph_low_line (uint8 low_line_tuple))
       | None => mret tt
       end);;
      update_displayed_xdrip_data;;
      update_displayed_time_ago now
  | None => mret tt
  end.

Definition initial : globals :=
  {| s_bg_layer := None; s_delta_layer := None; s_time_ago_layer := None;
     s_arrow_layer := None; s_arrow_bitmap := None; s_graph_layer := None;
     s_bg_timestamp := 0;
     s_bg_string := chars "---" ++ [0; 0];
     s_delta_string := replicate 6 0;
     s_arrow_index := 0;
     s_time_ago_buffer := replicate 4 0;
     s_graph_ref_timestamp := 0;
     s_graph_count := 0;
     s_graph_offsets := replicate (Z.to_nat MAX_GRAPH_POINTS) 0;
     s_graph_bg_values := replicate (Z.to_nat MAX_GRAPH_POINTS) 0;
     s_graph_high_line := 90;
     s_graph_low_line := 36 |}.

Definition GRAPH_HOURS : Z := 2.

(** The local variables of the drawing loop of [graph_layer_update_proc]. *)
Record locals : Set := {
  prev_x : Z; prev_y : Z;
  last_x : Z; last_y : Z;
  second_last_x : Z; second_last_y : Z;
  visible_count : Z
}.

(** [graph_layer_update_proc] of this revision: a line through the visible
    points and three dots past the last one.  [display_width] is
    [PBL_DISPLAY_WIDTH].  The result is [None] when the code divides by
    zero. *)
Definition graph_layer_update_proc (now display_width width height : Z)
    : M (option (list draw)) :=
  g ← get;
  if s_graph_count g =? 0 then mret (Some []) (* No data to display *)
  else
    (* Graph data width (2/3 of screen), not including arrow space *)
    let graph_width := Z.quot (display_width * 2) 3 in
    (* Graph parameters (all in "mg/dL / 2" units) *)
    let graph_min := 0 in
    let graph_max := 144 in
    (* Draw high/low threshold lines as thin rectangles (across full width) *)
    let high_y :=
      height - Z.quot ((s_graph_high_line g - graph_min) * height) (graph_max - graph_min) in
    let low_y :=
      height - Z.quot ((s_graph_low_line g - graph_min) * height) (graph_max - graph_min) in
    let graph_minutes := GRAPH_HOURS * 60 in
    let now := to_uint32 now in
    (* Draw graph line *)
    r ← for_fold (Z.to_nat (s_graph_count g)) 0 (fun i v =>
      (* Calculate absolute timestamp of this point *)
      offset ← read A_graph_offsets i;
      g ← get;
      let point_timestamp := to_uint32 (s_graph_ref_timestamp g + offset * 60) in
      (* Calculate how many minutes ago this point was from now *)
      let minutes_ago := Z.quot (to_uint32 (now - point_timestamp)) 60 in
      (* Skip points that are too old (off the left edge) *)
      if graph_minutes <? minutes_ago then mret (v, [])
      else
        (* X position: right edge = now (0 min ago), left edge = graph_minutes ago *)
        let x := graph_width - Z.quot (minutes_ago * graph_width) graph_minutes in
        (* Y position: inverted (high BG at top) *)
        bg ← read A_graph_bg_values i;
        let y := height - Z.quot ((bg - graph_min) * height) (graph_max - graph_min) in
        (* Draw line connecting to previous point *)
        let line :=
          if 0 <? visible_count v
          then [graphics_draw_line (mk_GPoint (prev_x v) (prev_y v)) (mk_GPoint x y)]
          else [] in
        (* Track last two points for arrow calculation *)
        mret ({| prev_x := x; prev_y := y;
                 last_x := x; last_y := y;
                 second_last_x := if 0 <? visible_count v then last_x v else second_last_x v;
                 second_last_y := if 0 <? visible_count v then last_y v else second_last_y v;
                 visible_count := visible_count v + 1 |}, line))
      {| prev_x := 0; prev_y := 0; last_x := 0; last_y := 0;
         second_last_x := 0; second_last_y := 0; visible_count := 0 |};
    let v := r.1 in
    let lines :=
      graphics_fill_rect (mk_GRect 0 high_y width 2)
      :: graphics_fill_rect (mk_GRect 0 low_y width 2)
      :: r.2 in
    (* Draw dynamic arrow extending from the most recent point *)
    if 2 <=? visible_count v then
      (* Calculate slope from second-to-last to last point *)
      let dx := last_x v - second_last_x v in
      let dy := last_y v - second_last_y v in
      (* Only draw arrow if we have a valid slope *)
      if negb (dx =? 0) || negb (dy =? 0) then
        (* Arrow length: 25 pixels *)
        let arrow_length := 25 in
        (* Calculate length of the direction vector (approximate) *)
        let abs_dx := if 0 <? dx then dx else - dx in
        let abs_dy := if 0 <? dy then dy else - dy in
        let approx_len :=
          if abs_dy <? abs_dx then abs_dx + Z.quot abs_dy 2 else abs_dy + Z.quot abs_dx 2 in
        let approx_len := if approx_len =? 0 then 1 else approx_len in
        (* Scale the direction vector to arrow_length (only logged) *)
        let arrow_dx := Z.quot (dx * arrow_length) approx_len in
        let arrow_dy := Z.quot (dy * arrow_length) approx_len in
        let arrow_end := mk_GPoint (last_x v + arrow_dx) (last_y v + arrow_dy) in
        let num_dots := 3 in
        let dot_dx := Z.quot display_width (8 * num_dots) in
        if dx =? 0 then mret None (* dot_dx * dy / dx *)
        else
          let dot_dy := Z.quot (dot_dx * dy) dx in
          mret (Some (lines ++
            map (fun k => graphics_draw_rect
                            (mk_GRect (prev_x v + k * dot_dx) (prev_y v + k * dot_dy) 2 2))
                [1; 2; 3]))
      else mret (Some lines)
    else mret (Some lines).

End HalfUnits.

(** ** Static checks of an access trace *)

(** Size of each array, [len] being the length of the graph payload and [cap]
    the revision's [MAX_GRAPH_POINTS]. *)
Definition array_size (len cap : Z) (a : array) : Z :=
  match a with
  | A_data => len
  | A_bg_string => 5
  | A_delta_string => 6
  | A_time_ago_buffer => 4
  | A_graph_offsets => cap
  | A_graph_bg_values => cap
  end.

Definition access_ok (len cap : Z) (e : access) : bool :=
  match e with
  | Read a i => in_bounds (array_size len cap a) i
  | Write a i => in_bounds (array_size len cap a) i
  end.

#[global] Instance array_eq_dec : EqDecision array.
Proof. solve_decision. Defined.

Definition touches (a : array) (e : access) : bool :=
  match e with
  | Read b _ => bool_decide (a = b)
  | Write b _ => bool_decide (a = b)
  end.


(** ** Closed forms of the decoding loops *)

(** [fill f n i l]: the array after [l[j] = f j] for [j = i .. i + n - 1]. *)
Fixpoint fill (f : Z -> Z) (n : nat) (i : Z) (l : list Z) : list Z :=
  match n with
  | O => l
  | S n' => fill f n' (i + 1) (store l i (f i))
  end.

Fixpoint loop_trace (t : Z -> list access) (n : nat) (i : Z) : list access :=
  match n with
  | O => []
  | S n' => t i ++ loop_trace t n' (i + 1)
  end.

(** The value a computation returns. *)
Definition result {A} (m : M A) (g : globals) : A := (m g).1.1.

(** The character [strncpy] stores at index [k]: the [k]-th character of the
    string, or the padding NUL. *)
Definition str_at (src : list Z) (k : Z) : Z :=
  if k <? strlen src then load src k else 0.

(** ** Frame and trace predicates *)

(** [m] leaves the component [p] of the static state as it was. *)
Definition preserves {X A} (p : globals -> X) (m : M A) : Prop :=
  forall g, p (exec m g) = p g.

(** Every access [m] performs satisfies [P]. *)
Definition traces {A} (P : access -> Prop) (m : M A) : Prop :=
  forall g, Forall P (trace m g).

(** ** The graph series and the closed form of its decoding *)

(** The part of the static state owned by the graph decoder. *)
Definition graph_part (g : globals) : Z * Z * list Z * list Z * option bool :=
  (s_graph_ref_timestamp g, s_graph_count g, s_graph_offsets g, s_graph_bg_values g,
   s_graph_layer g).

(** An access of the field decoder or of the display update: a write into
    one of the string buffers, inside it. *)
Definition string_access (e : access) : Prop :=
  match e with
  | Write A_bg_string j => 0 <= j < 5
  | Write A_delta_string j => 0 <= j < 6
  | Write A_time_ago_buffer j => 0 <= j < 4
  | _ => False
  end.

(** [data[0] | data[1] << 8 | data[2] << 16 | data[3] << 24] as [uint32_t]. *)
Definition ref_timestamp_of (payload : list Z) : Z :=
  to_uint32 (Z.lor (Z.lor (Z.lor (load payload 0) (Z.shiftl (load payload 1) 8))
                          (Z.shiftl (load payload 2) 16))
                   (Z.shiftl (load payload 3) 24)).

Definition header_reads (n : Z) : list access := map (Read A_data) (seqZ 0 n).

Definition extended_declared_count (payload : list Z) : Z :=
  to_uint16 (Z.lor (load payload 4) (Z.shiftl (load payload 5) 8)).

Definition extended_count (payload : list Z) : Z :=
  if Extended.MAX_GRAPH_POINTS <? extended_declared_count payload
  then Extended.MAX_GRAPH_POINTS
  else extended_declared_count payload.

Definition extended_offset (payload : list Z) (i : Z) : Z :=
  to_uint16 (Z.lor (load payload (6 + i * 2)) (Z.shiftl (load payload (6 + i * 2 + 1)) 8)).

Definition extended_value (payload : list Z) (i : Z) : Z :=
  to_uint16 (load payload (6 + extended_count payload * 2 + i) * 2).

Definition extended_loops_trace (c : Z) : list access :=
  loop_trace (fun i => [Read A_data (6 + i * 2); Read A_data (6 + i * 2 + 1);
                        Write A_graph_offsets i]) (Z.to_nat c) 0
  ++ loop_trace (fun i => [Read A_data (6 + c * 2 + i); Write A_graph_bg_values i])
       (Z.to_nat c) 0.

Definition extended_log_reads (c : Z) : list access :=
  [Read A_graph_offsets 0; Read A_graph_bg_values 0;
   Read A_graph_offsets (c - 1); Read A_graph_bg_values (c - 1)].

Definition compact_declared_count (payload : list Z) : Z := to_uint8 (load payload 4).

Definition compact_count (payload : list Z) : Z :=
  if Compact.MAX_GRAPH_POINTS <? compact_declared_count payload
  then Compact.MAX_GRAPH_POINTS
  else compact_declared_count payload.

Definition compact_offset (payload : list Z) (i : Z) : Z := to_uint8 (load payload (5 + i)).

Definition compact_value (payload : list Z) (i : Z) : Z :=
  to_uint16 (load payload (5 + compact_count payload + i) * 2).

Definition compact_loops_trace (c : Z) : list access :=
  loop_trace (fun i => [Read A_data (5 + i); Write A_graph_offsets i]) (Z.to_nat c) 0
  ++ loop_trace (fun i => [Read A_data (5 + c + i); Write A_graph_bg_values i])
       (Z.to_nat c) 0.

(** [layer_mark_dirty] under its guard, as a state transformer. *)
Definition marked_dirty (g : globals) : globals :=
  if s_graph_layer g is Some _ then set_s_graph_layer (Some true) g else g.

(** ** The decoded series as the specification words it *)

(** The little-endian 32-bit number held in bytes 0 to 3 of a payload. *)
Definition le32_at0 (payload : list Z) : Z :=
  load payload 0 + 256 * load payload 1 + 65536 * load payload 2
  + 16777216 * load payload 3.

(** The static state holds the series with reference timestamp [ref] and the
    [n] points [(offset i, value i)]. *)
Definition graph_series_is (g : globals) (ref n : Z) (offset value : Z -> Z) : Prop :=
  s_graph_ref_timestamp g = ref
  /\ s_graph_count g = n
  /\ forall i, 0 <= i < n ->
       load (s_graph_offsets g) i = offset i /\ load (s_graph_bg_values g) i = value i.

(** ** Invariants of the static state *)

(** The sizes of the five static arrays. *)
Definition sizes (g : globals) : nat * nat * nat * nat * nat :=
  (length (s_bg_string g), length (s_delta_string g), length (s_time_ago_buffer g),
   length (s_graph_offsets g), length (s_graph_bg_values g)).

(** The arrays have their declared sizes, [cap] being [MAX_GRAPH_POINTS], and
    the count does not exceed the capacity. *)
Definition graph_wf (cap : Z) (g : globals) : Prop :=
  sizes g = (5%nat, 6%nat, 4%nat, Z.to_nat cap, Z.to_nat cap)
  /\ 0 <= s_graph_count g <= cap.

Definition halfunits_value (payload : list Z) (i : Z) : Z :=
  to_uint8 (load payload (6 + extended_count payload * 2 + i)).

(** ** Closed forms of the renders *)

(** What a loop over local variables computes when its body is the pure
    function [f]. *)
Fixpoint fold_pure {S : Type} (f : Z -> S -> S * list draw) (l : list Z) (s : S)
    : S * list draw :=
  match l with
  | [] => (s, [])
  | j :: l' =>
      let r := f j s in
      let r' := fold_pure f l' r.1 in
      (r'.1, r.2 ++ r'.2)
  end.

(** Age in minutes of point [i] at time [now], as the renders compute it. *)
Definition minutes_ago_of (now : Z) (g : globals) (i : Z) : Z :=
  Z.quot (to_uint32 (to_uint32 now
            - to_uint32 (s_graph_ref_timestamp g + load (s_graph_offsets g) i * 60))) 60.

(** Height on the layer of the value [bg] when the top is [bg_max]. *)
Definition plot_y (bg_max height bg : Z) : Z := height - Z.quot (bg * height) bg_max.

(** Position of point [i] in the half-unit render, when it is not older than
    the two hours shown. *)
Definition halfunits_point (now display_width height : Z) (g : globals) (i : Z)
    : option (Z * Z) :=
  let m := minutes_ago_of now g i in
  if 2 * 60 <? m then None
  else
    let graph_width := Z.quot (display_width * 2) 3 in
    Some (graph_width - Z.quot (m * graph_width) (2 * 60),
          plot_y 144 height (load (s_graph_bg_values g) i)).

(** The points the half-unit render joins by a line, oldest index first. *)
Definition halfunits_visible (now display_width height : Z) (g : globals)
    : list (Z * Z) :=
  omap (halfunits_point now display_width height g) (seqZ 0 (s_graph_count g)).

(** The local variables after one more visible point. *)
Definition halfunits_track (v : HalfUnits.locals) (p : Z * Z) : HalfUnits.locals :=
  {| HalfUnits.prev_x := p.1; HalfUnits.prev_y := p.2;
     HalfUnits.last_x := p.1; HalfUnits.last_y := p.2;
     HalfUnits.second_last_x :=
       if 0 <? HalfUnits.visible_count v
       then HalfUnits.last_x v else HalfUnits.second_last_x v;
     HalfUnits.second_last_y :=
       if 0 <? HalfUnits.visible_count v
       then HalfUnits.last_y v else HalfUnits.second_last_y v;
     HalfUnits.visible_count := HalfUnits.visible_count v + 1 |}.

Definition halfunits_no_points : HalfUnits.locals :=
  {| HalfUnits.prev_x := 0; HalfUnits.prev_y := 0;
     HalfUnits.last_x := 0; HalfUnits.last_y := 0;
     HalfUnits.second_last_x := 0; HalfUnits.second_last_y := 0;
     HalfUnits.visible_count := 0 |}.

(** The characters of a C string held in an array: those before the first
    NUL. *)
Definition cstr (l : list Z) : list Z := take (Z.to_nat (strlen l)) l.

(** ** The series of the test mode *)

Definition test_offset (i : Z) : Z := to_uint8 (i * 5).

Definition test_value (i : Z) : Z :=
  to_uint16 (150 + (if Z.rem i 12 <? 6 then Z.rem i 12 * 8 else (12 - Z.rem i 12) * 8) - 24).

(** ** Strings as a buffer holds them *)

(** The contents of a buffer of [c] bytes that holds the string at [src] cut
    to [c - 1] characters, with NUL from its end to the end of the buffer. *)
Definition c_string (c : Z) (src : list Z) : list Z :=
  take (Z.to_nat c) (take (Z.to_nat (c - 1)) (cstr src) ++ replicate (Z.to_nat c) 0).

(** [strncpy (_, src, c)] reads only bytes that are listed in [src]: the
    string ends inside the list, or the list holds [c] bytes. *)
Definition reads_inside (c : Z) (src : list Z) : Prop :=
  Z.min (strlen src + 1) c <= Z.of_nat (length src).

(** * Properties *)

(** ** Arrays *)

Lemma in_bounds_spec len i : in_bounds len i = true <-> 0 <= i < len.
Proof. unfold in_bounds. rewrite andb_true_iff, Z.leb_le, Z.ltb_lt. tauto. Qed.

Lemma in_bounds_false len i : in_bounds len i = false <-> ~ (0 <= i < len).
Proof. rewrite <- in_bounds_spec. destruct (in_bounds len i); intuition congruence. Qed.

Lemma length_store l i v : length (store l i v) = length l.
Proof. unfold store. destruct (in_bounds _ _); [apply length_insert | done]. Qed.

Lemma load_store_eq l i v :
  0 <= i < Z.of_nat (length l) -> load (store l i v) i = v.
Proof.
  intros Hi. unfold load. rewrite length_store.
  pose proof (proj2 (in_bounds_spec _ _) Hi) as Hb. rewrite Hb.
  unfold store. rewrite Hb. rewrite list_lookup_insert_eq by lia. done.
Qed.

Lemma load_store_ne l i j v : i <> j -> load (store l i v) j = load l j.
Proof.
  intros Hne. unfold load. rewrite length_store.
  destruct (in_bounds (Z.of_nat (length l)) j) eqn:Hj; [|done].
  unfold store. destruct (in_bounds (Z.of_nat (length l)) i) eqn:Hi; [|done].
  apply in_bounds_spec in Hi, Hj.
  rewrite list_lookup_insert_ne by lia. done.
Qed.

Lemma length_fill f n : forall i l, length (fill f n i l) = length l.
Proof.
  induction n as [|n IH]; intros i l; simpl; [done|].
  rewrite IH. apply length_store.
Qed.

Lemma fill_ext f f' n : forall i l,
  (forall j, f j = f' j) -> fill f n i l = fill f' n i l.
Proof.
  induction n as [|n IH]; intros i l Hf; simpl; [done|].
  rewrite Hf. by apply IH.
Qed.

Lemma load_fill_before f n : forall i l k,
  k < i -> load (fill f n i l) k = load l k.
Proof.
  induction n as [|n IH]; intros i l k Hk; simpl; [done|].
  rewrite IH by lia. apply load_store_ne. lia.
Qed.

Lemma load_fill_after f n : forall i l k,
  i + Z.of_nat n <= k -> load (fill f n i l) k = load l k.
Proof.
  induction n as [|n IH]; intros i l k Hk; simpl; [done|].
  rewrite IH by lia. apply load_store_ne. lia.
Qed.

Lemma load_fill_in f n : forall i l k,
  0 <= i -> i + Z.of_nat n <= Z.of_nat (length l) -> i <= k < i + Z.of_nat n ->
  load (fill f n i l) k = f k.
Proof.
  induction n as [|n IH]; intros i l k Hi Hlen Hk; simpl; [lia|].
  destruct (decide (k = i)) as [->|Hne].
  - rewrite load_fill_before by lia. apply load_store_eq. lia.
  - apply IH; rewrite ?length_store; lia.
Qed.

Lemma Forall_loop_trace (P : access -> Prop) t n : forall i,
  (forall j, i <= j < i + Z.of_nat n -> Forall P (t j)) ->
  Forall P (loop_trace t n i).
Proof.
  induction n as [|n IH]; intros i H; simpl; [constructor|].
  apply Forall_app. split.
  - apply H. lia.
  - apply IH. intros j Hj. apply H. lia.
Qed.

Lemma loop_trace_ext t t' n : forall i,
  (forall j, t j = t' j) -> loop_trace t n i = loop_trace t' n i.
Proof.
  induction n as [|n IH]; intros i H; simpl; [done|].
  rewrite H. f_equal. by apply IH.
Qed.

(** ** Static state *)

Lemma assign_deref a g : assign a (deref a g) g = g.
Proof. destruct g, a; reflexivity. Qed.

Lemma deref_assign a v g : a <> A_data -> deref a (assign a v g) = v.
Proof. destruct a; intros H; try reflexivity. done. Qed.

Lemma assign_assign a v w g : assign a v (assign a w g) = assign a v g.
Proof. destruct a; reflexivity. Qed.

(** ** Sequencing *)

Lemma exec_bind {A B} (m : M A) (f : A -> M B) g :
  exec (m ≫= f) g = exec (f (result m g)) (exec m g).
Proof.
  unfold exec, result, mbind, M_bind.
  destruct (m g) as [[a g1] t1]; simpl. by destruct (f a g1) as [[??]?].
Qed.

Lemma trace_bind {A B} (m : M A) (f : A -> M B) g :
  trace (m ≫= f) g = trace m g ++ trace (f (result m g)) (exec m g).
Proof.
  unfold trace, exec, result, mbind, M_bind.
  destruct (m g) as [[a g1] t1]; simpl. by destruct (f a g1) as [[??]?].
Qed.

Lemma result_bind {A B} (m : M A) (f : A -> M B) g :
  result (m ≫= f) g = result (f (result m g)) (exec m g).
Proof.
  unfold exec, result, mbind, M_bind.
  destruct (m g) as [[a g1] t1]; simpl. by destruct (f a g1) as [[??]?].
Qed.

(** A counting loop whose body reads, then writes [a[i]]: its closed form. *)
Lemma for_loop_closed a (rd : globals -> Z -> list access) (f : globals -> Z -> Z)
    (body : Z -> M unit) :
  a <> A_data ->
  (forall i g,
     body i g = (tt, assign a (store (deref a g) i (f g i)) g, rd g i ++ [Write a i])) ->
  (forall g v j, f (assign a v g) j = f g j) ->
  (forall g v j, rd (assign a v g) j = rd g j) ->
  forall n i g,
    for_loop n i body g
    = (tt, assign a (fill (f g) n i (deref a g)) g,
       loop_trace (fun j => rd g j ++ [Write a j]) n i).
Proof.
  intros Ha Hbody Hf Hrd. induction n as [|n IH]; intros i g.
  - simpl. by rewrite assign_deref.
  - simpl. unfold mbind, M_bind. rewrite Hbody, IH.
    rewrite deref_assign, assign_assign by done.
    f_equal; [f_equal|].
    + f_equal. apply fill_ext. intros j. apply Hf.
    + f_equal. apply loop_trace_ext. intros j. by rewrite Hrd.
Qed.

Lemma bind_unfold {A B} (m : M A) (f : A -> M B) g :
  (m ≫= f) g
  = let '(a, g1, t1) := m g in let '(b, g2, t2) := f a g1 in (b, g2, t1 ++ t2).
Proof. reflexivity. Qed.

Lemma exec_eq {A} (m : M A) g a g' t : m g = (a, g', t) -> exec m g = g'.
Proof. unfold exec. by intros ->. Qed.

Lemma trace_eq {A} (m : M A) g a g' t : m g = (a, g', t) -> trace m g = t.
Proof. unfold trace. by intros ->. Qed.

(** ** Frame rules *)

Section Preserves.
Context {X : Type} (p : globals -> X).

Lemma preserves_ret {A} (a : A) : preserves p (mret a).
Proof. by intros g. Qed.

Lemma preserves_bind {A B} (m : M A) (f : A -> M B) :
  preserves p m -> (forall a, preserves p (f a)) -> preserves p (m ≫= f).
Proof. intros Hm Hf g. rewrite exec_bind, Hf. apply Hm. Qed.

Lemma preserves_get : preserves p get.
Proof. by intros g. Qed.

Lemma preserves_modify f : (forall g, p (f g) = p g) -> preserves p (modify f).
Proof. intros H g. apply H. Qed.

Lemma preserves_read a i : preserves p (read a i).
Proof. by intros g. Qed.

Lemma preserves_read_data d i : preserves p (read_data d i).
Proof. by intros g. Qed.

Lemma preserves_write a i v :
  (forall g w, p (assign a w g) = p g) -> preserves p (write a i v).
Proof. intros H g. apply H. Qed.

Lemma preserves_for_loop body n : forall i,
  (forall j, preserves p (body j)) -> preserves p (for_loop n i body).
Proof.
  induction n as [|n IH]; intros i H; simpl.
  - apply preserves_ret.
  - apply preserves_bind; [apply H | intros _; by apply IH].
Qed.

Lemma preserves_strncpy_pad dest n : forall i,
  (forall g w, p (assign dest w g) = p g) -> preserves p (strncpy_pad n dest i).
Proof.
  induction n as [|n IH]; intros i H; simpl.
  - apply preserves_ret.
  - apply preserves_bind; [by apply preserves_write | intros _; by apply IH].
Qed.

Lemma preserves_strncpy_loop dest n : forall i src,
  (forall g w, p (assign dest w g) = p g) -> preserves p (strncpy_loop n dest i src).
Proof.
  induction n as [|n IH]; intros i src H; [apply preserves_ret|].
  cbn [strncpy_loop]. destruct src as [|c src].
  - by apply preserves_strncpy_pad.
  - destruct (c =? 0).
    + by apply preserves_strncpy_pad.
    + apply preserves_bind; [by apply preserves_write | intros _; by apply IH].
Qed.

Lemma preserves_safe_strncpy dest src count :
  (forall g w, p (assign dest w g) = p g) -> preserves p (safe_strncpy dest src count).
Proof.
  intros H. unfold safe_strncpy, strncpy. destruct (0 <? count).
  - apply preserves_bind; [by apply preserves_strncpy_loop | intros _].
    by apply preserves_write.
  - apply preserves_ret.
Qed.

Lemma preserves_snprintf_loop dest n : forall i text,
  (forall g w, p (assign dest w g) = p g) -> preserves p (snprintf_loop n dest i text).
Proof.
  induction n as [|n IH]; intros i text H; simpl.
  - destruct text; by apply preserves_write.
  - destruct text as [|c text]; [by apply preserves_write|].
    apply preserves_bind; [by apply preserves_write | intros _; by apply IH].
Qed.

Lemma preserves_snprintf dest size text :
  (forall g w, p (assign dest w g) = p g) -> preserves p (snprintf dest size text).
Proof.
  intros H. unfold snprintf. destruct (0 <? size).
  - by apply preserves_snprintf_loop.
  - apply preserves_ret.
Qed.

End Preserves.

(** ** Trace rules *)

Section Traces.
Context (P : access -> Prop).

Lemma traces_ret {A} (a : A) : traces P (mret a).
Proof. intros g. constructor. Qed.

Lemma traces_bind {A B} (m : M A) (f : A -> M B) :
  traces P m -> (forall a, traces P (f a)) -> traces P (m ≫= f).
Proof. intros Hm Hf g. rewrite trace_bind. apply Forall_app. split; [apply Hm | apply Hf]. Qed.

Lemma traces_get : traces P get.
Proof. intros g. constructor. Qed.

Lemma traces_modify f : traces P (modify f).
Proof. intros g. constructor. Qed.

Lemma traces_read a i : P (Read a i) -> traces P (read a i).
Proof. intros H g. by repeat constructor. Qed.

Lemma traces_read_data d i : P (Read A_data i) -> traces P (read_data d i).
Proof. intros H g. by repeat constructor. Qed.

Lemma traces_write a i v : P (Write a i) -> traces P (write a i v).
Proof. intros H g. by repeat constructor. Qed.

Lemma traces_strncpy_pad dest n : forall i,
  (forall j, i <= j < i + Z.of_nat n -> P (Write dest j)) ->
  traces P (strncpy_pad n dest i).
Proof.
  induction n as [|n IH]; intros i H; simpl.
  - apply traces_ret.
  - apply traces_bind; [apply traces_write, H; lia | intros _].
    apply IH. intros j Hj. apply H. lia.
Qed.

Lemma traces_strncpy_loop dest n : forall i src,
  (forall j, i <= j < i + Z.of_nat n -> P (Write dest j)) ->
  traces P (strncpy_loop n dest i src).
Proof.
  induction n as [|n IH]; intros i src H; [apply traces_ret|].
  cbn [strncpy_loop]. destruct src as [|c src].
  - by apply traces_strncpy_pad.
  - destruct (c =? 0).
    + by apply traces_strncpy_pad.
    + apply traces_bind; [apply traces_write, H; lia | intros _].
      apply IH. intros j Hj. apply H. lia.
Qed.

Lemma traces_safe_strncpy dest src count :
  (forall j, 0 <= j < count -> P (Write dest j)) ->
  traces P (safe_strncpy dest src count).
Proof.
  intros H. unfold safe_strncpy, strncpy. destruct (0 <? count) eqn:Hc.
  - apply Z.ltb_lt in Hc.
    apply traces_bind; [apply traces_strncpy_loop | intros _; apply traces_write].
    + intros j Hj. apply H. lia.
    + apply H. lia.
  - apply traces_ret.
Qed.

Lemma traces_snprintf_loop dest n : forall i text,
  (forall j, i <= j <= i + Z.of_nat n -> P (Write dest j)) ->
  traces P (snprintf_loop n dest i text).
Proof.
  induction n as [|n IH]; intros i text H; simpl.
  - destruct text; apply traces_write, H; lia.
  - destruct text as [|c text]; [apply traces_write, H; lia|].
    apply traces_bind; [apply traces_write, H; lia | intros _].
    apply IH. intros j Hj. apply H. lia.
Qed.

Lemma traces_snprintf dest size text :
  (forall j, 0 <= j < size -> P (Write dest j)) ->
  traces P (snprintf dest size text).
Proof.
  intros H. unfold snprintf. destruct (0 <? size) eqn:Hs.
  - apply Z.ltb_lt in Hs. apply traces_snprintf_loop. intros j Hj. apply H. lia.
  - apply traces_ret.
Qed.

End Traces.

(** Discharges [preserves p m] for a concrete component [p] by following the
    structure of [m]. *)
Ltac frame :=
  unfold update_displayed_xdrip_data, update_displayed_time_ago, mark_graph_dirty,
    Extended.parse_graph_data, Compact.parse_graph_data;
  repeat first
    [ progress cbv zeta
    | apply preserves_ret
    | apply preserves_get
    | apply preserves_read
    | apply preserves_read_data
    | apply preserves_safe_strncpy; intros ? ?; reflexivity
    | apply preserves_snprintf; intros ? ?; reflexivity
    | apply preserves_for_loop; intros ?
    | apply preserves_modify; intros ?; reflexivity
    | apply preserves_write; intros ? ?; reflexivity
    | apply preserves_bind; [|intros ?]
    | match goal with
      | |- preserves _ (if ?b then _ else _) => destruct b
      | |- preserves _ (match ?o with Some _ => _ | None => _ end) => destruct o
      end ].

(** Drops one step that does not change the component under observation. *)
Ltac skip :=
  match goal with
  | |- context [?p (exec ?m ?g)] =>
      let H := fresh in
      assert (H : preserves p m) by (frame; fail);
      rewrite (H g); clear H
  end.

(** ** Strings *)

Lemma fill_ext_range f f' n : forall i l,
  (forall j, i <= j < i + Z.of_nat n -> f j = f' j) -> fill f n i l = fill f' n i l.
Proof.
  induction n as [|n IH]; intros i l Hf; simpl; [done|].
  rewrite Hf by lia. apply IH. intros j Hj. apply Hf. lia.
Qed.

Lemma strlen_nonneg src : 0 <= strlen src.
Proof. induction src as [|c src IH]; simpl; [lia|]. destruct (c =? 0); lia. Qed.

Lemma load_cons_0 c l : load (c :: l) 0 = c.
Proof. unfold load, in_bounds. simpl. done. Qed.

Lemma load_cons_succ c l k : 0 < k -> load (c :: l) k = load l (k - 1).
Proof.
  intros Hk. unfold load.
  destruct (in_bounds (Z.of_nat (length l)) (k - 1)) eqn:Hb.
  - apply in_bounds_spec in Hb.
    assert (Hb' : in_bounds (Z.of_nat (length (c :: l))) k = true).
    { apply in_bounds_spec. simpl length. lia. }
    rewrite Hb'. replace (Z.to_nat k) with (S (Z.to_nat (k - 1))) by lia. done.
  - apply in_bounds_false in Hb.
    assert (Hb' : in_bounds (Z.of_nat (length (c :: l))) k = false).
    { apply in_bounds_false. simpl length. lia. }
    by rewrite Hb'.
Qed.

Lemma str_at_cons c src k :
  c <> 0 -> 0 < k -> str_at (c :: src) k = str_at src (k - 1).
Proof.
  intros Hc Hk. unfold str_at. simpl strlen.
  destruct (Z.eqb_spec c 0) as [|_]; [done|].
  rewrite load_cons_succ by done.
  destruct (Z.ltb_spec k (1 + strlen src)), (Z.ltb_spec (k - 1) (strlen src)); done || lia.
Qed.

Lemma str_at_end src k : strlen src <= k -> str_at src k = 0.
Proof. intros H. unfold str_at. destruct (Z.ltb_spec k (strlen src)); done || lia. Qed.

Lemma strncpy_pad_closed dest n : forall i g,
  dest <> A_data ->
  strncpy_pad n dest i g
  = (tt, assign dest (fill (fun _ => 0) n i (deref dest g)) g,
     loop_trace (fun j => [Write dest j]) n i).
Proof.
  induction n as [|n IH]; intros i g Hd; simpl.
  - by rewrite assign_deref.
  - rewrite bind_unfold. unfold write at 1. rewrite IH by done.
    by rewrite deref_assign, assign_assign.
Qed.

Lemma strncpy_loop_closed dest n : forall i src g,
  dest <> A_data ->
  strncpy_loop n dest i src g
  = (tt, assign dest (fill (fun j => str_at src (j - i)) n i (deref dest g)) g,
     loop_trace (fun j => [Write dest j]) n i).
Proof.
  induction n as [|n IH]; intros i src g Hd.
  - simpl. by rewrite assign_deref.
  - cbn [strncpy_loop].
    assert (Hpad : forall s, strlen s = 0 ->
      strncpy_pad (S n) dest i g
      = (tt, assign dest (fill (fun j => str_at s (j - i)) (S n) i (deref dest g)) g,
         loop_trace (fun j => [Write dest j]) (S n) i)).
    { intros s Hs. rewrite strncpy_pad_closed by done. do 3 f_equal.
      apply fill_ext_range. intros j Hj. rewrite str_at_end; [done | lia]. }
    destruct src as [|c src]; [by apply Hpad|].
    destruct (Z.eqb_spec c 0) as [->|Hc]; [by apply Hpad|].
    rewrite bind_unfold. unfold write at 1. rewrite IH by done.
    rewrite deref_assign, assign_assign by done.
    cbn [fill loop_trace].
    assert (Hhd : str_at (c :: src) (i - i) = c).
    { rewrite Z.sub_diag. unfold str_at. simpl strlen.
      destruct (Z.eqb_spec c 0) as [|_]; [done|].
      pose proof (strlen_nonneg src).
      destruct (Z.ltb_spec 0 (1 + strlen src)); [apply load_cons_0 | lia]. }
    rewrite Hhd. do 3 f_equal.
    apply fill_ext_range. intros j Hj.
    rewrite (str_at_cons c src (j - i)) by lia. f_equal. lia.
Qed.

Lemma safe_strncpy_closed dest src count g :
  dest <> A_data -> 0 < count ->
  safe_strncpy dest src count g
  = (tt,
     assign dest
       (store (fill (str_at src) (Z.to_nat count) 0 (deref dest g)) (count - 1) 0) g,
     loop_trace (fun j => [Write dest j]) (Z.to_nat count) 0 ++ [Write dest (count - 1)]).
Proof.
  intros Hd Hc. unfold safe_strncpy, strncpy.
  destruct (Z.ltb_spec 0 count); [|lia].
  rewrite bind_unfold, strncpy_loop_closed by done. unfold write.
  rewrite deref_assign, assign_assign by done.
  rewrite (fill_ext (fun j => str_at src (j - 0)) (str_at src)); [done|].
  intros j. f_equal. lia.
Qed.

(** C6. [safe_strncpy] into a buffer of capacity [c > 0] (the 5-byte
    [s_bg_string], the 6-byte [s_delta_string]) writes only at indices below
    [c], stores the first [min (strlen src) (c - 1)] characters of the source,
    and every later position up to [c - 1] holds NUL: the result is always
    terminated, also when the source is longer than the buffer. *)
Theorem C6_safe_strncpy_truncates_and_terminates
    (dest : array) (src : list Z) (c : Z) (g : globals) :
  dest <> A_data ->
  Z.of_nat (length (deref dest g)) = c ->
  0 < c ->
  let g' := exec (safe_strncpy dest src c) g in
  let k := Z.min (strlen src) (c - 1) in
  Forall (fun e => exists i, e = Write dest i /\ 0 <= i < c)
         (trace (safe_strncpy dest src c) g)
  /\ length (deref dest g') = length (deref dest g)
  /\ (forall i, 0 <= i < k -> load (deref dest g') i = load src i)
  /\ (forall i, k <= i < c -> load (deref dest g') i = 0).
Proof.
  intros Hd Hlen Hc g' k. subst g'.
  rewrite (exec_eq _ _ _ _ _ (safe_strncpy_closed dest src c g Hd Hc)).
  rewrite (trace_eq _ _ _ _ _ (safe_strncpy_closed dest src c g Hd Hc)).
  rewrite deref_assign by done.
  pose proof (strlen_nonneg src) as Hs.
  assert (Hin : forall i, 0 <= i < c ->
            load (fill (str_at src) (Z.to_nat c) 0 (deref dest g)) i = str_at src i).
  { intros i Hi. apply load_fill_in; lia. }
  repeat split.
  - apply Forall_app. split.
    + apply Forall_loop_trace. intros j Hj. repeat constructor.
      exists j. split; [done | lia].
    + repeat constructor. exists (c - 1). split; [done | lia].
  - by rewrite length_store, length_fill.
  - intros i Hi. rewrite load_store_ne by lia. rewrite Hin by lia.
    unfold str_at. destruct (Z.ltb_spec i (strlen src)); [done | lia].
  - intros i Hi. destruct (decide (i = c - 1)) as [->|Hne].
    + apply load_store_eq. rewrite length_fill. lia.
    + rewrite load_store_ne by lia. rewrite Hin by lia.
      apply str_at_end. lia.
Qed.

Lemma C6_witness :
  let g := Extended.initial in
  let src := chars "10.25" in
  let g' := exec (safe_strncpy A_bg_string src 5) g in
  (A_bg_string <> A_data /\ Z.of_nat (length (deref A_bg_string g)) = 5 /\ 0 < 5)
  /\ Forall (fun e => exists i, e = Write A_bg_string i /\ 0 <= i < 5)
         (trace (safe_strncpy A_bg_string src 5) g)
  /\ length (deref A_bg_string g') = length (deref A_bg_string g)
  /\ (forall i, 0 <= i < Z.min (strlen src) (5 - 1) ->
        load (deref A_bg_string g') i = load src i)
  /\ (forall i, Z.min (strlen src) (5 - 1) <= i < 5 ->
        load (deref A_bg_string g') i = 0).
Proof.
  split.
  - split; [discriminate | split; [reflexivity | lia]].
  - apply (C6_safe_strncpy_truncates_and_terminates
             A_bg_string (chars "10.25") 5 Extended.initial).
    + discriminate.
    + reflexivity.
    + lia.
Defined.

(** ** Display updates *)

Lemma update_displayed_time_ago_no_data now g :
  s_bg_timestamp g = 0 -> update_displayed_time_ago now g = (tt, g, []).
Proof.
  intros H. unfold update_displayed_time_ago. rewrite bind_unfold.
  unfold get. cbv beta iota. by rewrite H.
Qed.

Lemma arrow_layer_after_update g :
  s_arrow_layer (exec update_displayed_xdrip_data g)
  = if (0 <? s_arrow_index g) && (s_arrow_index g <? 8)
    then Some (default RESOURCE_0 (ARROWS !! Z.to_nat (s_arrow_index g)))
    else None.
Proof.
  unfold update_displayed_xdrip_data.
  rewrite !exec_bind. unfold result, exec, get, modify. cbn [fst snd].
  destruct g as [? ? ? ? [?|] ? ? ? ? idx ? ? ? ? ? ? ?]; cbn - [Z.ltb ARROWS Z.to_nat];
    change (Z.of_nat (length ARROWS)) with 8;
    destruct ((0 <? idx) && (idx <? 8)); reflexivity.
Qed.

(** The renderer shows no arrow exactly for index 0 and for indices past the
    table. *)
Lemma no_arrow_iff g :
  0 <= s_arrow_index g ->
  s_arrow_layer (exec update_displayed_xdrip_data g) = None
  <-> s_arrow_index g = 0 \/ 8 <= s_arrow_index g.
Proof.
  intros Hge. rewrite arrow_layer_after_update.
  destruct (Z.ltb_spec 0 (s_arrow_index g)), (Z.ltb_spec (s_arrow_index g) 8);
    cbn [andb]; split; intros H'; try done; try lia.
Qed.

(** ** The field decoder *)

(** C5. A message without the timestamp key changes nothing and accesses
    nothing: the whole static state (reading, graph series, thresholds and
    display) is as before. *)
Theorem C5_no_timestamp_is_noop (now : Z) (iter : DictionaryIterator) (g : globals) :
  dict_find iter Extended.KEY_BG_TIMESTAMP = None ->
  Extended.new_xdrip_data_callback now iter g = (tt, g, []).
Proof.
  intros H. unfold Extended.new_xdrip_data_callback. by rewrite H.
Qed.

Lemma C5_witness :
  let iter := [mkTuple 11 (chars "7.5" ++ [0]); mkTuple 13 [4]; mkTuple 15 [90]] in
  dict_find iter Extended.KEY_BG_TIMESTAMP = None
  /\ Extended.new_xdrip_data_callback 1700000000 iter Extended.initial
     = (tt, Extended.initial, []).
Proof.
  split; [reflexivity|].
  apply (C5_no_timestamp_is_noop 1700000000
           [mkTuple 11 (chars "7.5" ++ [0]); mkTuple 13 [4]; mkTuple 15 [90]]
           Extended.initial).
  reflexivity.
Defined.

(** ** Strings in a buffer *)

Lemma strlen_chars_nonzero src : forall i, 0 <= i < strlen src -> load src i <> 0.
Proof.
  induction src as [|c src IH]; simpl; intros i Hi; [lia|].
  destruct (Z.eqb_spec c 0) as [|Hc]; [lia|].
  destruct (decide (i = 0)) as [->|Hne]; [by rewrite load_cons_0|].
  rewrite load_cons_succ by lia. apply IH. lia.
Qed.

Lemma strlen_le_length src : strlen src <= Z.of_nat (length src).
Proof.
  induction src as [|c src IH]; simpl; [lia|]. destruct (c =? 0); lia.
Qed.

(** A buffer that holds [k] non-NUL characters and then a NUL reads as those
    characters. *)
Lemma strlen_prefix l : forall k,
  0 <= k < Z.of_nat (length l) ->
  (forall j, 0 <= j < k -> load l j <> 0) ->
  load l k = 0 ->
  strlen l = k.
Proof.
  induction l as [|c l IH]; simpl; intros k Hk Hnz Hz; [lia|].
  destruct (decide (k = 0)) as [->|Hne].
  - rewrite load_cons_0 in Hz. subst c. done.
  - pose proof (Hnz 0 ltac:(lia)) as Hc. rewrite load_cons_0 in Hc.
    destruct (Z.eqb_spec c 0) as [|_]; [done|].
    rewrite (IH (k - 1)); [lia | lia | |].
    + intros j Hj. specialize (Hnz (j + 1) ltac:(lia)).
      rewrite load_cons_succ in Hnz by lia. by replace (j + 1 - 1) with j in Hnz by lia.
    + by rewrite load_cons_succ in Hz by lia.
Qed.

Lemma take_load_eq (l t : list Z) (k : nat) :
  (k <= length l)%nat -> (k <= length t)%nat ->
  (forall j, 0 <= j < Z.of_nat k -> load l j = load t j) ->
  take k l = take k t.
Proof.
  intros Hl Ht H. apply list_eq. intros n.
  destruct (decide (n < k)%nat) as [Hn|Hn].
  - rewrite !lookup_take_lt by done.
    specialize (H (Z.of_nat n) ltac:(lia)). unfold load in H.
    rewrite !(proj2 (in_bounds_spec _ _)) in H by lia.
    rewrite Nat2Z.id in H.
    destruct (lookup_lt_is_Some_2 l n ltac:(lia)) as [a Ha].
    destruct (lookup_lt_is_Some_2 t n ltac:(lia)) as [b Hb].
    rewrite Ha, Hb in *. simpl in H. by subst.
  - rewrite !lookup_take_ge by lia. done.
Qed.

Lemma cstr_prefix (l t : list Z) k :
  0 <= k < Z.of_nat (length l) ->
  k <= Z.of_nat (length t) ->
  (forall j, 0 <= j < k -> load l j = load t j) ->
  (forall j, 0 <= j < k -> load t j <> 0) ->
  load l k = 0 ->
  cstr l = take (Z.to_nat k) t.
Proof.
  intros Hk Ht Heq Hnz Hz. unfold cstr.
  rewrite (strlen_prefix l k); [|done| |done].
  - apply take_load_eq; [lia | lia |]. intros j Hj. apply Heq. lia.
  - intros j Hj. rewrite Heq by done. by apply Hnz.
Qed.

Lemma take_cstr n src :
  take n (cstr src) = take (Z.to_nat (Z.min (strlen src) (Z.of_nat n))) src.
Proof.
  unfold cstr. rewrite take_take. f_equal.
  pose proof (strlen_nonneg src). lia.
Qed.

(** [safe_strncpy] into a buffer of [c] bytes leaves the first [c - 1]
    characters of the source string. *)
Lemma safe_strncpy_cstr dest src c g :
  dest <> A_data -> Z.of_nat (length (deref dest g)) = c -> 0 < c ->
  cstr (deref dest (exec (safe_strncpy dest src c) g)) = take (Z.to_nat (c - 1)) (cstr src).
Proof.
  intros Hd Hlen Hc.
  rewrite (exec_eq _ _ _ _ _ (safe_strncpy_closed dest src c g Hd Hc)).
  rewrite deref_assign by done.
  pose proof (strlen_nonneg src) as Hs. pose proof (strlen_le_length src) as Hsl.
  assert (Hin : forall i, 0 <= i < c ->
            load (fill (str_at src) (Z.to_nat c) 0 (deref dest g)) i = str_at src i).
  { intros i Hi. apply load_fill_in; lia. }
  rewrite take_cstr. replace (Z.of_nat (Z.to_nat (c - 1))) with (c - 1) by lia.
  apply cstr_prefix.
  - rewrite length_store, length_fill. lia.
  - lia.
  - intros j Hj. rewrite load_store_ne by lia. rewrite Hin by lia.
    unfold str_at. destruct (Z.ltb_spec j (strlen src)); [done | lia].
  - intros j Hj. apply strlen_chars_nonzero. lia.
  - destruct (decide (Z.min (strlen src) (c - 1) = c - 1)) as [->|Hne].
    + apply load_store_eq. rewrite length_fill. lia.
    + rewrite load_store_ne by lia. rewrite Hin by lia. apply str_at_end. lia.
Qed.

Lemma load_lookup l i :
  0 <= i < Z.of_nat (length l) -> l !! Z.to_nat i = Some (load l i).
Proof.
  intros Hi. unfold load. rewrite (proj2 (in_bounds_spec _ _)) by lia.
  destruct (lookup_lt_is_Some_2 l (Z.to_nat i) ltac:(lia)) as [a ->]. done.
Qed.

Lemma load_ext (l l' : list Z) :
  length l = length l' ->
  (forall i, 0 <= i < Z.of_nat (length l) -> load l i = load l' i) ->
  l = l'.
Proof.
  intros Hlen H. apply list_eq. intros n.
  destruct (decide (n < length l)%nat) as [Hn|Hn].
  - specialize (H (Z.of_nat n) ltac:(lia)).
    pose proof (load_lookup l (Z.of_nat n) ltac:(lia)) as H1.
    pose proof (load_lookup l' (Z.of_nat n) ltac:(lia)) as H2.
    rewrite Nat2Z.id in H1, H2. by rewrite H1, H2, H.
  - rewrite !lookup_ge_None_2 by lia. done.
Qed.

Lemma load_outside l i : ~ 0 <= i < Z.of_nat (length l) -> load l i = 0.
Proof.
  intros Hi. unfold load.
  destruct (in_bounds (Z.of_nat (length l)) i) eqn:Hb; [|done].
  apply in_bounds_spec in Hb. lia.
Qed.

Lemma load_take l n i : 0 <= i < Z.of_nat n -> load (take n l) i = load l i.
Proof.
  intros Hi. destruct (decide (i < Z.of_nat (length l))) as [Hl|Hl].
  - pose proof (load_lookup l i ltac:(lia)) as H1.
    pose proof (load_lookup (take n l) i ltac:(rewrite length_take; lia)) as H2.
    rewrite lookup_take_lt in H2 by lia. rewrite H1 in H2. by injection H2.
  - rewrite !load_outside; [done | lia | rewrite length_take; lia].
Qed.

Lemma load_app_l (l1 l2 : list Z) i :
  0 <= i < Z.of_nat (length l1) -> load (l1 ++ l2) i = load l1 i.
Proof.
  intros Hi.
  pose proof (load_lookup l1 i Hi) as H1.
  pose proof (load_lookup (l1 ++ l2) i ltac:(rewrite length_app; lia)) as H2.
  rewrite lookup_app_l in H2 by lia. rewrite H1 in H2. by injection H2.
Qed.

Lemma load_app_replicate (l : list Z) n i :
  Z.of_nat (length l) <= i -> load (l ++ replicate n 0) i = 0.
Proof.
  intros Hi. destruct (decide (i < Z.of_nat (length l + n))) as [Hl|Hl].
  - pose proof (load_lookup (l ++ replicate n 0) i
                  ltac:(rewrite length_app, length_replicate; lia)) as H.
    rewrite lookup_app_r in H by lia.
    rewrite lookup_replicate_2 in H by lia. by injection H.
  - apply load_outside. rewrite length_app, length_replicate. lia.
Qed.

Lemma length_cstr src : Z.of_nat (length (cstr src)) = strlen src.
Proof.
  unfold cstr. rewrite length_take.
  pose proof (strlen_nonneg src). pose proof (strlen_le_length src). lia.
Qed.

Lemma length_c_string c src : 0 <= c -> Z.of_nat (length (c_string c src)) = c.
Proof.
  intros Hc. unfold c_string.
  rewrite length_take, length_app, length_replicate. lia.
Qed.

Lemma load_c_string c src i :
  0 <= i < c ->
  load (c_string c src) i = if i <? Z.min (strlen src) (c - 1) then load src i else 0.
Proof.
  intros Hi. unfold c_string. rewrite load_take by lia.
  pose proof (length_cstr src) as Hl. pose proof (strlen_nonneg src) as Hs.
  assert (Hk : Z.of_nat (length (take (Z.to_nat (c - 1)) (cstr src)))
               = Z.min (strlen src) (c - 1)) by (rewrite length_take; lia).
  destruct (Z.ltb_spec i (Z.min (strlen src) (c - 1))).
  - rewrite load_app_l by lia. rewrite load_take by lia.
    unfold cstr. apply load_take. lia.
  - apply load_app_replicate. lia.
Qed.

(** [safe_strncpy] into a buffer of [c] bytes leaves there the source string
    cut to [c - 1] characters and NUL in every byte after it. *)
Lemma safe_strncpy_buffer dest src c g :
  dest <> A_data -> Z.of_nat (length (deref dest g)) = c -> 0 < c ->
  deref dest (exec (safe_strncpy dest src c) g) = c_string c src.
Proof.
  intros Hd Hlen Hc.
  rewrite (exec_eq _ _ _ _ _ (safe_strncpy_closed dest src c g Hd Hc)).
  rewrite deref_assign by done.
  pose proof (strlen_nonneg src) as Hs.
  apply load_ext.
  - apply Nat2Z.inj. rewrite length_c_string by lia.
    by rewrite length_store, length_fill.
  - rewrite length_store, length_fill, Hlen. intros i Hi.
    rewrite load_c_string by done.
    destruct (decide (i = c - 1)) as [->|Hne].
    + rewrite load_store_eq by (rewrite length_fill; lia).
      destruct (Z.ltb_spec (c - 1) (Z.min (strlen src) (c - 1))); [lia | done].
    + rewrite load_store_ne by lia. rewrite load_fill_in by lia.
      unfold str_at.
      destruct (Z.ltb_spec i (strlen src));
        destruct (Z.ltb_spec i (Z.min (strlen src) (c - 1))); done || lia.
Qed.

Section ExtendedFields.
Context (now : Z) (iter : DictionaryIterator) (g : globals) (timestamp_tuple : Tuple).
Hypothesis Hts : dict_find iter Extended.KEY_BG_TIMESTAMP = Some timestamp_tuple.

Lemma extended_bg_timestamp :
  s_bg_timestamp (exec (Extended.new_xdrip_data_callback now iter) g)
  = uint32 timestamp_tuple.
Proof.
  unfold Extended.new_xdrip_data_callback. rewrite Hts.
  rewrite !exec_bind. repeat skip. reflexivity.
Qed.

Lemma extended_bg_string :
  s_bg_string (exec (Extended.new_xdrip_data_callback now iter) g)
  = match dict_find iter Extended.KEY_BG_STRING with
    | Some bg_tuple => s_bg_string (exec (safe_strncpy A_bg_string (cstring bg_tuple) 5) g)
    | None => s_bg_string g
    end.
Proof.
  unfold Extended.new_xdrip_data_callback. rewrite Hts.
  rewrite !exec_bind. do 7 skip.
  destruct (dict_find iter Extended.KEY_BG_STRING) as [bg_tuple|]; [|reflexivity].
  rewrite !(exec_eq _ _ _ _ _ (safe_strncpy_closed A_bg_string _ 5 _ ltac:(done) ltac:(done))).
  reflexivity.
Qed.

Lemma extended_arrow_index :
  s_arrow_index (exec (Extended.new_xdrip_data_callback now iter) g)
  = match dict_find iter Extended.KEY_ARROW_INDEX with
    | Some arrow_tuple => uint8 arrow_tuple
    | None => s_arrow_index g
    end.
Proof.
  unfold Extended.new_xdrip_data_callback. rewrite Hts.
  rewrite !exec_bind. do 6 skip.
  destruct (dict_find iter Extended.KEY_ARROW_INDEX) as [arrow_tuple|];
    [reflexivity|]. repeat skip. reflexivity.
Qed.

Lemma extended_delta_string :
  s_delta_string (exec (Extended.new_xdrip_data_callback now iter) g)
  = match dict_find iter Extended.KEY_DELTA_STRING with
    | Some delta_tuple =>
        s_delta_string (exec (safe_strncpy A_delta_string (cstring delta_tuple) 6) g)
    | None => s_delta_string g
    end.
Proof.
  unfold Extended.new_xdrip_data_callback. rewrite Hts.
  rewrite !exec_bind. do 5 skip.
  destruct (dict_find iter Extended.KEY_DELTA_STRING) as [delta_tuple|].
  - rewrite !(exec_eq _ _ _ _ _
               (safe_strncpy_closed A_delta_string _ 6 _ ltac:(done) ltac:(done))).
    cbn [assign s_delta_string set_s_delta_string deref]. repeat skip. reflexivity.
  - repeat skip. reflexivity.
Qed.

Lemma extended_high_line :
  s_graph_high_line (exec (Extended.new_xdrip_data_callback now iter) g)
  = match dict_find iter Extended.KEY_GRAPH_HIGH_LINE with
    | Some high_line_tuple => uint16 high_line_tuple
    | None => s_graph_high_line g
    end.
Proof.
  unfold Extended.new_xdrip_data_callback. rewrite Hts.
  rewrite !exec_bind. do 3 skip.
  destruct (dict_find iter Extended.KEY_GRAPH_HIGH_LINE) as [high_line_tuple|];
    [reflexivity|]. repeat skip. reflexivity.
Qed.

Lemma extended_low_line :
  s_graph_low_line (exec (Extended.new_xdrip_data_callback now iter) g)
  = match dict_find iter Extended.KEY_GRAPH_LOW_LINE with
    | Some low_line_tuple => uint16 low_line_tuple
    | None => s_graph_low_line g
    end.
Proof.
  unfold Extended.new_xdrip_data_callback. rewrite Hts.
  rewrite !exec_bind. do 2 skip.
  destruct (dict_find iter Extended.KEY_GRAPH_LOW_LINE) as [low_line_tuple|];
    [reflexivity|]. repeat skip. reflexivity.
Qed.

End ExtendedFields.

(** What a present field is overwritten with. *)
Section ExtendedReceived.
Context (now : Z) (iter : DictionaryIterator) (g : globals) (timestamp_tuple : Tuple).
Hypothesis Hts : dict_find iter Extended.KEY_BG_TIMESTAMP = Some timestamp_tuple.

Lemma extended_bg_string_received t :
  dict_find iter Extended.KEY_BG_STRING = Some t ->
  length (s_bg_string g) = 5%nat ->
  s_bg_string (exec (Extended.new_xdrip_data_callback now iter) g) = c_string 5 (memory t).
Proof.
  intros Ht Hlen. rewrite (extended_bg_string now iter g timestamp_tuple Hts), Ht.
  apply (safe_strncpy_buffer A_bg_string (cstring t) 5 g); [done | simpl; lia | lia].
Qed.

Lemma extended_delta_string_received t :
  dict_find iter Extended.KEY_DELTA_STRING = Some t ->
  length (s_delta_string g) = 6%nat ->
  s_delta_string (exec (Extended.new_xdrip_data_callback now iter) g)
  = c_string 6 (memory t).
Proof.
  intros Ht Hlen. rewrite (extended_delta_string now iter g timestamp_tuple Hts), Ht.
  apply (safe_strncpy_buffer A_delta_string (cstring t) 6 g); [done | simpl; lia | lia].
Qed.

Lemma extended_arrow_index_received t :
  dict_find iter Extended.KEY_ARROW_INDEX = Some t ->
  s_arrow_index (exec (Extended.new_xdrip_data_callback now iter) g) = load (memory t) 0.
Proof.
  intros Ht. by rewrite (extended_arrow_index now iter g timestamp_tuple Hts), Ht.
Qed.

Lemma extended_high_line_received t :
  dict_find iter Extended.KEY_GRAPH_HIGH_LINE = Some t ->
  s_graph_high_line (exec (Extended.new_xdrip_data_callback now iter) g)
  = load (memory t) 0 + 256 * load (memory t) 1.
Proof.
  intros Ht. by rewrite (extended_high_line now iter g timestamp_tuple Hts), Ht.
Qed.

Lemma extended_low_line_received t :
  dict_find iter Extended.KEY_GRAPH_LOW_LINE = Some t ->
  s_graph_low_line (exec (Extended.new_xdrip_data_callback now iter) g)
  = load (memory t) 0 + 256 * load (memory t) 1.
Proof.
  intros Ht. by rewrite (extended_low_line now iter g timestamp_tuple Hts), Ht.
Qed.

End ExtendedReceived.

Lemma traces_for_loop (P : access -> Prop) body n : forall i,
  (forall j, traces P (body j)) -> traces P (for_loop n i body).
Proof.
  induction n as [|n IH]; intros i H; simpl.
  - apply traces_ret.
  - apply traces_bind; [apply H | intros _; by apply IH].
Qed.

(** Discharges [traces P m] by following the structure of [m]; [side] proves
    [P] of the single accesses. *)
Tactic Notation "trace_rules" tactic3(side) :=
  unfold update_displayed_xdrip_data, update_displayed_time_ago, mark_graph_dirty,
    Extended.parse_graph_data, Compact.parse_graph_data;
  repeat first
    [ progress cbv zeta
    | apply traces_ret
    | apply traces_get
    | apply traces_modify
    | apply traces_safe_strncpy; intros ? ?; side
    | apply traces_snprintf; intros ? ?; side
    | apply traces_for_loop; intros ?
    | apply traces_read; side
    | apply traces_read_data; side
    | apply traces_write; side
    | apply traces_bind; [|intros ?]
    | match goal with
      | |- traces _ (if ?b then _ else _) => destruct b
      | |- traces _ (match ?o with Some _ => _ | None => _ end) => destruct o
      end ].

(** C9. In a data message (timestamp key present) each optional field keeps
    its previous value when its key is absent.  When its key is present the
    field is overwritten with what lies at the tuple's value: each string
    buffer with the received string cut to 4 and to 5 characters and NUL in
    every byte after it, the arrow index with the first byte, each threshold
    with the little-endian 16-bit number of the first two bytes.  The length
    of the value is not looked at: an unterminated string and a threshold of
    one byte take their remaining bytes from what follows the value. *)
Theorem C9_optional_fields_merge
    (now : Z) (iter : DictionaryIterator) (g : globals) (timestamp_tuple : Tuple) :
  dict_find iter Extended.KEY_BG_TIMESTAMP = Some timestamp_tuple ->
  length (s_bg_string g) = 5%nat ->
  length (s_delta_string g) = 6%nat ->
  let g' := exec (Extended.new_xdrip_data_callback now iter) g in
  (dict_find iter Extended.KEY_BG_STRING = None -> s_bg_string g' = s_bg_string g)
  /\ (dict_find iter Extended.KEY_DELTA_STRING = None ->
        s_delta_string g' = s_delta_string g)
  /\ (dict_find iter Extended.KEY_ARROW_INDEX = None -> s_arrow_index g' = s_arrow_index g)
  /\ (dict_find iter Extended.KEY_GRAPH_HIGH_LINE = None ->
        s_graph_high_line g' = s_graph_high_line g)
  /\ (dict_find iter Extended.KEY_GRAPH_LOW_LINE = None ->
        s_graph_low_line g' = s_graph_low_line g)
  /\ (forall t, dict_find iter Extended.KEY_BG_STRING = Some t ->
        reads_inside 5 (memory t) ->
        s_bg_string g' = c_string 5 (memory t))
  /\ (forall t, dict_find iter Extended.KEY_DELTA_STRING = Some t ->
        reads_inside 6 (memory t) ->
        s_delta_string g' = c_string 6 (memory t))
  /\ (forall t, dict_find iter Extended.KEY_ARROW_INDEX = Some t ->
        (1 <= length (memory t))%nat ->
        s_arrow_index g' = load (memory t) 0)
  /\ (forall t, dict_find iter Extended.KEY_GRAPH_HIGH_LINE = Some t ->
        (2 <= length (memory t))%nat ->
        s_graph_high_line g' = load (memory t) 0 + 256 * load (memory t) 1)
  /\ (forall t, dict_find iter Extended.KEY_GRAPH_LOW_LINE = Some t ->
        (2 <= length (memory t))%nat ->
        s_graph_low_line g' = load (memory t) 0 + 256 * load (memory t) 1).
Proof.
  intros Hts Hbg Hdelta g'. subst g'.
  split; [|split; [|split; [|split; [|split]]]].
  - intros H. by rewrite (extended_bg_string now iter g timestamp_tuple Hts), H.
  - intros H. by rewrite (extended_delta_string now iter g timestamp_tuple Hts), H.
  - intros H. by rewrite (extended_arrow_index now iter g timestamp_tuple Hts), H.
  - intros H. by rewrite (extended_high_line now iter g timestamp_tuple Hts), H.
  - intros H. by rewrite (extended_low_line now iter g timestamp_tuple Hts), H.
  - split; [|split; [|split; [|split]]]; intros t Ht _.
    + by eapply extended_bg_string_received.
    + by eapply extended_delta_string_received.
    + by eapply extended_arrow_index_received.
    + by eapply extended_high_line_received.
    + by eapply extended_low_line_received.
Qed.

(** C8. The decoder stores the byte of the arrow tuple as it is (9 stays 9),
    and the renderer, run by the callback on that value or on its own on any
    index, shows no arrow exactly when the index is 0 or at least 8, the
    length of [ARROWS]. *)
Theorem C8_arrow_index_raw_and_rendered
    (now : Z) (iter : DictionaryIterator) (g : globals)
    (timestamp_tuple arrow_tuple : Tuple) :
  dict_find iter Extended.KEY_BG_TIMESTAMP = Some timestamp_tuple ->
  dict_find iter Extended.KEY_ARROW_INDEX = Some arrow_tuple ->
  is_byte (uint8 arrow_tuple) ->
  let g' := exec (Extended.new_xdrip_data_callback now iter) g in
  s_arrow_index g' = uint8 arrow_tuple
  /\ (s_arrow_layer g' = None <-> uint8 arrow_tuple = 0 \/ 8 <= uint8 arrow_tuple)
  /\ (forall g0, is_byte (s_arrow_index g0) ->
        s_arrow_layer (exec update_displayed_xdrip_data g0) = None
        <-> s_arrow_index g0 = 0 \/ 8 <= s_arrow_index g0).
Proof.
  intros Hts Harrow Hbyte g'.
  assert (Hidx : s_arrow_index g' = uint8 arrow_tuple).
  { subst g'. erewrite extended_arrow_index by done. by rewrite Harrow. }
  split; [done|]. split.
  - rewrite <- Hidx. subst g'.
    unfold Extended.new_xdrip_data_callback in *. rewrite Hts in *.
    rewrite !exec_bind in *. skip.
    rewrite no_arrow_iff.
    + revert Hidx. do 2 skip. intros ->. done.
    + revert Hidx. do 2 skip. intros ->. apply Hbyte.
  - intros g0 H0. apply no_arrow_iff. apply H0.
Qed.


(** The callback up to its last call: the state [X] in which
    [update_displayed_time_ago] runs has the new timestamp and the old
    time-ago display, and nothing before touched the time-ago buffer. *)
Lemma extended_before_time_ago now iter g timestamp_tuple :
  dict_find iter Extended.KEY_BG_TIMESTAMP = Some timestamp_tuple ->
  exists X T,
    exec (Extended.new_xdrip_data_callback now iter) g
    = exec (update_displayed_time_ago now) X
    /\ trace (Extended.new_xdrip_data_callback now iter) g
       = T ++ trace (update_displayed_time_ago now) X
    /\ s_bg_timestamp X = uint32 timestamp_tuple
    /\ s_time_ago_buffer X = s_time_ago_buffer g
    /\ s_time_ago_layer X = s_time_ago_layer g
    /\ Forall (fun e => touches A_time_ago_buffer e = false) T.
Proof.
  intros Hts. unfold Extended.new_xdrip_data_callback. rewrite Hts.
  rewrite !exec_bind, !trace_bind.
  match goal with
  | |- context [exec (update_displayed_time_ago now) ?Y] => exists Y
  end.
  eexists. split; [reflexivity|]. split; [by rewrite !app_assoc|].
  split; [repeat skip; reflexivity|].
  split; [repeat skip; reflexivity|].
  split; [repeat skip; reflexivity|].
  repeat (apply Forall_app; split);
    match goal with
    | |- Forall ?P (trace ?m ?X) =>
        let H := fresh in
        assert (H : traces P m) by (trace_rules reflexivity; fail);
        apply H
    end.
Qed.

Lemma uint32_zero t : take 4 (memory t) = [0; 0; 0; 0] -> uint32 t = 0.
Proof.
  intros H. unfold uint32.
  assert (Hl : forall i, 0 <= i < 4 -> load (memory t) i = 0).
  { intros i Hi. rewrite <- (load_take (memory t) 4 i) by lia. rewrite H.
    assert (i = 0 \/ i = 1 \/ i = 2 \/ i = 3) as [->|[->|[->| ->]]] by lia; reflexivity. }
  rewrite !Hl by lia. reflexivity.
Qed.

(** C10. A message whose timestamp tuple holds 0 (the four bytes at its
    value are 0) stores 0 in [s_bg_timestamp]: the time-ago buffer and layer
    are not touched, by this callback or by any later
    [update_displayed_time_ago], while the other fields present in the
    message are applied: the strings, the arrow index and the thresholds hold
    what lies at their tuples' values. *)
Theorem C10_zero_timestamp_is_sentinel
    (now : Z) (iter : DictionaryIterator) (g : globals) (timestamp_tuple : Tuple) :
  dict_find iter Extended.KEY_BG_TIMESTAMP = Some timestamp_tuple ->
  take 4 (memory timestamp_tuple) = [0; 0; 0; 0] ->
  length (s_bg_string g) = 5%nat ->
  length (s_delta_string g) = 6%nat ->
  let g' := exec (Extended.new_xdrip_data_callback now iter) g in
  s_bg_timestamp g' = 0
  /\ s_time_ago_buffer g' = s_time_ago_buffer g
  /\ s_time_ago_layer g' = s_time_ago_layer g
  /\ Forall (fun e => touches A_time_ago_buffer e = false)
            (trace (Extended.new_xdrip_data_callback now iter) g)
  /\ (forall later, update_displayed_time_ago later g' = (tt, g', []))
  /\ (forall t, dict_find iter Extended.KEY_BG_STRING = Some t ->
        reads_inside 5 (memory t) ->
        s_bg_string g' = c_string 5 (memory t))
  /\ (forall t, dict_find iter Extended.KEY_DELTA_STRING = Some t ->
        reads_inside 6 (memory t) ->
        s_delta_string g' = c_string 6 (memory t))
  /\ (forall t, dict_find iter Extended.KEY_ARROW_INDEX = Some t ->
        (1 <= length (memory t))%nat ->
        s_arrow_index g' = load (memory t) 0)
  /\ (forall t, dict_find iter Extended.KEY_GRAPH_HIGH_LINE = Some t ->
        (2 <= length (memory t))%nat ->
        s_graph_high_line g' = load (memory t) 0 + 256 * load (memory t) 1)
  /\ (forall t, dict_find iter Extended.KEY_GRAPH_LOW_LINE = Some t ->
        (2 <= length (memory t))%nat ->
        s_graph_low_line g' = load (memory t) 0 + 256 * load (memory t) 1).
Proof.
  intros Hts Hzero Hbg Hdelta g'.
  pose proof (extended_bg_string_received now iter g timestamp_tuple Hts) as Hbgs.
  pose proof (extended_delta_string_received now iter g timestamp_tuple Hts) as Hdeltas.
  pose proof (extended_arrow_index_received now iter g timestamp_tuple Hts) as Harrow.
  pose proof (extended_high_line_received now iter g timestamp_tuple Hts) as Hhigh.
  pose proof (extended_low_line_received now iter g timestamp_tuple Hts) as Hlow.
  fold g' in Hbgs, Hdeltas, Harrow, Hhigh, Hlow.
  destruct (extended_before_time_ago now iter g timestamp_tuple Hts)
    as (X & T & Hexec & Htrace & HtsX & Hbuf & Hlayer & HT).
  rewrite (uint32_zero _ Hzero) in HtsX.
  pose proof (update_displayed_time_ago_no_data now X HtsX) as Hnoop.
  rewrite (exec_eq _ _ _ _ _ Hnoop) in Hexec.
  rewrite (trace_eq _ _ _ _ _ Hnoop), app_nil_r in Htrace.
  fold g' in Hexec. rewrite Htrace. clearbody g'. subst g'.
  repeat split; try done.
  - intros later. by apply update_displayed_time_ago_no_data.
  - intros t Ht _. by apply Hbgs.
  - intros t Ht _. by apply Hdeltas.
  - intros t Ht _. by apply Harrow.
  - intros t Ht _. by apply Hhigh.
  - intros t Ht _. by apply Hlow.
Qed.

(** ** The graph decoder in closed form *)

Lemma clamp_run cap g :
  (if cap <? s_graph_count g then modify (set_s_graph_count cap) else mret tt) g
  = (tt, set_s_graph_count (if cap <? s_graph_count g then cap else s_graph_count g) g, []).
Proof. destruct (cap <? s_graph_count g); [done|]. by destruct g. Qed.

Lemma mark_graph_dirty_run g : mark_graph_dirty g = (tt, marked_dirty g, []).
Proof.
  unfold mark_graph_dirty, marked_dirty. rewrite bind_unfold. unfold get.
  by destruct (s_graph_layer g).
Qed.

Ltac run_prims :=
  repeat first
    [ rewrite bind_unfold
    | rewrite clamp_run
    | rewrite mark_graph_dirty_run
    | progress unfold read_data, read, write, modify, get
    | progress cbv beta iota
    | progress cbn [s_graph_count set_s_graph_count set_s_graph_ref_timestamp
                    deref assign] ].

Lemma extended_parse_closed t g :
  let c := extended_count (data t) in
  let g1 := set_s_graph_count c (set_s_graph_ref_timestamp (ref_timestamp_of (data t)) g) in
  Extended.parse_graph_data t g
  = if 6 + c * 3 <=? tuple_length t then
      (tt,
       marked_dirty
         (set_s_graph_bg_values
            (fill (extended_value (data t)) (Z.to_nat c) 0 (s_graph_bg_values g))
            (set_s_graph_offsets
               (fill (extended_offset (data t)) (Z.to_nat c) 0 (s_graph_offsets g)) g1)),
       header_reads 6 ++ extended_loops_trace c ++ extended_log_reads c)
    else (tt, g1, header_reads 6).
Proof.
  cbv zeta. unfold Extended.parse_graph_data. cbv zeta. run_prims.
  fold (extended_declared_count (data t)). fold (ref_timestamp_of (data t)).
  fold (extended_count (data t)).
  destruct (6 + extended_count (data t) * 3 <=? tuple_length t).
  - rewrite bind_unfold.
    rewrite (for_loop_closed A_graph_offsets
               (fun _ i => [Read A_data (6 + i * 2); Read A_data (6 + i * 2 + 1)])
               (fun _ i => extended_offset (data t) i)) by done.
    cbv beta iota. rewrite bind_unfold.
    rewrite (for_loop_closed A_graph_bg_values
               (fun g i => [Read A_data (6 + s_graph_count g * 2 + i)])
               (fun g i => to_uint16 (load (data t) (6 + s_graph_count g * 2 + i) * 2)))
      by done.
    run_prims. unfold extended_loops_trace, marked_dirty.
    rewrite <- (app_assoc (loop_trace _ _ _)).
    destruct g as [? ? ? ? ? [?|] ? ? ? ? ? ? ? ? ? ? ?]; reflexivity.
  - run_prims. reflexivity.
Qed.

Lemma compact_parse_closed t g :
  let c := compact_count (data t) in
  let g1 := set_s_graph_count c (set_s_graph_ref_timestamp (ref_timestamp_of (data t)) g) in
  Compact.parse_graph_data t g
  = if 5 + c * 2 <=? tuple_length t then
      (tt,
       marked_dirty
         (set_s_graph_bg_values
            (fill (compact_value (data t)) (Z.to_nat c) 0 (s_graph_bg_values g))
            (set_s_graph_offsets
               (fill (compact_offset (data t)) (Z.to_nat c) 0 (s_graph_offsets g)) g1)),
       header_reads 5 ++ compact_loops_trace c)
    else (tt, g1, header_reads 5).
Proof.
  cbv zeta. unfold Compact.parse_graph_data. cbv zeta. run_prims.
  fold (compact_declared_count (data t)). fold (ref_timestamp_of (data t)).
  fold (compact_count (data t)).
  destruct (5 + compact_count (data t) * 2 <=? tuple_length t).
  - rewrite bind_unfold.
    rewrite (for_loop_closed A_graph_offsets
               (fun _ i => [Read A_data (5 + i)])
               (fun _ i => compact_offset (data t) i)) by done.
    cbv beta iota. rewrite bind_unfold.
    rewrite (for_loop_closed A_graph_bg_values
               (fun g i => [Read A_data (5 + s_graph_count g + i)])
               (fun g i => to_uint16 (load (data t) (5 + s_graph_count g + i) * 2)))
      by done.
    run_prims. unfold compact_loops_trace, marked_dirty. rewrite !app_nil_r.
    destruct g as [? ? ? ? ? [?|] ? ? ? ? ? ? ? ? ? ? ?]; reflexivity.
  - run_prims. reflexivity.
Qed.

(** ** Little-endian fields of a byte payload *)

Lemma land_shiftl_low a b n : 0 <= n -> 0 <= a < 2 ^ n -> Z.land a (Z.shiftl b n) = 0.
Proof.
  intros Hn Ha. apply Z.bits_inj'. intros m Hm.
  rewrite Z.land_spec, Z.bits_0.
  destruct (Z.lt_ge_cases m n) as [Hlt|Hge].
  - rewrite Z.shiftl_spec_low by done. apply andb_false_r.
  - replace a with (a mod 2 ^ n) by (apply Z.mod_small; lia).
    rewrite Z.mod_pow2_bits_high by lia. done.
Qed.

Lemma lor_shiftl_add a b n : 0 <= n -> 0 <= a < 2 ^ n -> Z.lor a (Z.shiftl b n) = a + b * 2 ^ n.
Proof.
  intros Hn Ha. pose proof (land_shiftl_low a b n Hn Ha) as H.
  rewrite <- Z.lxor_lor by done. rewrite <- Z.add_nocarry_lxor by done.
  by rewrite Z.shiftl_mul_pow2.
Qed.

Lemma le16_bytes a b : is_byte a -> is_byte b -> to_uint16 (Z.lor a (Z.shiftl b 8)) = a + 256 * b.
Proof.
  unfold is_byte, to_uint16. intros Ha Hb.
  rewrite lor_shiftl_add by lia. change (2 ^ 8) with 256. change (2 ^ 16) with 65536.
  rewrite Z.mod_small; lia.
Qed.

Lemma le32_bytes a b c d : is_byte a -> is_byte b -> is_byte c -> is_byte d ->
  to_uint32 (Z.lor (Z.lor (Z.lor a (Z.shiftl b 8)) (Z.shiftl c 16)) (Z.shiftl d 24))
  = a + 256 * b + 65536 * c + 16777216 * d.
Proof.
  unfold is_byte, to_uint32. intros Ha Hb Hc Hd.
  rewrite (lor_shiftl_add a b 8) by lia. change (2 ^ 8) with 256.
  rewrite (lor_shiftl_add _ c 16) by (change (2 ^ 16) with 65536; lia). change (2 ^ 16) with 65536.
  rewrite (lor_shiftl_add _ d 24) by (change (2 ^ 24) with 16777216; lia). change (2 ^ 24) with 16777216.
  change (2 ^ 32) with 4294967296.
  rewrite Z.mod_small; lia.
Qed.

Lemma load_is_byte l i : Forall is_byte l -> is_byte (load l i).
Proof.
  intros Hl. unfold load. destruct (in_bounds _ _); [|unfold is_byte; lia].
  destruct (l !! Z.to_nat i) as [b|] eqn:Hb; [|unfold is_byte; simpl; lia].
  simpl. by eapply Forall_lookup_1.
Qed.

Lemma to_uint8_byte v : is_byte v -> to_uint8 v = v.
Proof. unfold is_byte, to_uint8. intros H. apply Z.mod_small. change (2 ^ 8) with 256. lia. Qed.

Lemma to_uint16_double v : is_byte v -> to_uint16 (v * 2) = v * 2.
Proof.
  unfold is_byte, to_uint16. intros H. apply Z.mod_small. change (2 ^ 16) with 65536. lia.
Qed.

(** ** The callback around its graph block *)

Lemma string_access_ok len cap e : string_access e -> access_ok len cap e = true.
Proof.
  destruct e as [[] i|[] i]; simpl; try done; intros H; by apply in_bounds_spec.
Qed.

Lemma string_access_not_graph e :
  string_access e ->
  touches A_data e = false /\ touches A_graph_offsets e = false
  /\ touches A_graph_bg_values e = false.
Proof. destruct e as [[] i|[] i]; simpl; done. Qed.

Ltac string_traces :=
  repeat (apply Forall_app; split);
  match goal with
  | |- Forall ?P (trace ?m ?X) =>
      let H := fresh in
      assert (H : traces P m) by (trace_rules (cbn; lia); fail);
      apply H
  end.

Lemma extended_around_graph now iter g timestamp_tuple :
  dict_find iter Extended.KEY_BG_TIMESTAMP = Some timestamp_tuple ->
  exists X T1 T2,
    graph_part (exec (Extended.new_xdrip_data_callback now iter) g)
    = graph_part
        (exec (match dict_find iter Extended.KEY_GRAPH_DATA with
               | Some graph_tuple =>
                   if 6 <=? tuple_length graph_tuple
                   then Extended.parse_graph_data graph_tuple
                   else mret tt
               | None => mret tt
               end) X)
    /\ trace (Extended.new_xdrip_data_callback now iter) g
       = T1 ++ trace (match dict_find iter Extended.KEY_GRAPH_DATA with
                      | Some graph_tuple =>
                          if 6 <=? tuple_length graph_tuple
                          then Extended.parse_graph_data graph_tuple
                          else mret tt
                      | None => mret tt
                      end) X ++ T2
    /\ graph_part X = graph_part g
    /\ Forall string_access T1
    /\ Forall string_access T2.
Proof.
  intros Hts. unfold Extended.new_xdrip_data_callback. rewrite Hts.
  rewrite !exec_bind, !trace_bind.
  match goal with
  | |- context [exec (match dict_find iter Extended.KEY_GRAPH_DATA with
                      | Some _ => _ | None => _ end) ?Y] => exists Y
  end.
  do 2 eexists. split; [do 4 skip; reflexivity|].
  split; [rewrite 3 app_assoc; reflexivity|].
  split; [repeat skip; reflexivity|].
  split; string_traces.
Qed.

Lemma compact_around_graph now iter g timestamp_tuple :
  dict_find iter Compact.KEY_BG_TIMESTAMP = Some timestamp_tuple ->
  exists X T1 T2,
    graph_part (exec (Compact.new_xdrip_data_callback now iter) g)
    = graph_part
        (exec (match dict_find iter Compact.KEY_GRAPH_DATA with
               | Some graph_tuple =>
                   if 5 <=? tuple_length graph_tuple
                   then Compact.parse_graph_data graph_tuple
                   else mret tt
               | None => mret tt
               end) X)
    /\ trace (Compact.new_xdrip_data_callback now iter) g
       = T1 ++ trace (match dict_find iter Compact.KEY_GRAPH_DATA with
                      | Some graph_tuple =>
                          if 5 <=? tuple_length graph_tuple
                          then Compact.parse_graph_data graph_tuple
                          else mret tt
                      | None => mret tt
                      end) X ++ T2
    /\ graph_part X = graph_part g
    /\ Forall string_access T1
    /\ Forall string_access T2.
Proof.
  intros Hts. unfold Compact.new_xdrip_data_callback. rewrite Hts.
  rewrite !exec_bind, !trace_bind.
  match goal with
  | |- context [exec (match dict_find iter Compact.KEY_GRAPH_DATA with
                      | Some _ => _ | None => _ end) ?Y] => exists Y
  end.
  do 2 eexists. split; [do 4 skip; reflexivity|].
  split; [rewrite 3 app_assoc; reflexivity|].
  split; [repeat skip; reflexivity|].
  split; string_traces.
Qed.

(** ** Bounds of the decoder's accesses *)

Lemma header_reads_ok n len cap :
  n <= len -> Forall (fun e => access_ok len cap e = true) (header_reads n).
Proof.
  intros Hn. unfold header_reads. apply Forall_map, Forall_seqZ.
  intros j Hj. simpl. apply in_bounds_spec. lia.
Qed.

Lemma extended_accepted_ok c len :
  0 < c <= Extended.MAX_GRAPH_POINTS -> 6 + c * 3 <= len ->
  Forall (fun e => access_ok len Extended.MAX_GRAPH_POINTS e = true)
         (header_reads 6 ++ extended_loops_trace c ++ extended_log_reads c).
Proof.
  unfold Extended.MAX_GRAPH_POINTS. intros Hc Hlen.
  apply Forall_app. split; [apply header_reads_ok; lia|].
  apply Forall_app. split.
  - unfold extended_loops_trace. apply Forall_app.
    split; apply Forall_loop_trace; intros j Hj;
      repeat constructor; simpl; apply in_bounds_spec; lia.
  - unfold extended_log_reads. repeat constructor; simpl; apply in_bounds_spec; lia.
Qed.

Lemma compact_accepted_ok c len :
  0 <= c <= Compact.MAX_GRAPH_POINTS -> 5 + c * 2 <= len ->
  Forall (fun e => access_ok len Compact.MAX_GRAPH_POINTS e = true)
         (header_reads 5 ++ compact_loops_trace c).
Proof.
  unfold Compact.MAX_GRAPH_POINTS. intros Hc Hlen.
  apply Forall_app. split; [apply header_reads_ok; lia|].
  unfold compact_loops_trace. apply Forall_app.
  split; apply Forall_loop_trace; intros j Hj;
    repeat constructor; simpl; apply in_bounds_spec; lia.
Qed.

Lemma extended_count_range payload :
  0 <= extended_count payload <= Extended.MAX_GRAPH_POINTS.
Proof.
  unfold extended_count, extended_declared_count, to_uint16, Extended.MAX_GRAPH_POINTS.
  match goal with |- context [?a mod ?b] => pose proof (Z.mod_pos_bound a b) end.
  destruct (Z.ltb_spec 300 (Z.lor (load payload 4) (Z.shiftl (load payload 5) 8) mod 2 ^ 16));
    lia.
Qed.

Lemma compact_count_range payload :
  0 <= compact_count payload <= Compact.MAX_GRAPH_POINTS.
Proof.
  unfold compact_count, compact_declared_count, to_uint8, Compact.MAX_GRAPH_POINTS.
  pose proof (Z.mod_pos_bound (load payload 4) (2 ^ 8)).
  destruct (Z.ltb_spec 60 (load payload 4 mod 2 ^ 8)); lia.
Qed.

Lemma extended_count_bytes payload :
  Forall is_byte payload ->
  extended_declared_count payload = load payload 4 + 256 * load payload 5.
Proof.
  intros H. unfold extended_declared_count. apply le16_bytes; by apply load_is_byte.
Qed.

Lemma compact_count_bytes payload :
  Forall is_byte payload -> compact_declared_count payload = load payload 4.
Proof.
  intros H. unfold compact_declared_count. apply to_uint8_byte. by apply load_is_byte.
Qed.

(** ** What the callback does to the graph series *)

Lemma graph_part_marked_dirty g :
  graph_part (marked_dirty g)
  = (s_graph_ref_timestamp g, s_graph_count g, s_graph_offsets g, s_graph_bg_values g,
     if s_graph_layer g is Some _ then Some true else None).
Proof.
  unfold marked_dirty, graph_part.
  destruct (s_graph_layer g) eqn:E; [done | by rewrite E].
Qed.

Lemma extended_graph_outcome now iter g timestamp_tuple t :
  dict_find iter Extended.KEY_BG_TIMESTAMP = Some timestamp_tuple ->
  dict_find iter Extended.KEY_GRAPH_DATA = Some t ->
  6 <= tuple_length t ->
  exists T1 T2,
    Forall string_access T1 /\ Forall string_access T2 /\
    if 6 + extended_count (data t) * 3 <=? tuple_length t then
      graph_part (exec (Extended.new_xdrip_data_callback now iter) g)
      = (ref_timestamp_of (data t), extended_count (data t),
         fill (extended_offset (data t)) (Z.to_nat (extended_count (data t))) 0
           (s_graph_offsets g),
         fill (extended_value (data t)) (Z.to_nat (extended_count (data t))) 0
           (s_graph_bg_values g),
         if s_graph_layer g is Some _ then Some true else None)
      /\ trace (Extended.new_xdrip_data_callback now iter) g
         = T1 ++ (header_reads 6 ++ extended_loops_trace (extended_count (data t))
                  ++ extended_log_reads (extended_count (data t))) ++ T2
    else
      graph_part (exec (Extended.new_xdrip_data_callback now iter) g)
      = (ref_timestamp_of (data t), extended_count (data t),
         s_graph_offsets g, s_graph_bg_values g, s_graph_layer g)
      /\ trace (Extended.new_xdrip_data_callback now iter) g
         = T1 ++ header_reads 6 ++ T2.
Proof.
  intros Hts Hgraph Hlen.
  destruct (extended_around_graph now iter g timestamp_tuple Hts)
    as (X & T1 & T2 & Hgp & Htr & HX & HT1 & HT2).
  exists T1, T2. split; [done|]. split; [done|].
  rewrite Hgraph in Hgp, Htr.
  destruct (Z.leb_spec 6 (tuple_length t)); [|lia].
  pose proof (extended_parse_closed t X) as Hclosed. cbv zeta in Hclosed.
  rewrite Hgp, Htr. unfold exec, trace. rewrite Hclosed.
  injection HX as Href Hcount Hoffsets Hvalues Hlayer.
  destruct (6 + extended_count (data t) * 3 <=? tuple_length t); cbn [fst snd].
  - split; [|done]. rewrite graph_part_marked_dirty.
    cbn [s_graph_ref_timestamp s_graph_count s_graph_offsets s_graph_bg_values
         s_graph_layer set_s_graph_bg_values set_s_graph_offsets set_s_graph_count
         set_s_graph_ref_timestamp].
    by rewrite Hoffsets, Hvalues, Hlayer.
  - split; [|done]. unfold graph_part.
    cbn [s_graph_ref_timestamp s_graph_count s_graph_offsets s_graph_bg_values
         s_graph_layer set_s_graph_count set_s_graph_ref_timestamp].
    by rewrite Hoffsets, Hvalues, Hlayer.
Qed.

Lemma compact_graph_outcome now iter g timestamp_tuple t :
  dict_find iter Compact.KEY_BG_TIMESTAMP = Some timestamp_tuple ->
  dict_find iter Compact.KEY_GRAPH_DATA = Some t ->
  5 <= tuple_length t ->
  exists T1 T2,
    Forall string_access T1 /\ Forall string_access T2 /\
    if 5 + compact_count (data t) * 2 <=? tuple_length t then
      graph_part (exec (Compact.new_xdrip_data_callback now iter) g)
      = (ref_timestamp_of (data t), compact_count (data t),
         fill (compact_offset (data t)) (Z.to_nat (compact_count (data t))) 0
           (s_graph_offsets g),
         fill (compact_value (data t)) (Z.to_nat (compact_count (data t))) 0
           (s_graph_bg_values g),
         if s_graph_layer g is Some _ then Some true else None)
      /\ trace (Compact.new_xdrip_data_callback now iter) g
         = T1 ++ (header_reads 5 ++ compact_loops_trace (compact_count (data t))) ++ T2
    else
      graph_part (exec (Compact.new_xdrip_data_callback now iter) g)
      = (ref_timestamp_of (data t), compact_count (data t),
         s_graph_offsets g, s_graph_bg_values g, s_graph_layer g)
      /\ trace (Compact.new_xdrip_data_callback now iter) g
         = T1 ++ header_reads 5 ++ T2.
Proof.
  intros Hts Hgraph Hlen.
  destruct (compact_around_graph now iter g timestamp_tuple Hts)
    as (X & T1 & T2 & Hgp & Htr & HX & HT1 & HT2).
  exists T1, T2. split; [done|]. split; [done|].
  rewrite Hgraph in Hgp, Htr.
  destruct (Z.leb_spec 5 (tuple_length t)); [|lia].
  pose proof (compact_parse_closed t X) as Hclosed. cbv zeta in Hclosed.
  rewrite Hgp, Htr. unfold exec, trace. rewrite Hclosed.
  injection HX as Href Hcount Hoffsets Hvalues Hlayer.
  destruct (5 + compact_count (data t) * 2 <=? tuple_length t); cbn [fst snd].
  - split; [|done]. rewrite graph_part_marked_dirty.
    cbn [s_graph_ref_timestamp s_graph_count s_graph_offsets s_graph_bg_values
         s_graph_layer set_s_graph_bg_values set_s_graph_offsets set_s_graph_count
         set_s_graph_ref_timestamp].
    by rewrite Hoffsets, Hvalues, Hlayer.
  - split; [|done]. unfold graph_part.
    cbn [s_graph_ref_timestamp s_graph_count s_graph_offsets s_graph_bg_values
         s_graph_layer set_s_graph_count set_s_graph_ref_timestamp].
    by rewrite Hoffsets, Hvalues, Hlayer.
Qed.

Lemma extended_accepted_series now iter g timestamp_tuple t N :
  dict_find iter Extended.KEY_BG_TIMESTAMP = Some timestamp_tuple ->
  dict_find iter Extended.KEY_GRAPH_DATA = Some t ->
  Forall is_byte (data t) ->
  extended_count (data t) = N ->
  6 + N * 3 <= tuple_length t ->
  Z.of_nat (length (s_graph_offsets g)) = Extended.MAX_GRAPH_POINTS ->
  Z.of_nat (length (s_graph_bg_values g)) = Extended.MAX_GRAPH_POINTS ->
  graph_series_is (exec (Extended.new_xdrip_data_callback now iter) g)
    (le32_at0 (data t)) N
    (fun i => load (data t) (6 + 2 * i) + 256 * load (data t) (6 + 2 * i + 1))
    (fun i => 2 * load (data t) (6 + 2 * N + i))
  /\ s_graph_layer (exec (Extended.new_xdrip_data_callback now iter) g)
     = (if s_graph_layer g is Some _ then Some true else None).
Proof.
  intros Hts Hgraph Hbytes HN Hlen Hoffs Hvals.
  pose proof (extended_count_range (data t)) as Hrange. rewrite HN in Hrange.
  destruct (extended_graph_outcome now iter g timestamp_tuple t Hts Hgraph ltac:(lia))
    as (T1 & T2 & _ & _ & H).
  rewrite HN in H. destruct (Z.leb_spec (6 + N * 3) (tuple_length t)); [|lia].
  destruct H as [H _]. injection H as Href Hcount Hoffsets Hvalues Hlayer.
  split; [|done]. repeat split.
  - rewrite Href. apply le32_bytes; by apply load_is_byte.
  - done.
  - rewrite Hoffsets, load_fill_in by lia. unfold extended_offset.
    rewrite le16_bytes by (by apply load_is_byte).
    by replace (6 + i * 2) with (6 + 2 * i) by lia.
  - rewrite Hvalues, load_fill_in by lia. unfold extended_value.
    rewrite to_uint16_double by (by apply load_is_byte).
    rewrite HN. replace (6 + N * 2 + i) with (6 + 2 * N + i) by lia. lia.
Qed.

Lemma compact_accepted_series now iter g timestamp_tuple t N :
  dict_find iter Compact.KEY_BG_TIMESTAMP = Some timestamp_tuple ->
  dict_find iter Compact.KEY_GRAPH_DATA = Some t ->
  Forall is_byte (data t) ->
  compact_count (data t) = N ->
  5 + N * 2 <= tuple_length t ->
  Z.of_nat (length (s_graph_offsets g)) = Compact.MAX_GRAPH_POINTS ->
  Z.of_nat (length (s_graph_bg_values g)) = Compact.MAX_GRAPH_POINTS ->
  graph_series_is (exec (Compact.new_xdrip_data_callback now iter) g)
    (le32_at0 (data t)) N
    (fun i => load (data t) (5 + i))
    (fun i => 2 * load (data t) (5 + N + i))
  /\ s_graph_layer (exec (Compact.new_xdrip_data_callback now iter) g)
     = (if s_graph_layer g is Some _ then Some true else None).
Proof.
  intros Hts Hgraph Hbytes HN Hlen Hoffs Hvals.
  pose proof (compact_count_range (data t)) as Hrange. rewrite HN in Hrange.
  destruct (compact_graph_outcome now iter g timestamp_tuple t Hts Hgraph ltac:(lia))
    as (T1 & T2 & _ & _ & H).
  rewrite HN in H. destruct (Z.leb_spec (5 + N * 2) (tuple_length t)); [|lia].
  destruct H as [H _]. injection H as Href Hcount Hoffsets Hvalues Hlayer.
  split; [|done]. repeat split.
  - rewrite Href. apply le32_bytes; by apply load_is_byte.
  - done.
  - rewrite Hoffsets, load_fill_in by lia. unfold compact_offset.
    apply to_uint8_byte. by apply load_is_byte.
  - rewrite Hvalues, load_fill_in by lia. unfold compact_value.
    rewrite to_uint16_double by (by apply load_is_byte).
    rewrite HN. lia.
Qed.

(** C3. A well-formed graph payload with declared count [N] within the
    capacity and at least [header + N * (offset width + 1)] bytes decodes to
    the little-endian 32-bit reference timestamp of bytes 0-3, the count [N],
    the [i]-th offset entry and twice the [i]-th value byte, in the extended
    revision (6-byte header, 16-bit count and offsets, capacity 300) and in the
    compact one (5-byte header, 8-bit count and offsets, capacity 60); the
    compact payload [ref_ts = 1000, count = 2, offsets 0 5, values 50 60]
    decodes to reference 1000 and the points (0, 100) and (5, 120). *)
Theorem C3_well_formed_payload_decodes :
  (forall now iter g timestamp_tuple t N,
     dict_find iter Extended.KEY_BG_TIMESTAMP = Some timestamp_tuple ->
     dict_find iter Extended.KEY_GRAPH_DATA = Some t ->
     Forall is_byte (data t) ->
     N = load (data t) 4 + 256 * load (data t) 5 ->
     N <= 300 ->
     6 + N * (2 + 1) <= tuple_length t ->
     Z.of_nat (length (s_graph_offsets g)) = 300 ->
     Z.of_nat (length (s_graph_bg_values g)) = 300 ->
     graph_series_is (exec (Extended.new_xdrip_data_callback now iter) g)
       (le32_at0 (data t)) N
       (fun i => load (data t) (6 + 2 * i) + 256 * load (data t) (6 + 2 * i + 1))
       (fun i => 2 * load (data t) (6 + 2 * N + i)))
  /\ (forall now iter g timestamp_tuple t N,
        dict_find iter Compact.KEY_BG_TIMESTAMP = Some timestamp_tuple ->
        dict_find iter Compact.KEY_GRAPH_DATA = Some t ->
        Forall is_byte (data t) ->
        N = load (data t) 4 ->
        N <= 60 ->
        5 + N * (1 + 1) <= tuple_length t ->
        Z.of_nat (length (s_graph_offsets g)) = 60 ->
        Z.of_nat (length (s_graph_bg_values g)) = 60 ->
        graph_series_is (exec (Compact.new_xdrip_data_callback now iter) g)
          (le32_at0 (data t)) N
          (fun i => load (data t) (5 + i))
          (fun i => 2 * load (data t) (5 + N + i)))
  /\ (forall now g timestamp_tuple,
        key timestamp_tuple = Compact.KEY_BG_TIMESTAMP ->
        Z.of_nat (length (s_graph_offsets g)) = 60 ->
        Z.of_nat (length (s_graph_bg_values g)) = 60 ->
        let iter :=
          [timestamp_tuple;
           mkTuple Compact.KEY_GRAPH_DATA [232; 3; 0; 0; 2; 0; 5; 50; 60]] in
        let g' := exec (Compact.new_xdrip_data_callback now iter) g in
        s_graph_ref_timestamp g' = 1000
        /\ s_graph_count g' = 2
        /\ load (s_graph_offsets g') 0 = 0 /\ load (s_graph_bg_values g') 0 = 100
        /\ load (s_graph_offsets g') 1 = 5 /\ load (s_graph_bg_values g') 1 = 120).
Proof.
  split; [|split].
  - intros now iter g timestamp_tuple t N Hts Hgraph Hbytes HN HN300 Hlen Hoffs Hvals.
    assert (Hc : extended_count (data t) = N).
    { unfold extended_count. rewrite extended_count_bytes, <- HN by done.
      unfold Extended.MAX_GRAPH_POINTS. destruct (Z.ltb_spec 300 N); [lia | done]. }
    apply (extended_accepted_series now iter g timestamp_tuple t N);
      done || (unfold Extended.MAX_GRAPH_POINTS; lia).
  - intros now iter g timestamp_tuple t N Hts Hgraph Hbytes HN HN60 Hlen Hoffs Hvals.
    assert (Hc : compact_count (data t) = N).
    { unfold compact_count. rewrite compact_count_bytes, <- HN by done.
      unfold Compact.MAX_GRAPH_POINTS. destruct (Z.ltb_spec 60 N); [lia | done]. }
    apply (compact_accepted_series now iter g timestamp_tuple t N);
      done || (unfold Compact.MAX_GRAPH_POINTS; lia).
  - intros now g timestamp_tuple Hkey Hoffs Hvals iter g'.
    destruct (compact_accepted_series now iter g timestamp_tuple
                (mkTuple Compact.KEY_GRAPH_DATA [232; 3; 0; 0; 2; 0; 5; 50; 60]) 2)
      as [(Href & Hcount & Hpoints) _]; try done.
    + subst iter. simpl. by rewrite Hkey.
    + subst iter. simpl. by rewrite Hkey.
    + repeat constructor; unfold is_byte; lia.
    + fold g' in Href, Hcount, Hpoints.
      destruct (Hpoints 0 ltac:(lia)) as [Ho0 Hv0].
      destruct (Hpoints 1 ltac:(lia)) as [Ho1 Hv1].
      repeat split; done.
Qed.

Lemma C3_witness :
  let payload := [232; 3; 0; 0; 2; 0; 0; 0; 5; 0; 50; 60] in
  let iter := [mkTuple 10 [0; 241; 83; 101]; mkTuple 14 payload] in
  (dict_find iter Extended.KEY_BG_TIMESTAMP = Some (mkTuple 10 [0; 241; 83; 101])
   /\ dict_find iter Extended.KEY_GRAPH_DATA = Some (mkTuple 14 payload)
   /\ Forall is_byte payload
   /\ 2 = load payload 4 + 256 * load payload 5
   /\ 2 <= 300
   /\ 6 + 2 * (2 + 1) <= tuple_length (mkTuple 14 payload)
   /\ Z.of_nat (length (s_graph_offsets Extended.initial)) = 300
   /\ Z.of_nat (length (s_graph_bg_values Extended.initial)) = 300)
  /\ graph_series_is
       (exec (Extended.new_xdrip_data_callback 1700000300 iter) Extended.initial)
       (le32_at0 payload) 2
       (fun i => load payload (6 + 2 * i) + 256 * load payload (6 + 2 * i + 1))
       (fun i => 2 * load payload (6 + 2 * 2 + i)).
Proof.
  assert (Hb : Forall is_byte [232; 3; 0; 0; 2; 0; 0; 0; 5; 0; 50; 60])
    by (repeat constructor; unfold is_byte; lia).
  split.
  - repeat split; try reflexivity; try exact Hb; vm_compute; discriminate.
  - apply (proj1 C3_well_formed_payload_decodes 1700000300
             [mkTuple 10 [0; 241; 83; 101];
              mkTuple 14 [232; 3; 0; 0; 2; 0; 0; 0; 5; 0; 50; 60]]
             Extended.initial (mkTuple 10 [0; 241; 83; 101])
             (mkTuple 14 [232; 3; 0; 0; 2; 0; 0; 0; 5; 0; 50; 60]) 2);
      try reflexivity; try exact Hb; vm_compute; discriminate.
Defined.

Lemma graph_part_eq g r c o v l :
  graph_part g = (r, c, o, v, l) ->
  s_graph_ref_timestamp g = r /\ s_graph_count g = c /\ s_graph_offsets g = o
  /\ s_graph_bg_values g = v /\ s_graph_layer g = l.
Proof. unfold graph_part. intros H. by injection H. Qed.

Lemma Forall_string_access_ok len cap T :
  Forall string_access T -> Forall (fun e => access_ok len cap e = true) T.
Proof.
  intros H. eapply Forall_impl; [exact H|]. intros e. apply string_access_ok.
Qed.

Lemma Forall_string_access_no_data T :
  Forall string_access T -> Forall (fun e => touches A_data e = false) T.
Proof.
  intros H. eapply Forall_impl; [exact H|]. intros e He.
  by apply string_access_not_graph.
Qed.

(** C4. A declared count above the capacity (any value the count field can
    hold) is stored clamped to the capacity, 300 in the extended revision and
    60 in the compact one; the message is accepted whenever it holds the bytes
    of that many points, which are then the points decoded; and every access
    of the callback is inside its array, the payload reads staying below the
    length computed from the clamped count. *)
Theorem C4_oversized_count_is_clamped :
  (forall now iter g timestamp_tuple t,
     dict_find iter Extended.KEY_BG_TIMESTAMP = Some timestamp_tuple ->
     dict_find iter Extended.KEY_GRAPH_DATA = Some t ->
     Forall is_byte (data t) ->
     6 <= tuple_length t ->
     300 < load (data t) 4 + 256 * load (data t) 5 ->
     Z.of_nat (length (s_graph_offsets g)) = 300 ->
     Z.of_nat (length (s_graph_bg_values g)) = 300 ->
     let g' := exec (Extended.new_xdrip_data_callback now iter) g in
     s_graph_count g' = 300
     /\ (6 + 300 * (2 + 1) <= tuple_length t ->
           graph_series_is g' (le32_at0 (data t)) 300
             (fun i => load (data t) (6 + 2 * i) + 256 * load (data t) (6 + 2 * i + 1))
             (fun i => 2 * load (data t) (6 + 2 * 300 + i))
           /\ s_graph_layer g' = (if s_graph_layer g is Some _ then Some true else None))
     /\ Forall (fun e => access_ok (Z.min (tuple_length t) (6 + 300 * (2 + 1))) 300 e = true)
               (trace (Extended.new_xdrip_data_callback now iter) g))
  /\ (forall now iter g timestamp_tuple t,
        dict_find iter Compact.KEY_BG_TIMESTAMP = Some timestamp_tuple ->
        dict_find iter Compact.KEY_GRAPH_DATA = Some t ->
        Forall is_byte (data t) ->
        5 <= tuple_length t ->
        60 < load (data t) 4 ->
        Z.of_nat (length (s_graph_offsets g)) = 60 ->
        Z.of_nat (length (s_graph_bg_values g)) = 60 ->
        let g' := exec (Compact.new_xdrip_data_callback now iter) g in
        s_graph_count g' = 60
        /\ (5 + 60 * (1 + 1) <= tuple_length t ->
              graph_series_is g' (le32_at0 (data t)) 60
                (fun i => load (data t) (5 + i))
                (fun i => 2 * load (data t) (5 + 60 + i))
              /\ s_graph_layer g' = (if s_graph_layer g is Some _ then Some true else None))
        /\ Forall (fun e => access_ok (Z.min (tuple_length t) (5 + 60 * (1 + 1))) 60 e = true)
                  (trace (Compact.new_xdrip_data_callback now iter) g)).
Proof.
  split.
  - intros now iter g timestamp_tuple t Hts Hgraph Hbytes Hlen HN Hoffs Hvals g'.
    assert (Hc : extended_count (data t) = 300).
    { unfold extended_count. rewrite extended_count_bytes by done.
      unfold Extended.MAX_GRAPH_POINTS.
      destruct (Z.ltb_spec 300 (load (data t) 4 + 256 * load (data t) 5)); [done | lia]. }
    destruct (extended_graph_outcome now iter g timestamp_tuple t Hts Hgraph Hlen)
      as (T1 & T2 & HT1 & HT2 & H).
    fold g' in H. split; [|split].
    + destruct (6 + extended_count (data t) * 3 <=? tuple_length t);
        destruct H as [H _]; apply graph_part_eq in H;
        destruct H as (_ & Hcount & _); by rewrite Hcount.
    + intros Hacc.

      apply (extended_accepted_series now iter g timestamp_tuple t 300); done || lia.
    + rewrite Hc in H.
      destruct (Z.leb_spec (6 + 300 * 3) (tuple_length t)); destruct H as [_ ->];
        (apply Forall_app; split; [by apply Forall_string_access_ok|]);
        (apply Forall_app; split; [|by apply Forall_string_access_ok]).
      * apply (extended_accepted_ok 300); unfold Extended.MAX_GRAPH_POINTS; lia.
      * apply header_reads_ok. lia.
  - intros now iter g timestamp_tuple t Hts Hgraph Hbytes Hlen HN Hoffs Hvals g'.
    assert (Hc : compact_count (data t) = 60).
    { unfold compact_count. rewrite compact_count_bytes by done.
      unfold Compact.MAX_GRAPH_POINTS.
      destruct (Z.ltb_spec 60 (load (data t) 4)); [done | lia]. }
    destruct (compact_graph_outcome now iter g timestamp_tuple t Hts Hgraph Hlen)
      as (T1 & T2 & HT1 & HT2 & H).
    fold g' in H. split; [|split].
    + destruct (5 + compact_count (data t) * 2 <=? tuple_length t);
        destruct H as [H _]; apply graph_part_eq in H;
        destruct H as (_ & Hcount & _); by rewrite Hcount.
    + intros Hacc.

      apply (compact_accepted_series now iter g timestamp_tuple t 60); done || lia.
    + rewrite Hc in H.
      destruct (Z.leb_spec (5 + 60 * 2) (tuple_length t)); destruct H as [_ ->];
        (apply Forall_app; split; [by apply Forall_string_access_ok|]);
        (apply Forall_app; split; [|by apply Forall_string_access_ok]).
      * apply (compact_accepted_ok 60); unfold Compact.MAX_GRAPH_POINTS; lia.
      * apply header_reads_ok. lia.
Qed.

Lemma bytes_ok l :
  forallb (fun z => (0 <=? z) && (z <? 256)) l = true -> Forall is_byte l.
Proof.
  induction l as [|z l IH]; simpl; intros H; [constructor|].
  apply andb_true_iff in H as [Hz Hl]. constructor; [|by apply IH].
  apply andb_true_iff in Hz as [H1 H2]. apply Z.leb_le in H1. apply Z.ltb_lt in H2.
  by split.
Qed.

Lemma C4_witness :
  let ts := mkTuple 10 [0; 241; 83; 101] in
  let big := mkTuple 14 [0; 0; 0; 0; 255; 255] in
  let full := mkTuple 20 ([0; 0; 0; 0; 255] ++ replicate 120 7) in
  (dict_find [ts; big] Extended.KEY_BG_TIMESTAMP = Some ts
   /\ dict_find [ts; big] Extended.KEY_GRAPH_DATA = Some big
   /\ Forall is_byte (data big)
   /\ 6 <= tuple_length big
   /\ 300 < load (data big) 4 + 256 * load (data big) 5
   /\ Z.of_nat (length (s_graph_offsets Extended.initial)) = 300
   /\ Z.of_nat (length (s_graph_bg_values Extended.initial)) = 300)
  /\ s_graph_count (exec (Extended.new_xdrip_data_callback 1700000300 [ts; big])
                      Extended.initial) = 300
  /\ (dict_find [ts; full] Compact.KEY_BG_TIMESTAMP = Some ts
      /\ dict_find [ts; full] Compact.KEY_GRAPH_DATA = Some full
      /\ Forall is_byte (data full)
      /\ 5 <= tuple_length full
      /\ 60 < load (data full) 4
      /\ Z.of_nat (length (s_graph_offsets Compact.initial)) = 60
      /\ Z.of_nat (length (s_graph_bg_values Compact.initial)) = 60)
  /\ s_graph_count (exec (Compact.new_xdrip_data_callback 1700000300 [ts; full])
                      Compact.initial) = 60.
Proof.
  intros ts big full.
  assert (H1 : dict_find [ts; big] Extended.KEY_BG_TIMESTAMP = Some ts
   /\ dict_find [ts; big] Extended.KEY_GRAPH_DATA = Some big
   /\ Forall is_byte (data big)
   /\ 6 <= tuple_length big
   /\ 300 < load (data big) 4 + 256 * load (data big) 5
   /\ Z.of_nat (length (s_graph_offsets Extended.initial)) = 300
   /\ Z.of_nat (length (s_graph_bg_values Extended.initial)) = 300).
  { repeat split; try reflexivity; try (apply bytes_ok; reflexivity);
      vm_compute; discriminate. }
  assert (H2 : dict_find [ts; full] Compact.KEY_BG_TIMESTAMP = Some ts
      /\ dict_find [ts; full] Compact.KEY_GRAPH_DATA = Some full
      /\ Forall is_byte (data full)
      /\ 5 <= tuple_length full
      /\ 60 < load (data full) 4
      /\ Z.of_nat (length (s_graph_offsets Compact.initial)) = 60
      /\ Z.of_nat (length (s_graph_bg_values Compact.initial)) = 60).
  { repeat split; try reflexivity; try (apply bytes_ok; reflexivity);
      vm_compute; discriminate. }
  split; [exact H1|]. split; [|split; [exact H2|]].
  - destruct H1 as (A & B & C & D & E & F & G).
    exact (proj1 (proj1 C4_oversized_count_is_clamped 1700000300 [ts; big]
                    Extended.initial ts big A B C D E F G)).
  - destruct H2 as (A & B & C & D & E & F & G).
    exact (proj1 (proj2 C4_oversized_count_is_clamped 1700000300 [ts; full]
                    Compact.initial ts full A B C D E F G)).
Defined.

(** C7. A graph payload shorter than the fixed header (6 bytes in the
    extended revision, 5 in the compact one) changes no part of the graph
    series and no element of the payload is read: the graph block is the
    identity on the whole static state, and after the whole callback the
    reference timestamp, count, offsets, values and dirty flag are as
    before. *)
Theorem C7_short_payload_untouched :
  (forall now iter g t,
     dict_find iter Extended.KEY_GRAPH_DATA = Some t ->
     tuple_length t < 6 ->
     graph_part (exec (Extended.new_xdrip_data_callback now iter) g) = graph_part g
     /\ Forall (fun e => touches A_data e = false)
               (trace (Extended.new_xdrip_data_callback now iter) g)
     /\ forall X,
          (if 6 <=? tuple_length t then Extended.parse_graph_data t else mret tt) X
          = (tt, X, []))
  /\ (forall now iter g t,
        dict_find iter Compact.KEY_GRAPH_DATA = Some t ->
        tuple_length t < 5 ->
        graph_part (exec (Compact.new_xdrip_data_callback now iter) g) = graph_part g
        /\ Forall (fun e => touches A_data e = false)
                  (trace (Compact.new_xdrip_data_callback now iter) g)
        /\ forall X,
             (if 5 <=? tuple_length t then Compact.parse_graph_data t else mret tt) X
             = (tt, X, [])).
Proof.
  split.
  - intros now iter g t Hgraph Hlen.
    destruct (Z.leb_spec 6 (tuple_length t)) as [|_]; [lia|].
    split; [|split; [|done]].
    + destruct (dict_find iter Extended.KEY_BG_TIMESTAMP) as [ts|] eqn:Hts.
      * destruct (extended_around_graph now iter g ts Hts)
          as (X & T1 & T2 & Hgp & _ & HX & _).
        rewrite Hgraph in Hgp.
        destruct (Z.leb_spec 6 (tuple_length t)) as [|_]; [lia|].
        by rewrite Hgp.
      * unfold Extended.new_xdrip_data_callback. by rewrite Hts.
    + destruct (dict_find iter Extended.KEY_BG_TIMESTAMP) as [ts|] eqn:Hts.
      * destruct (extended_around_graph now iter g ts Hts)
          as (X & T1 & T2 & _ & Htr & _ & HT1 & HT2).
        rewrite Hgraph in Htr.
        destruct (Z.leb_spec 6 (tuple_length t)) as [|_]; [lia|].
        rewrite Htr. apply Forall_app. split; [by apply Forall_string_access_no_data|].
        by apply Forall_string_access_no_data.
      * unfold Extended.new_xdrip_data_callback. rewrite Hts. constructor.
  - intros now iter g t Hgraph Hlen.
    destruct (Z.leb_spec 5 (tuple_length t)) as [|_]; [lia|].
    split; [|split; [|done]].
    + destruct (dict_find iter Compact.KEY_BG_TIMESTAMP) as [ts|] eqn:Hts.
      * destruct (compact_around_graph now iter g ts Hts)
          as (X & T1 & T2 & Hgp & _ & HX & _).
        rewrite Hgraph in Hgp.
        destruct (Z.leb_spec 5 (tuple_length t)) as [|_]; [lia|].
        by rewrite Hgp.
      * unfold Compact.new_xdrip_data_callback. by rewrite Hts.
    + destruct (dict_find iter Compact.KEY_BG_TIMESTAMP) as [ts|] eqn:Hts.
      * destruct (compact_around_graph now iter g ts Hts)
          as (X & T1 & T2 & _ & Htr & _ & HT1 & HT2).
        rewrite Hgraph in Htr.
        destruct (Z.leb_spec 5 (tuple_length t)) as [|_]; [lia|].
        rewrite Htr. apply Forall_app. split; [by apply Forall_string_access_no_data|].
        by apply Forall_string_access_no_data.
      * unfold Compact.new_xdrip_data_callback. rewrite Hts. constructor.
Qed.

Lemma C7_witness :
  let ts := mkTuple 10 [0; 241; 83; 101] in
  let short6 := mkTuple 14 [1; 2; 3; 4; 5] in
  let short5 := mkTuple 20 [1; 2; 3; 4] in
  (dict_find [ts; short6] Extended.KEY_GRAPH_DATA = Some short6
   /\ tuple_length short6 < 6)
  /\ graph_part (exec (Extended.new_xdrip_data_callback 1700000300 [ts; short6])
                   Extended.initial)
     = graph_part Extended.initial
  /\ (dict_find [ts; short5] Compact.KEY_GRAPH_DATA = Some short5
      /\ tuple_length short5 < 5)
  /\ graph_part (exec (Compact.new_xdrip_data_callback 1700000300 [ts; short5])
                   Compact.initial)
     = graph_part Compact.initial.
Proof.
  intros ts short6 short5.
  assert (H1 : dict_find [ts; short6] Extended.KEY_GRAPH_DATA = Some short6
               /\ tuple_length short6 < 6) by (split; reflexivity).
  assert (H2 : dict_find [ts; short5] Compact.KEY_GRAPH_DATA = Some short5
               /\ tuple_length short5 < 5) by (split; reflexivity).
  split; [exact H1|]. split; [|split; [exact H2|]].
  - exact (proj1 (proj1 C7_short_payload_untouched 1700000300 [ts; short6]
                    Extended.initial short6 (proj1 H1) (proj2 H1))).
  - exact (proj1 (proj2 C7_short_payload_untouched 1700000300 [ts; short5]
                    Compact.initial short5 (proj1 H2) (proj2 H2))).
Defined.

Lemma C8_witness :
  let ts := mkTuple 10 [0; 241; 83; 101] in
  let arrow := mkTuple 13 [9] in
  let g' := exec (Extended.new_xdrip_data_callback 1700000300 [ts; arrow])
              Extended.initial in
  (dict_find [ts; arrow] Extended.KEY_BG_TIMESTAMP = Some ts
   /\ dict_find [ts; arrow] Extended.KEY_ARROW_INDEX = Some arrow
   /\ is_byte (uint8 arrow))
  /\ s_arrow_index g' = 9
  /\ (s_arrow_layer g' = None <-> uint8 arrow = 0 \/ 8 <= uint8 arrow).
Proof.
  intros ts arrow g'.
  assert (H : dict_find [ts; arrow] Extended.KEY_BG_TIMESTAMP = Some ts
              /\ dict_find [ts; arrow] Extended.KEY_ARROW_INDEX = Some arrow
              /\ is_byte (uint8 arrow)).
  { split; [reflexivity|]. split; [reflexivity|]. split; vm_compute; [discriminate|reflexivity]. }
  split; [exact H|].
  destruct H as (A & B & C).
  pose proof (C8_arrow_index_raw_and_rendered 1700000300 [ts; arrow] Extended.initial
                ts arrow A B C) as (H1 & H2 & _).
  split; [exact H1 | exact H2].
Defined.

Lemma C9_witness :
  let ts := mkTuple 10 [0; 241; 83; 101] in
  let bg := mkTuple 11 (chars "7.5" ++ [0]) in
  let high := mkTupleAt 15 [90] [16; 0; 0; 0; 2; 2; 0; 72; 0] in
  let low := mkTuple 16 [72; 0] in
  let iter := [ts; bg; high; low] in
  let g' := exec (Extended.new_xdrip_data_callback 1700000300 iter) Extended.initial in
  (dict_find iter Extended.KEY_BG_TIMESTAMP = Some ts
   /\ length (s_bg_string Extended.initial) = 5%nat
   /\ length (s_delta_string Extended.initial) = 6%nat
   /\ reads_inside 5 (memory bg)
   /\ (2 <= length (memory high))%nat
   /\ (2 <= length (memory low))%nat)
  /\ s_bg_string g' = chars "7.5" ++ [0; 0]
  /\ s_delta_string g' = s_delta_string Extended.initial
  /\ s_arrow_index g' = s_arrow_index Extended.initial
  /\ s_graph_high_line g' = 90 + 256 * 16
  /\ s_graph_low_line g' = 72.
Proof.
  intros ts bg high low iter g'.
  assert (Hbg : reads_inside 5 (memory bg)) by (vm_compute; discriminate).
  assert (Hhigh : (2 <= length (memory high))%nat) by (simpl; lia).
  assert (Hlow : (2 <= length (memory low))%nat) by (simpl; lia).
  split; [repeat split; (reflexivity || assumption)|].
  pose proof (C9_optional_fields_merge 1700000300 iter Extended.initial ts
                eq_refl eq_refl eq_refl)
    as (_ & Hd & Ha & _ & _ & Hs & _ & _ & Hh & Hl).
  split; [exact (Hs bg eq_refl Hbg)|].
  split; [exact (Hd eq_refl)|].
  split; [exact (Ha eq_refl)|].
  split; [exact (Hh high eq_refl Hhigh) | exact (Hl low eq_refl Hlow)].
Defined.

Lemma C10_witness :
  let ts := mkTuple 10 [0; 0; 0; 0] in
  let bg := mkTuple 11 (chars "5.5" ++ [0]) in
  let arrow := mkTuple 13 [4] in
  let low := mkTuple 16 [70; 0] in
  let iter := [ts; bg; arrow; low] in
  let g' := exec (Extended.new_xdrip_data_callback 1700000300 iter) Extended.initial in
  (dict_find iter Extended.KEY_BG_TIMESTAMP = Some ts
   /\ take 4 (memory ts) = [0; 0; 0; 0]
   /\ length (s_bg_string Extended.initial) = 5%nat
   /\ length (s_delta_string Extended.initial) = 6%nat
   /\ reads_inside 5 (memory bg)
   /\ (1 <= length (memory arrow))%nat
   /\ (2 <= length (memory low))%nat)
  /\ s_bg_timestamp g' = 0
  /\ s_time_ago_buffer g' = s_time_ago_buffer Extended.initial
  /\ s_time_ago_layer g' = s_time_ago_layer Extended.initial
  /\ s_bg_string g' = chars "5.5" ++ [0; 0]
  /\ s_arrow_index g' = 4
  /\ s_graph_low_line g' = 70.
Proof.
  intros ts bg arrow low iter g'.
  assert (Hbg : reads_inside 5 (memory bg)) by (vm_compute; discriminate).
  assert (Harrow : (1 <= length (memory arrow))%nat) by (simpl; lia).
  assert (Hlow : (2 <= length (memory low))%nat) by (simpl; lia).
  split; [repeat split; (reflexivity || assumption)|].
  pose proof (C10_zero_timestamp_is_sentinel 1700000300 iter Extended.initial ts
                eq_refl eq_refl eq_refl eq_refl)
    as (H1 & H2 & H3 & _ & _ & Hs & _ & Ha & _ & Hl).
  split; [exact H1|]. split; [exact H2|]. split; [exact H3|].
  split; [exact (Hs bg eq_refl Hbg)|].
  split; [exact (Ha arrow eq_refl Harrow) | exact (Hl low eq_refl Hlow)].
Defined.

(** ** Defects of the graph decoder *)

(** A payload that passes the header check and fails the length check has
    already overwritten the reference timestamp and the count; only the two
    arrays and the dirty flag are as before. *)
Lemma compact_rejected_overwrites_header now iter g timestamp_tuple t :
  dict_find iter Compact.KEY_BG_TIMESTAMP = Some timestamp_tuple ->
  dict_find iter Compact.KEY_GRAPH_DATA = Some t ->
  5 <= tuple_length t < 5 + compact_count (data t) * 2 ->
  graph_part (exec (Compact.new_xdrip_data_callback now iter) g)
  = (ref_timestamp_of (data t), compact_count (data t),
     s_graph_offsets g, s_graph_bg_values g, s_graph_layer g).
Proof.
  intros Hts Hgraph Hlen.
  destruct (compact_graph_outcome now iter g timestamp_tuple t Hts Hgraph ltac:(lia))
    as (T1 & T2 & _ & _ & H).
  destruct (Z.leb_spec (5 + compact_count (data t) * 2) (tuple_length t)); [lia|].
  apply H.
Qed.

Lemma extended_rejected_overwrites_header now iter g timestamp_tuple t :
  dict_find iter Extended.KEY_BG_TIMESTAMP = Some timestamp_tuple ->
  dict_find iter Extended.KEY_GRAPH_DATA = Some t ->
  6 <= tuple_length t < 6 + extended_count (data t) * 3 ->
  graph_part (exec (Extended.new_xdrip_data_callback now iter) g)
  = (ref_timestamp_of (data t), extended_count (data t),
     s_graph_offsets g, s_graph_bg_values g, s_graph_layer g).
Proof.
  intros Hts Hgraph Hlen.
  destruct (extended_graph_outcome now iter g timestamp_tuple t Hts Hgraph ltac:(lia))
    as (T1 & T2 & _ & _ & H).
  destruct (Z.leb_spec (6 + extended_count (data t) * 3) (tuple_length t)); [lia|].
  apply H.
Qed.

(** In the compact revision every access of the callback is inside its
    array, whatever the message. *)
Lemma compact_callback_in_bounds now iter g t :
  dict_find iter Compact.KEY_GRAPH_DATA = Some t ->
  Forall (fun e => access_ok (tuple_length t) Compact.MAX_GRAPH_POINTS e = true)
         (trace (Compact.new_xdrip_data_callback now iter) g).
Proof.
  intros Hgraph.
  destruct (dict_find iter Compact.KEY_BG_TIMESTAMP) as [ts|] eqn:Hts;
    [|unfold Compact.new_xdrip_data_callback; rewrite Hts; constructor].
  destruct (Z.le_gt_cases 5 (tuple_length t)) as [Hlen|Hlen].
  - destruct (compact_graph_outcome now iter g ts t Hts Hgraph Hlen)
      as (T1 & T2 & HT1 & HT2 & H).
    pose proof (compact_count_range (data t)).
    destruct (Z.leb_spec (5 + compact_count (data t) * 2) (tuple_length t));
      destruct H as [_ ->];
      (apply Forall_app; split; [by apply Forall_string_access_ok|]);
      (apply Forall_app; split; [|by apply Forall_string_access_ok]).
    + by apply compact_accepted_ok.
    + by apply header_reads_ok.
  - destruct (compact_around_graph now iter g ts Hts)
      as (X & T1 & T2 & _ & Htr & _ & HT1 & HT2).
    rewrite Hgraph in Htr.
    destruct (Z.leb_spec 5 (tuple_length t)); [lia|].
    rewrite Htr. apply Forall_app. split; by apply Forall_string_access_ok.
Qed.

(** In the extended revision the same holds unless an empty series is
    accepted. *)
Lemma extended_callback_in_bounds now iter g t :
  dict_find iter Extended.KEY_GRAPH_DATA = Some t ->
  extended_count (data t) <> 0 \/ tuple_length t < 6 ->
  Forall (fun e => access_ok (tuple_length t) Extended.MAX_GRAPH_POINTS e = true)
         (trace (Extended.new_xdrip_data_callback now iter) g).
Proof.
  intros Hgraph Hcase.
  destruct (dict_find iter Extended.KEY_BG_TIMESTAMP) as [ts|] eqn:Hts;
    [|unfold Extended.new_xdrip_data_callback; rewrite Hts; constructor].
  destruct (Z.le_gt_cases 6 (tuple_length t)) as [Hlen|Hlen].
  - destruct (extended_graph_outcome now iter g ts t Hts Hgraph Hlen)
      as (T1 & T2 & HT1 & HT2 & H).
    pose proof (extended_count_range (data t)).
    destruct (Z.leb_spec (6 + extended_count (data t) * 3) (tuple_length t));
      destruct H as [_ ->];
      (apply Forall_app; split; [by apply Forall_string_access_ok|]);
      (apply Forall_app; split; [|by apply Forall_string_access_ok]).
    + apply extended_accepted_ok; lia.
    + by apply header_reads_ok.
  - destruct (extended_around_graph now iter g ts Hts)
      as (X & T1 & T2 & _ & Htr & _ & HT1 & HT2).
    rewrite Hgraph in Htr.
    destruct (Z.leb_spec 6 (tuple_length t)); [lia|].
    rewrite Htr. apply Forall_app. split; by apply Forall_string_access_ok.
Qed.

(** An accepted empty series makes the "last point" log line of the extended
    revision read index -1 of both arrays. *)
Lemma extended_empty_series_reads_before_arrays now iter g timestamp_tuple t :
  dict_find iter Extended.KEY_BG_TIMESTAMP = Some timestamp_tuple ->
  dict_find iter Extended.KEY_GRAPH_DATA = Some t ->
  6 <= tuple_length t ->
  extended_count (data t) = 0 ->
  Read A_graph_offsets (-1) ∈ trace (Extended.new_xdrip_data_callback now iter) g
  /\ Read A_graph_bg_values (-1) ∈ trace (Extended.new_xdrip_data_callback now iter) g.
Proof.
  intros Hts Hgraph Hlen Hc.
  destruct (extended_graph_outcome now iter g timestamp_tuple t Hts Hgraph Hlen)
    as (T1 & T2 & _ & _ & H).
  rewrite Hc in H. destruct (Z.leb_spec (6 + 0 * 3) (tuple_length t)); [|lia].
  destruct H as [_ ->]. unfold extended_log_reads.
  split; rewrite !elem_of_app; right; left; right; right;
    apply list_elem_of_In; simpl; auto.
Qed.

(** C1. The graph decode does not stay in bounds for an accepted payload
    with declared count 0: in the extended revision, and in the half-unit
    one, the 6-byte payload of zeros is accepted (count 0, graph marked dirty)
    and the "last point" log line then reads [s_graph_offsets[-1]] and
    [s_graph_bg_values[-1]], the only two accesses of the callback outside
    their arrays. *)
Theorem C1_empty_series_read_out_of_bounds :
  let ts := mkTuple 10 [0; 241; 83; 101] in
  let empty := mkTuple 14 [0; 0; 0; 0; 0; 0] in
  let g := set_s_graph_layer (Some false) Extended.initial in
  let h := set_s_graph_layer (Some false) HalfUnits.initial in
  let out_of_bounds := List.filter (fun e => negb (access_ok 6 300 e)) in
  (s_graph_count (exec (Extended.new_xdrip_data_callback 1700000300 [ts; empty]) g) = 0
   /\ s_graph_layer (exec (Extended.new_xdrip_data_callback 1700000300 [ts; empty]) g)
      = Some true
   /\ out_of_bounds (trace (Extended.new_xdrip_data_callback 1700000300 [ts; empty]) g)
      = [Read A_graph_offsets (-1); Read A_graph_bg_values (-1)])
  /\ (s_graph_count (exec (HalfUnits.new_xdrip_data_callback 1700000300 [ts; empty]) h) = 0
      /\ s_graph_layer (exec (HalfUnits.new_xdrip_data_callback 1700000300 [ts; empty]) h)
         = Some true
      /\ out_of_bounds (trace (HalfUnits.new_xdrip_data_callback 1700000300 [ts; empty]) h)
         = [Read A_graph_offsets (-1); Read A_graph_bg_values (-1)]).
Proof. vm_compute. repeat split; reflexivity. Qed.

(** C2. A payload rejected by the length check does not leave the series
    untouched: the compact payload [ref_ts = 1000, count = 2] cut to 5 bytes
    (9 are required) is rejected, the arrays and the dirty flag stay as they
    were, but the reference timestamp has become 1000 and the count 2; the
    extended revision does the same with the 6-byte header alone. *)
Theorem C2_rejected_payload_overwrites_header :
  let ts := mkTuple 10 [0; 241; 83; 101] in
  let cut5 := mkTuple 20 [232; 3; 0; 0; 2] in
  let cut6 := mkTuple 14 [232; 3; 0; 0; 2; 0] in
  let g := set_s_graph_layer (Some false) Compact.initial in
  let g' := exec (Compact.new_xdrip_data_callback 1700000300 [ts; cut5]) g in
  let h := set_s_graph_layer (Some false) Extended.initial in
  let h' := exec (Extended.new_xdrip_data_callback 1700000300 [ts; cut6]) h in
  (tuple_length cut5 = 5
   /\ (s_graph_ref_timestamp g, s_graph_count g) = (0, 0)
   /\ (s_graph_ref_timestamp g', s_graph_count g') = (1000, 2)
   /\ s_graph_offsets g' = s_graph_offsets g
   /\ s_graph_bg_values g' = s_graph_bg_values g
   /\ s_graph_layer g' = Some false
   /\ graph_part g' <> graph_part g)
  /\ (tuple_length cut6 = 6
      /\ (s_graph_ref_timestamp h, s_graph_count h) = (0, 0)
      /\ (s_graph_ref_timestamp h', s_graph_count h') = (1000, 2)
      /\ s_graph_offsets h' = s_graph_offsets h
      /\ s_graph_bg_values h' = s_graph_bg_values h
      /\ s_graph_layer h' = Some false
      /\ graph_part h' <> graph_part h).
Proof. vm_compute. repeat split; reflexivity || discriminate. Qed.

(** * Further properties *)

(** ** Array sizes never change *)

Lemma sizes_write a i v : preserves sizes (write a i v).
Proof.
  intros g. unfold exec, write, sizes. cbn [fst snd].
  destruct a; cbn; rewrite ?length_store; reflexivity.
Qed.

Lemma sizes_strncpy_pad dest n : forall i, preserves sizes (strncpy_pad n dest i).
Proof.
  induction n as [|n IH]; intros i; simpl.
  - apply preserves_ret.
  - apply preserves_bind; [apply sizes_write | intros _; apply IH].
Qed.

Lemma sizes_strncpy_loop dest n : forall i src, preserves sizes (strncpy_loop n dest i src).
Proof.
  induction n as [|n IH]; intros i src; [apply preserves_ret|].
  cbn [strncpy_loop]. destruct src as [|c src].
  - apply sizes_strncpy_pad.
  - destruct (c =? 0).
    + apply sizes_strncpy_pad.
    + apply preserves_bind; [apply sizes_write | intros _; apply IH].
Qed.

Lemma sizes_safe_strncpy dest src count : preserves sizes (safe_strncpy dest src count).
Proof.
  unfold safe_strncpy, strncpy. destruct (0 <? count).
  - apply preserves_bind; [apply sizes_strncpy_loop | intros _; apply sizes_write].
  - apply preserves_ret.
Qed.

Lemma sizes_snprintf_loop dest n : forall i text, preserves sizes (snprintf_loop n dest i text).
Proof.
  induction n as [|n IH]; intros i text; simpl.
  - destruct text; apply sizes_write.
  - destruct text as [|c text]; [apply sizes_write|].
    apply preserves_bind; [apply sizes_write | intros _; apply IH].
Qed.

Lemma sizes_snprintf dest size text : preserves sizes (snprintf dest size text).
Proof.
  unfold snprintf. destruct (0 <? size); [apply sizes_snprintf_loop | apply preserves_ret].
Qed.

(** Discharges [preserves sizes m] by following the structure of [m]. *)
Ltac frame_sizes :=
  unfold update_displayed_xdrip_data, HalfUnits.update_displayed_xdrip_data,
    update_displayed_time_ago, mark_graph_dirty,
    Extended.parse_graph_data, Compact.parse_graph_data, HalfUnits.parse_graph_data;
  repeat first
    [ progress cbv zeta
    | apply preserves_ret
    | apply preserves_get
    | apply preserves_read
    | apply preserves_read_data
    | apply sizes_safe_strncpy
    | apply sizes_snprintf
    | apply sizes_write
    | apply preserves_for_loop; intros ?
    | apply preserves_modify; intros ?; reflexivity
    | apply preserves_bind; [|intros ?]
    | match goal with
      | |- preserves _ (if ?b then _ else _) => destruct b
      | |- preserves _ (match ?o with Some _ => _ | None => _ end) => destruct o
      end ].

Lemma extended_callback_sizes now iter :
  preserves sizes (Extended.new_xdrip_data_callback now iter).
Proof. unfold Extended.new_xdrip_data_callback. frame_sizes. Qed.

Lemma compact_callback_sizes now iter :
  preserves sizes (Compact.new_xdrip_data_callback now iter).
Proof. unfold Compact.new_xdrip_data_callback. frame_sizes. Qed.

Lemma halfunits_callback_sizes now iter :
  preserves sizes (HalfUnits.new_xdrip_data_callback now iter).
Proof. unfold HalfUnits.new_xdrip_data_callback. frame_sizes. Qed.

(** ** The half-unit revision around its graph block *)

Lemma halfunits_parse_closed t g :
  let c := extended_count (data t) in
  let g1 := set_s_graph_count c (set_s_graph_ref_timestamp (ref_timestamp_of (data t)) g) in
  HalfUnits.parse_graph_data t g
  = if 6 + c * 3 <=? tuple_length t then
      (tt,
       marked_dirty
         (set_s_graph_bg_values
            (fill (halfunits_value (data t)) (Z.to_nat c) 0 (s_graph_bg_values g))
            (set_s_graph_offsets
               (fill (extended_offset (data t)) (Z.to_nat c) 0 (s_graph_offsets g)) g1)),
       header_reads 6 ++ extended_loops_trace c ++ extended_log_reads c)
    else (tt, g1, header_reads 6).
Proof.
  cbv zeta. unfold HalfUnits.parse_graph_data. cbv zeta.
  change HalfUnits.MAX_GRAPH_POINTS with Extended.MAX_GRAPH_POINTS. run_prims.
  fold (extended_declared_count (data t)). fold (ref_timestamp_of (data t)).
  fold (extended_count (data t)).
  destruct (6 + extended_count (data t) * 3 <=? tuple_length t).
  - rewrite bind_unfold.
    rewrite (for_loop_closed A_graph_offsets
               (fun _ i => [Read A_data (6 + i * 2); Read A_data (6 + i * 2 + 1)])
               (fun _ i => extended_offset (data t) i)) by done.
    cbv beta iota. rewrite bind_unfold.
    rewrite (for_loop_closed A_graph_bg_values
               (fun g i => [Read A_data (6 + s_graph_count g * 2 + i)])
               (fun g i => to_uint8 (load (data t) (6 + s_graph_count g * 2 + i))))
      by done.
    run_prims. unfold extended_loops_trace, marked_dirty.
    rewrite <- (app_assoc (loop_trace _ _ _)).
    destruct g as [? ? ? ? ? [?|] ? ? ? ? ? ? ? ? ? ? ?]; reflexivity.
  - run_prims. reflexivity.
Qed.

Ltac skip_h :=
  match goal with
  | |- context [?p (exec ?m ?g)] =>
      let H := fresh in
      assert (H : preserves p m)
        by (unfold HalfUnits.update_displayed_xdrip_data, HalfUnits.parse_graph_data;
            frame; fail);
      rewrite (H g); clear H
  end.

Ltac string_traces_h :=
  repeat (apply Forall_app; split);
  match goal with
  | |- Forall ?P (trace ?m ?X) =>
      let H := fresh in
      assert (H : traces P m)
        by (unfold HalfUnits.update_displayed_xdrip_data;
            trace_rules (cbn; lia); fail);
      apply H
  end.

Lemma halfunits_around_graph now iter g timestamp_tuple :
  dict_find iter HalfUnits.KEY_BG_TIMESTAMP = Some timestamp_tuple ->
  exists X T1 T2,
    (s_graph_ref_timestamp (exec (HalfUnits.new_xdrip_data_callback now iter) g),
     s_graph_count (exec (HalfUnits.new_xdrip_data_callback now iter) g),
     s_graph_offsets (exec (HalfUnits.new_xdrip_data_callback now iter) g),
     s_graph_bg_values (exec (HalfUnits.new_xdrip_data_callback now iter) g))
    = (let Y := exec (match dict_find iter HalfUnits.KEY_GRAPH_DATA with
                      | Some graph_tuple =>
                          if 6 <=? tuple_length graph_tuple
                          then HalfUnits.parse_graph_data graph_tuple
                          else mret tt
                      | None => mret tt
                      end) X in
       (s_graph_ref_timestamp Y, s_graph_count Y, s_graph_offsets Y, s_graph_bg_values Y))
    /\ trace (HalfUnits.new_xdrip_data_callback now iter) g
       = T1 ++ trace (match dict_find iter HalfUnits.KEY_GRAPH_DATA with
                      | Some graph_tuple =>
                          if 6 <=? tuple_length graph_tuple
                          then HalfUnits.parse_graph_data graph_tuple
                          else mret tt
                      | None => mret tt
                      end) X ++ T2
    /\ graph_part X = graph_part g
    /\ Forall string_access T1
    /\ Forall string_access T2.
Proof.
  intros Hts. unfold HalfUnits.new_xdrip_data_callback. rewrite Hts.
  rewrite !exec_bind, !trace_bind.
  match goal with
  | |- context [exec (match dict_find iter HalfUnits.KEY_GRAPH_DATA with
                      | Some _ => _ | None => _ end) ?Y] => exists Y
  end.
  do 2 eexists. split; [cbv zeta; repeat skip_h; reflexivity|].
  split; [rewrite 2 app_assoc; reflexivity|].
  split; [repeat skip_h; reflexivity|].
  split; string_traces_h.
Qed.

(** ** The count never exceeds the capacity *)

Lemma extended_count_after now iter g :
  s_graph_count (exec (Extended.new_xdrip_data_callback now iter) g) = s_graph_count g
  \/ 0 <= s_graph_count (exec (Extended.new_xdrip_data_callback now iter) g)
     <= Extended.MAX_GRAPH_POINTS.
Proof.
  destruct (dict_find iter Extended.KEY_BG_TIMESTAMP) as [ts|] eqn:Hts;
    [|left; unfold Extended.new_xdrip_data_callback; by rewrite Hts].
  destruct (dict_find iter Extended.KEY_GRAPH_DATA) as [t|] eqn:Hgraph.
  - destruct (Z.le_gt_cases 6 (tuple_length t)) as [Hlen|Hlen].
    + right.
      destruct (extended_graph_outcome now iter g ts t Hts Hgraph Hlen)
        as (T1 & T2 & _ & _ & H).
      pose proof (extended_count_range (data t)).
      destruct (6 + extended_count (data t) * 3 <=? tuple_length t);
        destruct H as [H _]; apply graph_part_eq in H;
        destruct H as (_ & -> & _); done.
    + left. destruct (extended_around_graph now iter g ts Hts)
        as (X & T1 & T2 & Hgp & _ & HX & _).
      rewrite Hgraph in Hgp. destruct (Z.leb_spec 6 (tuple_length t)); [lia|].
      change (exec (mret ()) X) with X in Hgp.
      rewrite HX in Hgp. unfold graph_part in Hgp. by injection Hgp.
  - left. destruct (extended_around_graph now iter g ts Hts)
      as (X & T1 & T2 & Hgp & _ & HX & _).
    rewrite Hgraph in Hgp. change (exec (mret ()) X) with X in Hgp.
    rewrite HX in Hgp. unfold graph_part in Hgp. by injection Hgp.
Qed.

Lemma compact_count_after now iter g :
  s_graph_count (exec (Compact.new_xdrip_data_callback now iter) g) = s_graph_count g
  \/ 0 <= s_graph_count (exec (Compact.new_xdrip_data_callback now iter) g)
     <= Compact.MAX_GRAPH_POINTS.
Proof.
  destruct (dict_find iter Compact.KEY_BG_TIMESTAMP) as [ts|] eqn:Hts;
    [|left; unfold Compact.new_xdrip_data_callback; by rewrite Hts].
  destruct (dict_find iter Compact.KEY_GRAPH_DATA) as [t|] eqn:Hgraph.
  - destruct (Z.le_gt_cases 5 (tuple_length t)) as [Hlen|Hlen].
    + right.
      destruct (compact_graph_outcome now iter g ts t Hts Hgraph Hlen)
        as (T1 & T2 & _ & _ & H).
      pose proof (compact_count_range (data t)).
      destruct (5 + compact_count (data t) * 2 <=? tuple_length t);
        destruct H as [H _]; apply graph_part_eq in H;
        destruct H as (_ & -> & _); done.
    + left. destruct (compact_around_graph now iter g ts Hts)
        as (X & T1 & T2 & Hgp & _ & HX & _).
      rewrite Hgraph in Hgp. destruct (Z.leb_spec 5 (tuple_length t)); [lia|].
      change (exec (mret ()) X) with X in Hgp.
      rewrite HX in Hgp. unfold graph_part in Hgp. by injection Hgp.
  - left. destruct (compact_around_graph now iter g ts Hts)
      as (X & T1 & T2 & Hgp & _ & HX & _).
    rewrite Hgraph in Hgp. change (exec (mret ()) X) with X in Hgp.
    rewrite HX in Hgp. unfold graph_part in Hgp. by injection Hgp.
Qed.

Lemma halfunits_count_after now iter g :
  s_graph_count (exec (HalfUnits.new_xdrip_data_callback now iter) g) = s_graph_count g
  \/ 0 <= s_graph_count (exec (HalfUnits.new_xdrip_data_callback now iter) g)
     <= HalfUnits.MAX_GRAPH_POINTS.
Proof.
  destruct (dict_find iter HalfUnits.KEY_BG_TIMESTAMP) as [ts|] eqn:Hts;
    [|left; unfold HalfUnits.new_xdrip_data_callback; by rewrite Hts].
  destruct (halfunits_around_graph now iter g ts Hts)
    as (X & T1 & T2 & Hgp & _ & HX & _).
  cbv zeta in Hgp. apply graph_part_eq in HX. destruct HX as (_ & HcX & _).
  assert (Hc : s_graph_count (exec (HalfUnits.new_xdrip_data_callback now iter) g)
               = s_graph_count
                   (exec (match dict_find iter HalfUnits.KEY_GRAPH_DATA with
                          | Some graph_tuple =>
                              if 6 <=? tuple_length graph_tuple
                              then HalfUnits.parse_graph_data graph_tuple
                              else mret tt
                          | None => mret tt
                          end) X)) by (by injection Hgp).
  rewrite Hc. clear Hgp Hc.
  destruct (dict_find iter HalfUnits.KEY_GRAPH_DATA) as [t|]; [|by left].
  destruct (6 <=? tuple_length t); [|by left].
  right. unfold exec. rewrite halfunits_parse_closed.
  pose proof (extended_count_range (data t)) as Hr.
  destruct (6 + extended_count (data t) * 3 <=? tuple_length t); cbn [fst snd].
  - unfold marked_dirty. by destruct (s_graph_layer _).
  - done.
Qed.

Lemma extended_callback_wf now iter g :
  graph_wf Extended.MAX_GRAPH_POINTS g ->
  graph_wf Extended.MAX_GRAPH_POINTS (exec (Extended.new_xdrip_data_callback now iter) g).
Proof.
  unfold graph_wf. intros [Hs Hc]. split.
  - by rewrite extended_callback_sizes.
  - destruct (extended_count_after now iter g) as [-> | H]; done.
Qed.

Lemma compact_callback_wf now iter g :
  graph_wf Compact.MAX_GRAPH_POINTS g ->
  graph_wf Compact.MAX_GRAPH_POINTS (exec (Compact.new_xdrip_data_callback now iter) g).
Proof.
  unfold graph_wf. intros [Hs Hc]. split.
  - by rewrite compact_callback_sizes.
  - destruct (compact_count_after now iter g) as [-> | H]; done.
Qed.

Lemma halfunits_callback_wf now iter g :
  graph_wf HalfUnits.MAX_GRAPH_POINTS g ->
  graph_wf HalfUnits.MAX_GRAPH_POINTS
    (exec (HalfUnits.new_xdrip_data_callback now iter) g).
Proof.
  unfold graph_wf. intros [Hs Hc]. split.
  - by rewrite halfunits_callback_sizes.
  - destruct (halfunits_count_after now iter g) as [-> | H]; done.
Qed.

(** X1. The callback keeps the static state well formed: the five arrays
    keep their declared sizes and the point count stays between 0 and
    [MAX_GRAPH_POINTS], whatever the message holds (also when the graph
    payload is rejected), in all three revisions. *)
Theorem X1_callback_keeps_state_well_formed :
  (forall now iter g,
     graph_wf Extended.MAX_GRAPH_POINTS g ->
     graph_wf Extended.MAX_GRAPH_POINTS
       (exec (Extended.new_xdrip_data_callback now iter) g))
  /\ (forall now iter g,
        graph_wf Compact.MAX_GRAPH_POINTS g ->
        graph_wf Compact.MAX_GRAPH_POINTS
          (exec (Compact.new_xdrip_data_callback now iter) g))
  /\ (forall now iter g,
        graph_wf HalfUnits.MAX_GRAPH_POINTS g ->
        graph_wf HalfUnits.MAX_GRAPH_POINTS
          (exec (HalfUnits.new_xdrip_data_callback now iter) g)).
Proof.
  split; [|split]; intros now iter g H.
  - by apply extended_callback_wf.
  - by apply compact_callback_wf.
  - by apply halfunits_callback_wf.
Qed.

Lemma X1_witness :
  let iter := [mkTuple 10 [0; 241; 83; 101]; mkTuple 14 [0; 0; 0; 0; 255; 255]] in
  graph_wf Extended.MAX_GRAPH_POINTS Extended.initial
  /\ graph_wf Extended.MAX_GRAPH_POINTS
       (exec (Extended.new_xdrip_data_callback 1700000300 iter) Extended.initial).
Proof.
  intros iter.
  assert (H : graph_wf Extended.MAX_GRAPH_POINTS Extended.initial)
    by (split; [reflexivity | vm_compute; split; discriminate]).
  split; [exact H|].
  exact (proj1 X1_callback_keeps_state_well_formed 1700000300 iter Extended.initial H).
Defined.

(** ** Loops that draw *)

Lemma exec_result_trace {A} (m : M A) g : m g = (result m g, exec m g, trace m g).
Proof. unfold result, exec, trace. by destruct (m g) as [[??]?]. Qed.

Lemma for_draw_closed body n : forall i g,
  (forall j, exec (body j) g = g) ->
  for_draw n i body g
  = (flat_map (fun j => result (body j) g) (seqZ i (Z.of_nat n)), g,
     flat_map (fun j => trace (body j) g) (seqZ i (Z.of_nat n))).
Proof.
  induction n as [|n IH]; intros i g Hpure; [done|].
  rewrite Nat2Z.inj_succ, seqZ_cons by lia.
  replace (Z.pred (Z.succ (Z.of_nat n))) with (Z.of_nat n) by lia.
  replace (Z.succ i) with (i + 1) by lia.
  cbn [for_draw flat_map]. rewrite bind_unfold.
  rewrite (exec_result_trace (body i) g), Hpure.
  rewrite bind_unfold, IH by done. cbn. by rewrite app_nil_r.
Qed.

Lemma for_fold_closed {S} (body : Z -> S -> M (S * list draw)) n : forall i s g,
  (forall j s', exec (body j s') g = g) ->
  result (for_fold n i body s) g
  = fold_pure (fun j s' => result (body j s') g) (seqZ i (Z.of_nat n)) s
  /\ exec (for_fold n i body s) g = g.
Proof.
  induction n as [|n IH]; intros i s g Hpure; [done|].
  rewrite Nat2Z.inj_succ, seqZ_cons by lia.
  replace (Z.pred (Z.succ (Z.of_nat n))) with (Z.of_nat n) by lia.
  replace (Z.succ i) with (i + 1) by lia.
  cbn [for_fold fold_pure].
  rewrite !result_bind, !exec_bind, Hpure.
  destruct (IH (i + 1) (result (body i s) g).1 g Hpure) as [-> ->].
  done.
Qed.

Lemma traces_for_draw_range (P : access -> Prop) body n : forall i,
  (forall j, i <= j < i + Z.of_nat n -> traces P (body j)) ->
  traces P (for_draw n i body).
Proof.
  induction n as [|n IH]; intros i H; simpl.
  - apply traces_ret.
  - apply traces_bind; [apply H; lia | intros d].
    apply traces_bind; [|intros ds; apply traces_ret].
    apply IH. intros j Hj. apply H. lia.
Qed.

Lemma traces_for_fold_range {S} (P : access -> Prop)
    (body : Z -> S -> M (S * list draw)) n : forall i s,
  (forall j s', i <= j < i + Z.of_nat n -> traces P (body j s')) ->
  traces P (for_fold n i body s).
Proof.
  induction n as [|n IH]; intros i s H; simpl.
  - apply traces_ret.
  - apply traces_bind; [apply H; lia | intros r].
    apply traces_bind; [|intros r'; apply traces_ret].
    apply IH. intros j s' Hj. apply H. lia.
Qed.

Lemma preserves_for_draw {X} (p : globals -> X) body n : forall i,
  (forall j, preserves p (body j)) -> preserves p (for_draw n i body).
Proof.
  induction n as [|n IH]; intros i H; simpl.
  - apply preserves_ret.
  - apply preserves_bind; [apply H | intros d].
    apply preserves_bind; [by apply IH | intros ds; apply preserves_ret].
Qed.

Lemma preserves_for_fold {X S} (p : globals -> X)
    (body : Z -> S -> M (S * list draw)) n : forall i s,
  (forall j s', preserves p (body j s')) -> preserves p (for_fold n i body s).
Proof.
  induction n as [|n IH]; intros i s H; simpl.
  - apply preserves_ret.
  - apply preserves_bind; [apply H | intros r].
    apply preserves_bind; [by apply IH | intros r'; apply preserves_ret].
Qed.

(** ** The renders only read, and read inside the arrays *)

Ltac frame_draw :=
  repeat first
    [ progress cbv zeta
    | apply preserves_ret
    | apply preserves_get
    | apply preserves_read
    | apply preserves_for_draw; intros ?
    | apply preserves_for_fold; intros ? ?
    | apply preserves_bind; [|intros ?]
    | match goal with
      | |- preserves _ (if ?b then _ else _) => destruct b
      end ].

Lemma extended_render_pure now width height g :
  exec (Extended.graph_layer_update_proc now width height) g = g.
Proof.
  assert (H : preserves (fun g => g) (Extended.graph_layer_update_proc now width height))
    by (unfold Extended.graph_layer_update_proc; frame_draw).
  apply H.
Qed.

Lemma compact_render_pure width height g :
  exec (Compact.graph_layer_update_proc width height) g = g.
Proof.
  assert (H : preserves (fun g => g) (Compact.graph_layer_update_proc width height))
    by (unfold Compact.graph_layer_update_proc; frame_draw).
  apply H.
Qed.

Lemma halfunits_render_pure now display_width width height g :
  exec (HalfUnits.graph_layer_update_proc now display_width width height) g = g.
Proof.
  assert (H : preserves (fun g => g)
                (HalfUnits.graph_layer_update_proc now display_width width height))
    by (unfold HalfUnits.graph_layer_update_proc; frame_draw).
  apply H.
Qed.

Lemma extended_render_in_bounds now width height len g :
  0 <= s_graph_count g <= Extended.MAX_GRAPH_POINTS ->
  Forall (fun e => access_ok len Extended.MAX_GRAPH_POINTS e = true)
         (trace (Extended.graph_layer_update_proc now width height) g).
Proof.
  intros Hc. unfold Extended.graph_layer_update_proc.
  rewrite trace_bind. apply Forall_app. split; [constructor|].
  change (result get g) with g. change (exec get g) with g.
  destruct (s_graph_count g =? 0); [constructor|]. cbv zeta.
  rewrite trace_bind. apply Forall_app. split; [|constructor].
  apply traces_for_draw_range. intros j Hj.
  trace_rules (simpl; apply in_bounds_spec; lia).
Qed.

Lemma compact_render_in_bounds width height len g :
  0 <= s_graph_count g <= Compact.MAX_GRAPH_POINTS ->
  Forall (fun e => access_ok len Compact.MAX_GRAPH_POINTS e = true)
         (trace (Compact.graph_layer_update_proc width height) g).
Proof.
  intros Hc. unfold Compact.graph_layer_update_proc.
  rewrite trace_bind. apply Forall_app. split; [constructor|].
  change (result get g) with g. change (exec get g) with g.
  destruct (s_graph_count g =? 0); [constructor|]. cbv zeta.
  rewrite trace_bind. apply Forall_app. split; [|constructor].
  apply traces_for_draw_range. intros j Hj.
  trace_rules (simpl; apply in_bounds_spec; lia).
Qed.

Lemma halfunits_render_in_bounds now display_width width height len g :
  0 <= s_graph_count g <= HalfUnits.MAX_GRAPH_POINTS ->
  Forall (fun e => access_ok len HalfUnits.MAX_GRAPH_POINTS e = true)
         (trace (HalfUnits.graph_layer_update_proc now display_width width height) g).
Proof.
  intros Hc. unfold HalfUnits.graph_layer_update_proc.
  rewrite trace_bind. apply Forall_app. split; [constructor|].
  change (result get g) with g. change (exec get g) with g.
  destruct (s_graph_count g =? 0); [constructor|]. cbv zeta.
  rewrite trace_bind. apply Forall_app. split.
  - apply traces_for_fold_range. intros j s' Hj.
    trace_rules (simpl; apply in_bounds_spec; lia).
  - match goal with
    | |- Forall ?P (trace ?m ?X) =>
        assert (H : traces P m) by (trace_rules idtac; fail); apply H
    end.
Qed.

(** X2. In every state reached from a well-formed one by any sequence of
    messages, the render of each revision changes no static variable and
    reads the two graph arrays only at indices below their size. *)
Theorem X2_render_after_any_messages_is_safe :
  (forall (msgs : list (Z * DictionaryIterator)) now width height len g0,
     graph_wf Extended.MAX_GRAPH_POINTS g0 ->
     let g := foldl (fun g m => exec (Extended.new_xdrip_data_callback m.1 m.2) g)
                    g0 msgs in
     exec (Extended.graph_layer_update_proc now width height) g = g
     /\ Forall (fun e => access_ok len Extended.MAX_GRAPH_POINTS e = true)
               (trace (Extended.graph_layer_update_proc now width height) g))
  /\ (forall (msgs : list (Z * DictionaryIterator)) width height len g0,
        graph_wf Compact.MAX_GRAPH_POINTS g0 ->
        let g := foldl (fun g m => exec (Compact.new_xdrip_data_callback m.1 m.2) g)
                       g0 msgs in
        exec (Compact.graph_layer_update_proc width height) g = g
        /\ Forall (fun e => access_ok len Compact.MAX_GRAPH_POINTS e = true)
                  (trace (Compact.graph_layer_update_proc width height) g))
  /\ (forall (msgs : list (Z * DictionaryIterator)) now display_width width height len g0,
        graph_wf HalfUnits.MAX_GRAPH_POINTS g0 ->
        let g := foldl (fun g m => exec (HalfUnits.new_xdrip_data_callback m.1 m.2) g)
                       g0 msgs in
        exec (HalfUnits.graph_layer_update_proc now display_width width height) g = g
        /\ Forall (fun e => access_ok len HalfUnits.MAX_GRAPH_POINTS e = true)
                  (trace (HalfUnits.graph_layer_update_proc now display_width width height)
                         g)).
Proof.
  split; [|split].
  - intros msgs now width height len g0 H0 g.
    assert (Hwf : graph_wf Extended.MAX_GRAPH_POINTS g).
    { subst g. revert g0 H0. induction msgs as [|m msgs IH]; intros g0 H0; [done|].
      simpl. apply IH. by apply extended_callback_wf. }
    split; [apply extended_render_pure | apply extended_render_in_bounds, Hwf].
  - intros msgs width height len g0 H0 g.
    assert (Hwf : graph_wf Compact.MAX_GRAPH_POINTS g).
    { subst g. revert g0 H0. induction msgs as [|m msgs IH]; intros g0 H0; [done|].
      simpl. apply IH. by apply compact_callback_wf. }
    split; [apply compact_render_pure | apply compact_render_in_bounds, Hwf].
  - intros msgs now display_width width height len g0 H0 g.
    assert (Hwf : graph_wf HalfUnits.MAX_GRAPH_POINTS g).
    { subst g. revert g0 H0. induction msgs as [|m msgs IH]; intros g0 H0; [done|].
      simpl. apply IH. by apply halfunits_callback_wf. }
    split; [apply halfunits_render_pure | apply halfunits_render_in_bounds, Hwf].
Qed.

Lemma X2_witness :
  let msgs := [(1700000300,
                [mkTuple 10 [0; 241; 83; 101];
                 mkTuple 14 [232; 3; 0; 0; 2; 0; 0; 0; 5; 0; 50; 60]]);
               (1700000600,
                [mkTuple 10 [44; 242; 83; 101]; mkTuple 14 [0; 0; 0; 0; 255; 255]])] in
  let g := foldl (fun g m => exec (Extended.new_xdrip_data_callback m.1 m.2) g)
                 Extended.initial msgs in
  graph_wf Extended.MAX_GRAPH_POINTS Extended.initial
  /\ exec (Extended.graph_layer_update_proc 1700000700 144 100) g = g
  /\ Forall (fun e => access_ok 0 Extended.MAX_GRAPH_POINTS e = true)
            (trace (Extended.graph_layer_update_proc 1700000700 144 100) g).
Proof.
  intros msgs g.
  assert (H : graph_wf Extended.MAX_GRAPH_POINTS Extended.initial)
    by (split; [reflexivity | vm_compute; split; discriminate]).
  split; [exact H|].
  exact (proj1 X2_render_after_any_messages_is_safe msgs 1700000700 144 100 0
           Extended.initial H).
Defined.

(** ** What the renders draw *)

Lemma minutes_ago_nonneg now g i : 0 <= minutes_ago_of now g i.
Proof.
  unfold minutes_ago_of, to_uint32. apply Z.quot_pos; [|lia].
  apply Z.mod_pos_bound. lia.
Qed.

(** The two skip tests of the extended render, solved for the age [m]. *)
Lemma extended_dot_condition m width :
  0 <= m -> 0 <= width ->
  (if 3 * 60 <? m then false
   else negb ((width - Z.quot (m * width) (3 * 60) <? 0)
              || (width <=? width - Z.quot (m * width) (3 * 60))))
  = (m <=? 180) && (180 <=? m * width).
Proof.
  intros Hm Hw. change (3 * 60) with 180.
  destruct (Z.ltb_spec 180 m) as [Hold|Hold].
  - destruct (Z.leb_spec m 180); [lia | done].
  - destruct (Z.leb_spec m 180); [|lia]. cbn [andb].
    rewrite Z.quot_div_nonneg by nia.
    assert (Hq : 0 <= m * width / 180 <= width).
    { split; [apply Z.div_pos; nia|]. apply Z.div_le_upper_bound; nia. }
    destruct (Z.ltb_spec (width - m * width / 180) 0); [lia|]. cbn [orb].
    destruct (Z.leb_spec width (width - m * width / 180)) as [Hx|Hx];
      destruct (Z.leb_spec 180 (m * width)) as [Hd|Hd]; try done; exfalso.
    + assert (1 <= m * width / 180) by (apply Z.div_le_lower_bound; lia). lia.
    + assert (m * width / 180 = 0) by (apply Z.div_small; nia). lia.
Qed.

(** X3. The extended render draws nothing for an empty series.  Otherwise it
    draws the two threshold lines and then, for each point in order, a dot
    exactly when the point's age [m] in whole minutes satisfies [m <= 180]
    and [180 <= m * width]: a point of the current minute ([m = 0]) is never
    drawn, and the test for a negative [x] never decides anything. *)
Theorem X3_extended_render_draws :
  (forall now width height g,
     s_graph_count g = 0 ->
     result (Extended.graph_layer_update_proc now width height) g = [])
  /\ (forall now width height g,
        0 <= width ->
        0 < s_graph_count g ->
        result (Extended.graph_layer_update_proc now width height) g
        = graphics_fill_rect (mk_GRect 0 (plot_y 288 height (s_graph_high_line g)) width 2)
          :: graphics_fill_rect (mk_GRect 0 (plot_y 288 height (s_graph_low_line g)) width 2)
          :: flat_map
               (fun i =>
                  let m := minutes_ago_of now g i in
                  if (m <=? 180) && (180 <=? m * width)
                  then [graphics_fill_rect
                          (mk_GRect (width - Z.quot (m * width) 180 - 1)
                                    (plot_y 288 height (load (s_graph_bg_values g) i) - 1)
                                    3 3)]
                  else [])
               (seqZ 0 (s_graph_count g))).
Proof.
  split.
  - intros now width height g Hc. unfold Extended.graph_layer_update_proc.
    rewrite result_bind. change (result get g) with g. change (exec get g) with g.
    by rewrite Hc.
  - intros now width height g Hw Hc. unfold Extended.graph_layer_update_proc.
    rewrite result_bind. change (result get g) with g. change (exec get g) with g.
    destruct (Z.eqb_spec (s_graph_count g) 0) as [|_]; [lia|]. cbv zeta.
    rewrite result_bind. unfold result at 2. rewrite for_draw_closed.
    2:{ intros j.
        match goal with
        | |- exec ?m g = g =>
            assert (H : preserves (fun g => g) m) by frame_draw; apply H
        end. }
    cbn [fst snd]. unfold result at 1, mret, M_ret. cbn [fst snd].
    rewrite Z2Nat.id by lia. unfold plot_y. rewrite !Z.sub_0_r.
    change (288 - 0) with 288. do 2 f_equal.
    apply flat_map_ext. intros i. cbv zeta.
    rewrite <- (extended_dot_condition (minutes_ago_of now g i) width)
      by (done || apply minutes_ago_nonneg).
    unfold result, mbind, M_bind, read, get, mret, M_ret. cbv beta iota.
    cbn [deref]. fold (minutes_ago_of now g i). change Extended.GRAPH_HOURS with 3.
    destruct (3 * 60 <? minutes_ago_of now g i); [done|].
    destruct ((width - Z.quot (minutes_ago_of now g i * width) (3 * 60) <? 0)
              || (width <=? width - Z.quot (minutes_ago_of now g i * width) (3 * 60)));
      [done|].
    cbn [negb fst snd]. by rewrite Z.sub_0_r.
Qed.

Lemma X3_witness :
  let g := set_s_graph_count 1 Extended.initial in
  (0 <= 144 /\ 0 < s_graph_count g)
  /\ result (Extended.graph_layer_update_proc 30 144 100) g
     = [graphics_fill_rect (mk_GRect 0 (plot_y 288 100 180) 144 2);
        graphics_fill_rect (mk_GRect 0 (plot_y 288 100 72) 144 2)].
Proof.
  intros g. split; [split; [lia | reflexivity]|].
  exact (proj2 X3_extended_render_draws 30 144 100 g ltac:(lia) ltac:(reflexivity)).
Defined.

Lemma flat_map_singleton {A B} (f : A -> B) l : flat_map (fun a => [f a]) l = map f l.
Proof. induction l as [|a l IH]; simpl; [done | by rewrite IH]. Qed.

Lemma plot_y_clamped height bg :
  0 <= height -> 0 <= plot_y 288 height (Z.min 288 (Z.max 0 bg)) <= height.
Proof.
  intros Hh. unfold plot_y.
  assert (Hb : 0 <= Z.min 288 (Z.max 0 bg) <= 288) by lia.
  rewrite Z.quot_div_nonneg by nia.
  assert (0 <= Z.min 288 (Z.max 0 bg) * height / 288 <= height); [|lia].
  split; [apply Z.div_pos; nia|]. apply Z.div_le_upper_bound; nia.
Qed.

(** X4. The compact render draws nothing for an empty series.  Otherwise it
    draws the two threshold lines and one dot for every point, none skipped:
    horizontally at [offset * width / 180], vertically at the height of the
    value clamped to 0..288, which lies inside the layer. *)
Theorem X4_compact_render_draws :
  (forall width height g,
     s_graph_count g = 0 ->
     result (Compact.graph_layer_update_proc width height) g = [])
  /\ (forall width height g,
        0 <= height ->
        0 < s_graph_count g ->
        result (Compact.graph_layer_update_proc width height) g
        = graphics_fill_rect (mk_GRect 0 (plot_y 288 height (s_graph_high_line g)) width 2)
          :: graphics_fill_rect (mk_GRect 0 (plot_y 288 height (s_graph_low_line g)) width 2)
          :: map
               (fun i =>
                  graphics_fill_rect
                    (mk_GRect
                       (Z.quot (load (s_graph_offsets g) i * width) 180 - 1)
                       (plot_y 288 height
                          (Z.min 288 (Z.max 0 (load (s_graph_bg_values g) i))) - 1)
                       3 3))
               (seqZ 0 (s_graph_count g))
        /\ forall i,
             0 <= plot_y 288 height (Z.min 288 (Z.max 0 (load (s_graph_bg_values g) i)))
             <= height).
Proof.
  split.
  - intros width height g Hc. unfold Compact.graph_layer_update_proc.
    rewrite result_bind. change (result get g) with g. change (exec get g) with g.
    by rewrite Hc.
  - intros width height g Hh Hc. split; [|intros i; by apply plot_y_clamped].
    unfold Compact.graph_layer_update_proc.
    rewrite result_bind. change (result get g) with g. change (exec get g) with g.
    destruct (Z.eqb_spec (s_graph_count g) 0) as [|_]; [lia|]. cbv zeta.
    rewrite result_bind. unfold result at 2. rewrite for_draw_closed.
    2:{ intros j.
        match goal with
        | |- exec ?m g = g =>
            assert (H : preserves (fun g => g) m) by frame_draw; apply H
        end. }
    cbn [fst snd]. unfold result at 1, mret, M_ret. cbn [fst snd].
    rewrite Z2Nat.id by lia. unfold plot_y. rewrite !Z.sub_0_r.
    change (288 - 0) with 288. do 2 f_equal.
    rewrite <- flat_map_singleton.
    apply flat_map_ext. intros i.
    unfold result, mbind, M_bind, read, get, mret, M_ret. cbv beta iota.
    cbn [deref fst snd]. change (3 * 60) with 180. do 3 f_equal.
    rewrite Z.sub_0_r. do 3 f_equal.
    destruct (Z.ltb_spec (load (s_graph_bg_values g) i) 0);
      [destruct (Z.ltb_spec 288 0) | destruct (Z.ltb_spec 288 (load (s_graph_bg_values g) i))];
      lia.
Qed.

Lemma X4_witness :
  let g := set_s_graph_count 2 Compact.initial in
  (0 <= 100 /\ 0 < s_graph_count g)
  /\ length (result (Compact.graph_layer_update_proc 144 100) g) = 4%nat.
Proof.
  intros g. split; [split; [lia | reflexivity]|].
  pose proof (proj2 X4_compact_render_draws 144 100 g ltac:(lia) ltac:(reflexivity)) as [H _].
  rewrite H. reflexivity.
Defined.

(** ** The arrow dots of the half-unit render *)

Lemma fold_pure_fst {S} (f : Z -> S -> S * list draw) (step : S -> Z * Z -> S)
    (point : Z -> option (Z * Z)) l : forall s,
  (forall j s', (f j s').1 = match point j with Some p => step s' p | None => s' end) ->
  (fold_pure f l s).1 = foldl step s (omap point l).
Proof.
  induction l as [|j l IH]; intros s Hf; [done|].
  cbn [fold_pure omap list_omap fst]. rewrite IH, Hf by done.
  by destruct (point j).
Qed.

Lemma halfunits_track_count vis :
  HalfUnits.visible_count (foldl halfunits_track halfunits_no_points vis)
  = Z.of_nat (length vis).
Proof.
  induction vis as [|p vis IH] using rev_ind; [done|].
  rewrite foldl_app, length_app. cbn. rewrite IH. lia.
Qed.

Lemma halfunits_track_last pre q :
  let v := foldl halfunits_track halfunits_no_points (pre ++ [q]) in
  (HalfUnits.last_x v, HalfUnits.last_y v) = q
  /\ (HalfUnits.prev_x v, HalfUnits.prev_y v) = q.
Proof. cbv zeta. rewrite foldl_app. cbn. by destruct q. Qed.

Lemma halfunits_track_second_last pre p q :
  let v := foldl halfunits_track halfunits_no_points (pre ++ [p; q]) in
  (HalfUnits.second_last_x v, HalfUnits.second_last_y v) = p
  /\ (HalfUnits.last_x v, HalfUnits.last_y v) = q.
Proof.
  cbv zeta. change (pre ++ [p; q]) with (pre ++ [p] ++ [q]).
  rewrite app_assoc. split; [|apply halfunits_track_last].
  rewrite foldl_app. cbn. rewrite halfunits_track_count.
  destruct (halfunits_track_last pre p) as [Hl _]. cbv zeta in Hl.
  destruct (Z.ltb_spec 0 (Z.of_nat (length (pre ++ [p])))) as [_|Hn];
    [exact Hl | rewrite length_app in Hn; simpl in Hn; lia].
Qed.

Lemma two_last {A} (l : list A) :
  (2 <= length l)%nat -> exists pre p q, l = pre ++ [p; q].
Proof.
  intros Hl. destruct l as [|q l _] using rev_ind; [simpl in Hl; lia|].
  destruct l as [|p l _] using rev_ind; [simpl in Hl; lia|].
  exists l, p, q. by rewrite <- app_assoc.
Qed.

Lemma halfunits_locals now display_width height g s :
  (result
     (for_fold (Z.to_nat (s_graph_count g)) 0
        (fun i v =>
           offset ← read A_graph_offsets i;
           g ← get;
           if HalfUnits.GRAPH_HOURS * 60
              <? Z.quot (to_uint32 (to_uint32 now
                           - to_uint32 (s_graph_ref_timestamp g + offset * 60))) 60
           then mret (v, [])
           else
             bg ← read A_graph_bg_values i;
             mret ({| HalfUnits.prev_x :=
                        Z.quot (display_width * 2) 3
                        - Z.quot (Z.quot (to_uint32 (to_uint32 now
                                     - to_uint32 (s_graph_ref_timestamp g + offset * 60)))
                                    60 * Z.quot (display_width * 2) 3)
                            (HalfUnits.GRAPH_HOURS * 60);
                      HalfUnits.prev_y := height - Z.quot ((bg - 0) * height) (144 - 0);
                      HalfUnits.last_x :=
                        Z.quot (display_width * 2) 3
                        - Z.quot (Z.quot (to_uint32 (to_uint32 now
                                     - to_uint32 (s_graph_ref_timestamp g + offset * 60)))
                                    60 * Z.quot (display_width * 2) 3)
                            (HalfUnits.GRAPH_HOURS * 60);
                      HalfUnits.last_y := height - Z.quot ((bg - 0) * height) (144 - 0);
                      HalfUnits.second_last_x :=
                        if 0 <? HalfUnits.visible_count v
                        then HalfUnits.last_x v else HalfUnits.second_last_x v;
                      HalfUnits.second_last_y :=
                        if 0 <? HalfUnits.visible_count v
                        then HalfUnits.last_y v else HalfUnits.second_last_y v;
                      HalfUnits.visible_count := HalfUnits.visible_count v + 1 |},
                   if 0 <? HalfUnits.visible_count v
                   then [graphics_draw_line
                           (mk_GPoint (HalfUnits.prev_x v) (HalfUnits.prev_y v))
                           (mk_GPoint
                              (Z.quot (display_width * 2) 3
                               - Z.quot (Z.quot (to_uint32 (to_uint32 now
                                            - to_uint32 (s_graph_ref_timestamp g
                                                         + offset * 60))) 60
                                         * Z.quot (display_width * 2) 3)
                                   (HalfUnits.GRAPH_HOURS * 60))
                              (height - Z.quot ((bg - 0) * height) (144 - 0)))]
                   else []))
        s) g).1
  = foldl halfunits_track s (halfunits_visible now display_width height g).
Proof.
  destruct (Z.le_gt_cases 0 (s_graph_count g)) as [Hc|Hc].
  2:{ unfold halfunits_visible. replace (Z.to_nat (s_graph_count g)) with 0%nat by lia.
      rewrite seqZ_nil by lia. done. }
  match goal with
  | |- (result (for_fold _ _ ?body _) _).1 = _ =>
      destruct (for_fold_closed body (Z.to_nat (s_graph_count g)) 0 s g) as [-> _]
  end.
  { intros j s'.
    match goal with
    | |- exec ?m g = g =>
        assert (H : preserves (fun g => g) m) by frame_draw; apply H
    end. }
  rewrite Z2Nat.id by done. unfold halfunits_visible.
  apply fold_pure_fst. intros j s'.
  unfold result, mbind, M_bind, read, get, mret, M_ret. cbv beta iota.
  cbn [deref]. unfold halfunits_point. cbv zeta.
  fold (minutes_ago_of now g j). change HalfUnits.GRAPH_HOURS with 2.
  destruct (2 * 60 <? minutes_ago_of now g j); [done|].
  cbn [fst snd]. unfold halfunits_track, plot_y. cbn [fst snd].
  by rewrite Z.sub_0_r.
Qed.

(** X5. The half-unit render divides by the horizontal distance [dx] of the
    last two visible points when placing its three arrow dots, and its guard
    only excludes [dx = 0] together with [dy = 0]: for a non-empty series the
    render divides by zero exactly when at least two points are visible and
    the last two have the same [x] and different [y]; in every other case it
    completes. *)
Theorem X5_halfunits_render_divides_by_zero :
  forall now display_width width height g,
    0 < s_graph_count g ->
    result (HalfUnits.graph_layer_update_proc now display_width width height) g = None
    <-> exists pre p q,
          halfunits_visible now display_width height g = pre ++ [p; q]
          /\ p.1 = q.1 /\ p.2 <> q.2.
Proof.
  intros now display_width width height g Hc.
  unfold HalfUnits.graph_layer_update_proc.
  rewrite result_bind. change (result get g) with g. change (exec get g) with g.
  destruct (Z.eqb_spec (s_graph_count g) 0) as [|_]; [lia|]. cbv zeta.
  rewrite result_bind.
  pose proof (halfunits_locals now display_width height g halfunits_no_points) as Hv.
  unfold halfunits_no_points in Hv at 1. rewrite Hv. clear Hv.
  set (vis := halfunits_visible now display_width height g).
  set (v := foldl halfunits_track halfunits_no_points vis).
  pose proof (halfunits_track_count vis) as Hcount. fold v in Hcount.
  destruct (Z.leb_spec 2 (HalfUnits.visible_count v)) as [H2|H2].
  - destruct (two_last vis ltac:(lia)) as (pre & p & q & Hvis).
    destruct (halfunits_track_second_last pre p q) as [Hp Hq].
    cbv zeta in Hp, Hq. rewrite <- Hvis in Hp, Hq. fold v in Hp, Hq.
    destruct p as [px py], q as [qx qy].
    injection Hp as Hpx Hpy. injection Hq as Hqx Hqy. rewrite Hpx, Hpy, Hqx, Hqy.
    assert (Hiff : (exists pre' p' q', vis = pre' ++ [p'; q'] /\ p'.1 = q'.1 /\ p'.2 <> q'.2)
                   <-> px = qx /\ py <> qy).
    { split.
      - intros (pre' & p' & q' & Hvis' & Hx & Hy). rewrite Hvis in Hvis'.
        change (pre ++ [(px, py); (qx, qy)]) with (pre ++ [(px, py)] ++ [(qx, qy)]) in Hvis'.
        change (pre' ++ [p'; q']) with (pre' ++ [p'] ++ [q']) in Hvis'.
        rewrite !app_assoc in Hvis'.
        apply app_inj_tail in Hvis' as [Hvis' <-].
        apply app_inj_tail in Hvis' as [_ <-]. done.
      - intros [Hx Hy]. exists pre, (px, py), (qx, qy). done. }
    rewrite Hiff.
    destruct (Z.eqb_spec (qx - px) 0) as [Hdx|Hdx];
      destruct (Z.eqb_spec (qy - py) 0) as [Hdy|Hdy]; cbn [negb orb];
      unfold result, mret, M_ret; cbn [fst snd]; split; intros H; try done; lia.
  - unfold result, mret, M_ret. cbn [fst snd]. split; [done|].
    intros (pre & p & q & Hvis & _). subst vis. rewrite Hvis, length_app in Hcount.
    simpl in Hcount. lia.
Qed.

Lemma X5_witness :
  let iter := [mkTuple 10 [88; 2; 0; 0];
               mkTuple 14 [0; 0; 0; 0; 2; 0; 4; 0; 5; 0; 50; 60]] in
  let g := exec (HalfUnits.new_xdrip_data_callback 600 iter) HalfUnits.initial in
  0 < s_graph_count g
  /\ result (HalfUnits.graph_layer_update_proc 600 144 144 100) g = None.
Proof.
  intros iter g. split; [reflexivity|].
  apply (proj2 (X5_halfunits_render_divides_by_zero 600 144 144 100 g ltac:(reflexivity))).
  exists [], (92, 66), (92, 59). vm_compute. repeat split. discriminate.
Defined.

(** ** Strings as they are displayed *)

Lemma text_layers_after_update X :
  s_bg_layer (exec update_displayed_xdrip_data X) = Some A_bg_string
  /\ s_delta_layer (exec update_displayed_xdrip_data X) = Some A_delta_string.
Proof.
  unfold update_displayed_xdrip_data. rewrite !exec_bind.
  split; repeat skip; reflexivity.
Qed.

Lemma extended_text_layers now iter g timestamp_tuple :
  dict_find iter Extended.KEY_BG_TIMESTAMP = Some timestamp_tuple ->
  s_bg_layer (exec (Extended.new_xdrip_data_callback now iter) g) = Some A_bg_string
  /\ s_delta_layer (exec (Extended.new_xdrip_data_callback now iter) g)
     = Some A_delta_string.
Proof.
  intros Hts. unfold Extended.new_xdrip_data_callback. rewrite Hts.
  rewrite !exec_bind. split; skip; apply text_layers_after_update.
Qed.

(** X6. After a data message the glucose and delta text layers point at
    their buffers, and a buffer whose key was present reads as the string
    found at the tuple's value, cut to what fits: its first 4 characters for
    the glucose string, its first 5 for the delta string.  The string is read
    up to its NUL whatever the length of the value, so an unterminated value
    is shown with the bytes that follow it. *)
Theorem X6_received_strings_as_displayed
    (now : Z) (iter : DictionaryIterator) (g : globals) (timestamp_tuple : Tuple) :
  dict_find iter Extended.KEY_BG_TIMESTAMP = Some timestamp_tuple ->
  length (s_bg_string g) = 5%nat ->
  length (s_delta_string g) = 6%nat ->
  let g' := exec (Extended.new_xdrip_data_callback now iter) g in
  s_bg_layer g' = Some A_bg_string
  /\ s_delta_layer g' = Some A_delta_string
  /\ (forall t, dict_find iter Extended.KEY_BG_STRING = Some t ->
        reads_inside 5 (memory t) ->
        cstr (s_bg_string g') = take 4 (cstr (memory t)))
  /\ (forall t, dict_find iter Extended.KEY_DELTA_STRING = Some t ->
        reads_inside 6 (memory t) ->
        cstr (s_delta_string g') = take 5 (cstr (memory t))).
Proof.
  intros Hts Hbg Hdelta g'. subst g'.
  destruct (extended_text_layers now iter g timestamp_tuple Hts) as [Hl1 Hl2].
  split; [done|]. split; [done|]. split; intros t Ht _.
  - rewrite (extended_bg_string now iter g timestamp_tuple Hts), Ht.
    apply (safe_strncpy_cstr A_bg_string (cstring t) 5 g); [done | simpl; lia | lia].
  - rewrite (extended_delta_string now iter g timestamp_tuple Hts), Ht.
    apply (safe_strncpy_cstr A_delta_string (cstring t) 6 g); [done | simpl; lia | lia].
Qed.

Lemma X6_witness :
  let ts := mkTuple 10 [0; 241; 83; 101] in
  let bg := mkTuple 11 (chars "10.25" ++ [0]) in
  let delta := mkTupleAt 12 (chars "+0.3") [13; 0; 0; 0; 2; 1; 0; 4] in
  let arrow := mkTuple 13 [4] in
  let iter := [ts; bg; delta; arrow] in
  let g' := exec (Extended.new_xdrip_data_callback 1700000300 iter) Extended.initial in
  (dict_find iter Extended.KEY_BG_TIMESTAMP = Some ts
   /\ length (s_bg_string Extended.initial) = 5%nat
   /\ length (s_delta_string Extended.initial) = 6%nat
   /\ reads_inside 5 (memory bg)
   /\ reads_inside 6 (memory delta))
  /\ s_bg_layer g' = Some A_bg_string
  /\ cstr (s_bg_string g') = chars "10.2"
  /\ cstr (s_delta_string g') = chars "+0.3" ++ [13].
Proof.
  intros ts bg delta arrow iter g'.
  assert (Hbg : reads_inside 5 (memory bg)) by (vm_compute; discriminate).
  assert (Hdelta : reads_inside 6 (memory delta)) by (vm_compute; discriminate).
  split; [repeat split; (reflexivity || assumption)|].
  pose proof (X6_received_strings_as_displayed 1700000300 iter Extended.initial ts
                eq_refl eq_refl eq_refl) as (H1 & _ & H3 & H4).
  split; [exact H1|]. split; [exact (H3 bg eq_refl Hbg) | exact (H4 delta eq_refl Hdelta)].
Defined.

(** ** The time-ago text *)

Lemma uint_chars_digits u :
  Forall (fun c => c <> 0) (chars (DecimalString.NilEmpty.string_of_uint u)).
Proof.
  induction u; simpl; constructor; (done || exact IHu).
Qed.

Lemma format_d_uint n : 0 <= n -> exists u, Z.to_int n = Decimal.Pos u.
Proof. destruct n; [eexists; reflexivity | eexists; reflexivity | lia]. Qed.

Lemma format_d_nonzero n : 0 <= n -> Forall (fun c => c <> 0) (format_d n).
Proof.
  intros Hn. unfold format_d. destruct (format_d_uint n Hn) as [u ->]. simpl.
  destruct u; try apply uint_chars_digits. repeat constructor. done.
Qed.

Lemma short_uint_small u :
  (length (chars (DecimalString.NilZero.string_of_uint u)) <= 2)%nat -> Z.of_uint u <= 99.
Proof.
  intros H.
  destruct u as [|u|u|u|u|u|u|u|u|u|u]; try (vm_compute; discriminate);
  destruct u as [|u|u|u|u|u|u|u|u|u|u]; try (vm_compute; discriminate);
  destruct u as [|u|u|u|u|u|u|u|u|u|u]; try (vm_compute; discriminate);
  exfalso; simpl in H; lia.
Qed.

(** A number of three or more digits. *)
Lemma format_d_long n : 100 <= n -> (3 <= length (format_d n))%nat.
Proof.
  intros Hn. unfold format_d. destruct (format_d_uint n ltac:(lia)) as [u Hu].
  rewrite Hu. simpl.
  destruct (decide (length (chars (DecimalString.NilZero.string_of_uint u)) <= 2)%nat)
    as [Hs|Hs]; [|lia].
  apply short_uint_small in Hs.
  pose proof (DecimalZ.of_to n) as Hof. rewrite Hu in Hof. simpl in Hof. lia.
Qed.

Lemma format_d_short n : 0 <= n < 100 -> (length (format_d n) <= 2)%nat.
Proof.
  intros Hn.
  assert (H : forallb (fun k => (length (format_d k) <=? 2)%nat) (seqZ 0 100) = true)
    by (vm_compute; reflexivity).
  rewrite forallb_forall in H. apply Nat.leb_le, H, list_elem_of_In, elem_of_seqZ. lia.
Qed.

Lemma snprintf_loop_state dest n : forall i text g,
  dest <> A_data ->
  exec (snprintf_loop n dest i text) g
  = assign dest
      (store (fill (fun j => load text (j - i)) (min n (length text)) i (deref dest g))
             (i + Z.of_nat (min n (length text))) 0) g.
Proof.
  induction n as [|n IH]; intros i text g Hd.
  - simpl. by rewrite Z.add_0_r.
  - destruct text as [|c text].
    + simpl. by rewrite Z.add_0_r.
    + cbn [snprintf_loop]. rewrite exec_bind. rewrite IH by done.
      change (exec (write dest i c) g) with (assign dest (store (deref dest g) i c) g).
      rewrite deref_assign, assign_assign by done.
      cbn [length min Nat.min fill]. rewrite Z.sub_diag, load_cons_0.
      f_equal. f_equal; [|lia].
      apply fill_ext_range. intros j Hj.
      rewrite (load_cons_succ c text (j - i)) by lia. f_equal. lia.
Qed.

(** [snprintf] of a text without NUL into a buffer of [size] bytes leaves the
    first [size - 1] characters of the text. *)
Lemma snprintf_cstr dest size text g :
  dest <> A_data -> Z.of_nat (length (deref dest g)) = size -> 0 < size ->
  Forall (fun c => c <> 0) text ->
  cstr (deref dest (exec (snprintf dest size text) g)) = take (Z.to_nat (size - 1)) text.
Proof.
  intros Hd Hlen Hs Hnz. unfold snprintf.
  destruct (Z.ltb_spec 0 size); [|lia].
  rewrite snprintf_loop_state, deref_assign by done.
  set (k := min (Z.to_nat (size - 1)) (length text)).
  assert (Hk : take (Z.to_nat (size - 1)) text = take (Z.to_nat (Z.of_nat k)) text).
  { rewrite Nat2Z.id. subst k. destruct (decide (Z.to_nat (size - 1) <= length text)%nat).
    - by rewrite Nat.min_l by done.
    - rewrite Nat.min_r by lia. rewrite !take_ge by lia. done. }
  rewrite Hk. rewrite Z.add_0_l.
  apply cstr_prefix.
  - rewrite length_store, length_fill. lia.
  - lia.
  - intros j Hj. rewrite load_store_ne by lia. rewrite load_fill_in by lia.
    f_equal. lia.
  - intros j Hj. rewrite Forall_forall in Hnz. apply Hnz.
    unfold load. rewrite (proj2 (in_bounds_spec _ _)) by lia.
    destruct (lookup_lt_is_Some_2 text (Z.to_nat j) ltac:(lia)) as [a Ha].
    rewrite Ha. simpl. by eapply list_elem_of_lookup_2.
  - apply load_store_eq. rewrite length_fill. lia.
Qed.

(** The buffer after [update_displayed_time_ago]: the formatted text cut to
    three characters. *)
Lemma time_ago_buffer_after now g :
  s_bg_timestamp g <> 0 ->
  length (s_time_ago_buffer g) = 4%nat ->
  let minutes_ago := to_uint32 (now - s_bg_timestamp g) / 60 in
  let g' := exec (update_displayed_time_ago now) g in
  0 <= minutes_ago
  /\ s_time_ago_layer g' = Some A_time_ago_buffer
  /\ cstr (s_time_ago_buffer g')
     = take 3 (if minutes_ago <? 60 then format_d minutes_ago ++ chars "m"
               else format_d (minutes_ago / 60) ++ chars "h").
Proof.
  intros Hts Hlen minutes_ago g'.
  assert (Hm : 0 <= minutes_ago).
  { subst minutes_ago. unfold to_uint32. apply Z.div_pos; [|lia].
    apply Z.mod_pos_bound. lia. }
  assert (Hg' : g' = set_s_time_ago_layer (Some A_time_ago_buffer)
                  (exec (snprintf A_time_ago_buffer 4
                     (if minutes_ago <? 60 then format_d minutes_ago ++ chars "m"
                      else format_d (minutes_ago / 60) ++ chars "h")) g)).
  { subst g'. unfold update_displayed_time_ago. rewrite exec_bind.
    change (result get g) with g. change (exec get g) with g.
    destruct (Z.eqb_spec (s_bg_timestamp g) 0) as [|_]; [done|].
    fold minutes_ago. rewrite exec_bind.
    by destruct (minutes_ago <? 60). }
  split; [done|]. rewrite Hg'. split; [reflexivity|].
  apply (snprintf_cstr A_time_ago_buffer 4 _ g); [done | simpl; lia | lia |].
  destruct (minutes_ago <? 60); apply Forall_app; split;
    try (repeat constructor; done); apply format_d_nonzero; [done|].
  apply Z.div_pos; lia.
Qed.

(** X7. Once a timestamp is held, [update_displayed_time_ago] points the
    time-ago layer at its buffer and leaves there the age of the reading:
    below an hour the minutes followed by m, from one hour up to 99 hours the
    whole hours followed by h, and from 100 hours on only the first three
    digits of the hours, the unit letter no longer fitting the four-byte
    buffer. *)
Theorem X7_time_ago_text (now : Z) (g : globals) :
  s_bg_timestamp g <> 0 ->
  length (s_time_ago_buffer g) = 4%nat ->
  let minutes_ago := to_uint32 (now - s_bg_timestamp g) / 60 in
  let g' := exec (update_displayed_time_ago now) g in
  s_time_ago_layer g' = Some A_time_ago_buffer
  /\ (minutes_ago < 60 ->
        cstr (s_time_ago_buffer g') = format_d minutes_ago ++ chars "m")
  /\ (60 <= minutes_ago < 6000 ->
        cstr (s_time_ago_buffer g') = format_d (minutes_ago / 60) ++ chars "h")
  /\ (6000 <= minutes_ago ->
        cstr (s_time_ago_buffer g') = take 3 (format_d (minutes_ago / 60))).
Proof.
  intros Hts Hlen minutes_ago g'.
  destruct (time_ago_buffer_after now g Hts Hlen) as (Hm & Hlayer & Hstr).
  fold minutes_ago in Hm, Hstr. fold g' in Hlayer, Hstr.
  split; [done|]. rewrite Hstr.
  split; [|split]; intros Hr.
  - destruct (Z.ltb_spec minutes_ago 60); [|lia].
    pose proof (format_d_short minutes_ago ltac:(lia)).
    apply take_ge. rewrite length_app. simpl. lia.
  - destruct (Z.ltb_spec minutes_ago 60); [lia|].
    assert (0 <= minutes_ago / 60 < 100).
    { split; [apply Z.div_pos; lia | apply Z.div_lt_upper_bound; lia]. }
    pose proof (format_d_short (minutes_ago / 60) ltac:(lia)).
    apply take_ge. rewrite length_app. simpl. lia.
  - destruct (Z.ltb_spec minutes_ago 60); [lia|].
    assert (100 <= minutes_ago / 60) by (apply Z.div_le_lower_bound; lia).
    pose proof (format_d_long (minutes_ago / 60) ltac:(lia)).
    rewrite take_app_le by lia. done.
Qed.

Lemma X7_witness :
  let g := set_s_bg_timestamp 1700000000 Extended.initial in
  (s_bg_timestamp g <> 0 /\ length (s_time_ago_buffer g) = 4%nat)
  /\ cstr (s_time_ago_buffer (exec (update_displayed_time_ago 1700000300) g)) = chars "5m"
  /\ cstr (s_time_ago_buffer (exec (update_displayed_time_ago 1700400000) g)) = chars "111".
Proof.
  intros g. split; [split; [discriminate | reflexivity]|].
  split.
  - exact (proj1 (proj2 (X7_time_ago_text 1700000300 g ltac:(discriminate) eq_refl))
             ltac:(vm_compute; reflexivity)).
  - exact (proj2 (proj2 (proj2 (X7_time_ago_text 1700400000 g ltac:(discriminate) eq_refl)))
             ltac:(vm_compute; discriminate)).
Defined.

(** ** What a message leaves of the stored series *)

Lemma extended_tail_kept now iter g i :
  let g' := exec (Extended.new_xdrip_data_callback now iter) g in
  s_graph_count g' <= i ->
  load (s_graph_offsets g') i = load (s_graph_offsets g) i
  /\ load (s_graph_bg_values g') i = load (s_graph_bg_values g) i.
Proof.
  intros g'. subst g'.
  destruct (dict_find iter Extended.KEY_BG_TIMESTAMP) as [ts|] eqn:Hts;
    [|unfold Extended.new_xdrip_data_callback; by rewrite Hts].
  assert (Hsame : graph_part (exec (Extended.new_xdrip_data_callback now iter) g)
                  = graph_part g ->
                  load (s_graph_offsets (exec (Extended.new_xdrip_data_callback now iter) g)) i
                  = load (s_graph_offsets g) i
                  /\ load (s_graph_bg_values
                             (exec (Extended.new_xdrip_data_callback now iter) g)) i
                     = load (s_graph_bg_values g) i).
  { intros H. apply graph_part_eq in H. destruct H as (_ & _ & -> & -> & _). done. }
  destruct (extended_around_graph now iter g ts Hts)
    as (X & T1 & T2 & Hgp & _ & HX & _).
  destruct (dict_find iter Extended.KEY_GRAPH_DATA) as [t|] eqn:Hgraph.
  - destruct (Z.le_gt_cases 6 (tuple_length t)) as [Hlen|Hlen].
    + clear Hgp HX Hsame.
      destruct (extended_graph_outcome now iter g ts t Hts Hgraph Hlen)
        as (T1' & T2' & _ & _ & H).
      pose proof (extended_count_range (data t)).
      destruct (6 + extended_count (data t) * 3 <=? tuple_length t);
        destruct H as [H _]; apply graph_part_eq in H;
        destruct H as (_ & -> & -> & -> & _); intros Hi; [|done].
      split; apply load_fill_after; lia.
    + intros _. apply Hsame. rewrite Hgp.
      destruct (Z.leb_spec 6 (tuple_length t)); [lia|]. exact HX.
  - intros _. apply Hsame. rewrite Hgp. exact HX.
Qed.

Lemma compact_tail_kept now iter g i :
  let g' := exec (Compact.new_xdrip_data_callback now iter) g in
  s_graph_count g' <= i ->
  load (s_graph_offsets g') i = load (s_graph_offsets g) i
  /\ load (s_graph_bg_values g') i = load (s_graph_bg_values g) i.
Proof.
  intros g'. subst g'.
  destruct (dict_find iter Compact.KEY_BG_TIMESTAMP) as [ts|] eqn:Hts;
    [|unfold Compact.new_xdrip_data_callback; by rewrite Hts].
  assert (Hsame : graph_part (exec (Compact.new_xdrip_data_callback now iter) g)
                  = graph_part g ->
                  load (s_graph_offsets (exec (Compact.new_xdrip_data_callback now iter) g)) i
                  = load (s_graph_offsets g) i
                  /\ load (s_graph_bg_values
                             (exec (Compact.new_xdrip_data_callback now iter) g)) i
                     = load (s_graph_bg_values g) i).
  { intros H. apply graph_part_eq in H. destruct H as (_ & _ & -> & -> & _). done. }
  destruct (compact_around_graph now iter g ts Hts)
    as (X & T1 & T2 & Hgp & _ & HX & _).
  destruct (dict_find iter Compact.KEY_GRAPH_DATA) as [t|] eqn:Hgraph.
  - destruct (Z.le_gt_cases 5 (tuple_length t)) as [Hlen|Hlen].
    + clear Hgp HX Hsame.
      destruct (compact_graph_outcome now iter g ts t Hts Hgraph Hlen)
        as (T1' & T2' & _ & _ & H).
      pose proof (compact_count_range (data t)).
      destruct (5 + compact_count (data t) * 2 <=? tuple_length t);
        destruct H as [H _]; apply graph_part_eq in H;
        destruct H as (_ & -> & -> & -> & _); intros Hi; [|done].
      split; apply load_fill_after; lia.
    + intros _. apply Hsame. rewrite Hgp.
      destruct (Z.leb_spec 5 (tuple_length t)); [lia|]. exact HX.
  - intros _. apply Hsame. rewrite Hgp. exact HX.
Qed.

Lemma halfunits_tail_kept now iter g i :
  let g' := exec (HalfUnits.new_xdrip_data_callback now iter) g in
  s_graph_count g' <= i ->
  load (s_graph_offsets g') i = load (s_graph_offsets g) i
  /\ load (s_graph_bg_values g') i = load (s_graph_bg_values g) i.
Proof.
  intros g'. subst g'.
  destruct (dict_find iter HalfUnits.KEY_BG_TIMESTAMP) as [ts|] eqn:Hts;
    [|unfold HalfUnits.new_xdrip_data_callback; by rewrite Hts].
  destruct (halfunits_around_graph now iter g ts Hts)
    as (X & T1 & T2 & Hgp & _ & HX & _).
  cbv zeta in Hgp. apply graph_part_eq in HX. destruct HX as (_ & _ & HoX & HvX & _).
  injection Hgp as _ Hc Ho Hv. rewrite Hc, Ho, Hv, <- HoX, <- HvX. clear Hc Ho Hv.
  destruct (dict_find iter HalfUnits.KEY_GRAPH_DATA) as [t|]; [|done].
  destruct (6 <=? tuple_length t); [|done].
  unfold exec. rewrite halfunits_parse_closed.
  pose proof (extended_count_range (data t)) as Hr.
  destruct (6 + extended_count (data t) * 3 <=? tuple_length t); cbn [fst snd]; [|done].
  assert (Hmd : forall Y, s_graph_count (marked_dirty Y) = s_graph_count Y
                          /\ s_graph_offsets (marked_dirty Y) = s_graph_offsets Y
                          /\ s_graph_bg_values (marked_dirty Y) = s_graph_bg_values Y).
  { intros Y. unfold marked_dirty. by destruct (s_graph_layer Y). }
  match goal with |- context [marked_dirty ?Y] =>
    destruct (Hmd Y) as (-> & -> & ->) end.
  cbn. intros Hi. split; apply load_fill_after; lia.
Qed.

(** X8. The callback writes the two graph arrays only below the count it
    leaves: whatever the message, an entry at an index at or beyond the new
    count keeps the value it had before, in all three revisions.  A shorter
    series therefore leaves the tail of a longer one in place. *)
Theorem X8_callback_writes_below_count :
  (forall now iter g i,
     let g' := exec (Extended.new_xdrip_data_callback now iter) g in
     s_graph_count g' <= i ->
     load (s_graph_offsets g') i = load (s_graph_offsets g) i
     /\ load (s_graph_bg_values g') i = load (s_graph_bg_values g) i)
  /\ (forall now iter g i,
        let g' := exec (Compact.new_xdrip_data_callback now iter) g in
        s_graph_count g' <= i ->
        load (s_graph_offsets g') i = load (s_graph_offsets g) i
        /\ load (s_graph_bg_values g') i = load (s_graph_bg_values g) i)
  /\ (forall now iter g i,
        let g' := exec (HalfUnits.new_xdrip_data_callback now iter) g in
        s_graph_count g' <= i ->
        load (s_graph_offsets g') i = load (s_graph_offsets g) i
        /\ load (s_graph_bg_values g') i = load (s_graph_bg_values g) i).
Proof.
  split; [|split]; intros now iter g i.
  - apply extended_tail_kept.
  - apply compact_tail_kept.
  - apply halfunits_tail_kept.
Qed.

Lemma X8_witness :
  let ts := mkTuple Compact.KEY_BG_TIMESTAMP [] in
  let first := [ts; mkTuple Compact.KEY_GRAPH_DATA [0; 0; 0; 0; 3; 0; 5; 10; 50; 60; 70]] in
  let second := [ts; mkTuple Compact.KEY_GRAPH_DATA [0; 0; 0; 0; 1; 0; 40]] in
  let g := exec (Compact.new_xdrip_data_callback 0 first) Compact.initial in
  let g' := exec (Compact.new_xdrip_data_callback 0 second) g in
  s_graph_count g' <= 2
  /\ load (s_graph_bg_values g') 2 = 140.
Proof.
  intros ts first second g g'.
  assert (Hc : s_graph_count g' <= 2) by (vm_compute; discriminate).
  split; [exact Hc|].
  etransitivity;
    [exact (proj2 (proj1 (proj2 X8_callback_writes_below_count) 0 second g 2 Hc))|].
  vm_compute. reflexivity.
Defined.

(** ** The test mode of the compact revision *)

Lemma test_loop_closed n : forall i g,
  for_loop n i (fun i =>
    write A_graph_offsets i (to_uint8 (i * 5));;
    let base_bg := 150 in
    let variation :=
      if Z.rem i 12 <? 6 then Z.rem i 12 * 8 else (12 - Z.rem i 12) * 8 in
    write A_graph_bg_values i (to_uint16 (base_bg + variation - 24))) g
  = (tt,
     set_s_graph_bg_values (fill test_value n i (s_graph_bg_values g))
       (set_s_graph_offsets (fill test_offset n i (s_graph_offsets g)) g),
     loop_trace (fun j => [Write A_graph_offsets j; Write A_graph_bg_values j]) n i).
Proof.
  induction n as [|n IH]; intros i g.
  - by destruct g.
  - cbn [for_loop]. rewrite bind_unfold. cbv zeta. rewrite bind_unfold.
    unfold write at 1 2. rewrite IH. cbn [fill loop_trace].
    fold (test_offset i). fold (test_value i).
    destruct g; reflexivity.
Qed.

Lemma exec_modify_eq f X : exec (modify f) X = f X.
Proof. reflexivity. Qed.

Lemma test_mode_graph now g :
  let g' := exec (Compact.init_test_mode_data now) g in
  s_graph_ref_timestamp g' = to_uint32 (now - 10800)
  /\ s_graph_count g' = 36
  /\ s_graph_offsets g' = fill test_offset 36 0 (s_graph_offsets g)
  /\ s_graph_bg_values g' = fill test_value 36 0 (s_graph_bg_values g).
Proof.
  cbv zeta. unfold Compact.init_test_mode_data.
  rewrite !exec_bind.
  rewrite (exec_eq _ _ _ _ _ (test_loop_closed _ _ _)).
  change (Z.to_nat Compact.TEST_GRAPH_COUNT) with 36%nat.
  rewrite !exec_modify_eq.
  cbn [s_graph_ref_timestamp s_graph_count s_graph_offsets s_graph_bg_values
       set_s_graph_bg_values set_s_graph_offsets
       set_s_graph_count set_s_graph_ref_timestamp].
  split; [reflexivity|]. split; [reflexivity|].
  assert (Ho : preserves s_graph_offsets (safe_strncpy A_delta_string (chars "+0.3" ++ [0]) 6))
    by (apply preserves_safe_strncpy; intros ? ?; reflexivity).
  assert (Ho' : preserves s_graph_offsets (safe_strncpy A_bg_string (chars "10.2" ++ [0]) 5))
    by (apply preserves_safe_strncpy; intros ? ?; reflexivity).
  assert (Hv : preserves s_graph_bg_values (safe_strncpy A_delta_string (chars "+0.3" ++ [0]) 6))
    by (apply preserves_safe_strncpy; intros ? ?; reflexivity).
  assert (Hv' : preserves s_graph_bg_values (safe_strncpy A_bg_string (chars "10.2" ++ [0]) 5))
    by (apply preserves_safe_strncpy; intros ? ?; reflexivity).
  rewrite (Ho _), (Hv _).
  cbn [s_graph_offsets s_graph_bg_values set_s_arrow_index].
  rewrite (Ho' _), (Hv' _). split; reflexivity.
Qed.

Lemma test_offset_value i :
  0 <= i < 36 ->
  test_offset i = i * 5
  /\ test_value i = 126 + 8 * Z.min (i mod 12) (12 - i mod 12)
  /\ 126 <= test_value i <= 174.
Proof.
  intros Hi.
  assert (H : forallb (fun i =>
                (test_offset i =? i * 5)
                && (test_value i =? 126 + 8 * Z.min (i mod 12) (12 - i mod 12))
                && (126 <=? test_value i) && (test_value i <=? 174)) (seqZ 0 36) = true)
    by (vm_compute; reflexivity).
  rewrite forallb_forall in H. specialize (H i).
  rewrite <- list_elem_of_In, elem_of_seqZ in H. specialize (H ltac:(lia)).
  rewrite !andb_true_iff in H. lia.
Qed.

Lemma test_mode_sizes now : preserves sizes (Compact.init_test_mode_data now).
Proof.
  unfold Compact.init_test_mode_data.
  apply preserves_bind; [apply preserves_modify; intros ?; reflexivity | intros _].
  apply preserves_bind; [apply sizes_safe_strncpy | intros _].
  apply preserves_bind; [apply preserves_modify; intros ?; reflexivity | intros _].
  apply preserves_bind; [apply sizes_safe_strncpy | intros _].
  apply preserves_bind; [apply preserves_modify; intros ?; reflexivity | intros _].
  apply preserves_bind; [apply preserves_modify; intros ?; reflexivity | intros _].
  apply preserves_for_loop. intros j.
  apply preserves_bind; [|intros _; cbv zeta]; apply sizes_write.
Qed.

Lemma traces_for_loop_range (P : access -> Prop) body n : forall i,
  (forall j, i <= j < i + Z.of_nat n -> traces P (body j)) -> traces P (for_loop n i body).
Proof.
  induction n as [|n IH]; intros i H; simpl.
  - apply traces_ret.
  - apply traces_bind; [apply H; lia | intros _; apply IH; intros j Hj; apply H; lia].
Qed.

Lemma test_mode_in_bounds now :
  traces (fun e => access_ok 0 Compact.MAX_GRAPH_POINTS e = true)
         (Compact.init_test_mode_data now).
Proof.
  unfold Compact.init_test_mode_data.
  apply traces_bind; [apply traces_modify | intros _].
  apply traces_bind;
    [apply traces_safe_strncpy; intros j Hj; apply in_bounds_spec; simpl; lia | intros _].
  apply traces_bind; [apply traces_modify | intros _].
  apply traces_bind;
    [apply traces_safe_strncpy; intros j Hj; apply in_bounds_spec; simpl; lia | intros _].
  apply traces_bind; [apply traces_modify | intros _].
  apply traces_bind; [apply traces_modify | intros _].
  apply traces_for_loop_range. intros j Hj.
  change (Z.to_nat Compact.TEST_GRAPH_COUNT) with 36%nat in Hj.
  apply traces_bind; [|intros _; cbv zeta];
    apply traces_write; apply in_bounds_spec; unfold Compact.MAX_GRAPH_POINTS; simpl; lia.
Qed.

Lemma test_mode_text now g :
  let g' := exec (Compact.init_test_mode_data now) g in
  s_bg_timestamp g' = to_uint32 (now - 180)
  /\ s_arrow_index g' = 4
  /\ s_bg_string g'
     = s_bg_string (exec (safe_strncpy A_bg_string (chars "10.2" ++ [0]) 5) g)
  /\ s_delta_string g'
     = s_delta_string (exec (safe_strncpy A_delta_string (chars "+0.3" ++ [0]) 6) g).
Proof.
  cbv zeta. unfold Compact.init_test_mode_data.
  rewrite !exec_bind.
  rewrite (exec_eq _ _ _ _ _ (test_loop_closed _ _ _)).
  rewrite !exec_modify_eq.
  rewrite !(exec_eq _ _ _ _ _ (safe_strncpy_closed A_bg_string _ 5 _ ltac:(done) ltac:(done))).
  rewrite !(exec_eq _ _ _ _ _
              (safe_strncpy_closed A_delta_string _ 6 _ ltac:(done) ltac:(done))).
  repeat split.
Qed.

(** X9. With [TEST_MODE] defined, as in the compact revision,
    [init_test_mode_data] run on buffers of the declared sizes stays inside
    them and leaves a well-formed series of 36 points whose reference is three
    hours before now: point i has offset 5 i minutes and value
    126 + 8 min (i mod 12, 12 - i mod 12), between 126 and 174 mg/dL.  The
    text buffers read 10.2 and +0.3, the arrow index is 4, and
    [update_displayed_time_ago] within the following minute shows 3m. *)
Theorem X9_test_mode_data (now : Z) (g : globals) :
  sizes g = (5%nat, 6%nat, 4%nat, Z.to_nat Compact.MAX_GRAPH_POINTS,
             Z.to_nat Compact.MAX_GRAPH_POINTS) ->
  let g' := exec (Compact.init_test_mode_data now) g in
  graph_wf Compact.MAX_GRAPH_POINTS g'
  /\ Forall (fun e => access_ok 0 Compact.MAX_GRAPH_POINTS e = true)
            (trace (Compact.init_test_mode_data now) g)
  /\ graph_series_is g' (to_uint32 (now - 10800)) 36
       (fun i => i * 5) (fun i => 126 + 8 * Z.min (i mod 12) (12 - i mod 12))
  /\ (forall i, 0 <= i < 36 -> 126 <= load (s_graph_bg_values g') i <= 174)
  /\ cstr (s_bg_string g') = chars "10.2"
  /\ cstr (s_delta_string g') = chars "+0.3"
  /\ s_arrow_index g' = 4
  /\ (forall now', to_uint32 (now - 180) <> 0 -> 0 <= now' - now < 60 ->
        cstr (s_time_ago_buffer (exec (update_displayed_time_ago now') g')) = chars "3m").
Proof.
  intros Hsz g'.
  pose proof (test_mode_sizes now g) as Hsz'. fold g' in Hsz'. rewrite Hsz in Hsz'.
  destruct (test_mode_graph now g) as (Href & Hcount & Hoff & Hval). fold g' in Href, Hcount, Hoff, Hval.
  destruct (test_mode_text now g) as (Hts & Harrow & Hbg & Hdelta).
  fold g' in Hts, Harrow, Hbg, Hdelta.
  pose proof (test_mode_in_bounds now g) as Htrace.
  clearbody g'.
  assert (Hlens : length (s_bg_string g) = 5%nat /\ length (s_delta_string g) = 6%nat
                  /\ length (s_graph_offsets g) = 60%nat
                  /\ length (s_graph_bg_values g) = 60%nat).
  { unfold sizes in Hsz. injection Hsz as H1 H2 _ H4 H5. by rewrite H1, H2, H4, H5. }
  destruct Hlens as (Hl1 & Hl2 & Hl4 & Hl5).
  assert (Hloads : forall i, 0 <= i < 36 ->
            load (s_graph_offsets g') i = test_offset i
            /\ load (s_graph_bg_values g') i = test_value i).
  { intros i Hi. rewrite Hoff, Hval. split; apply load_fill_in; lia. }
  split; [split; [done | rewrite Hcount; unfold Compact.MAX_GRAPH_POINTS; lia]|].
  split; [exact Htrace|].
  split; [split; [done | split; [done|]]|].
  { intros i Hi. destruct (Hloads i Hi) as [-> ->].
    destruct (test_offset_value i Hi) as (-> & -> & _). done. }
  split.
  { intros i Hi. destruct (Hloads i Hi) as [_ ->].
    by destruct (test_offset_value i Hi) as (_ & _ & ?). }
  split.
  { rewrite Hbg.
    apply (safe_strncpy_cstr A_bg_string (chars "10.2" ++ [0]) 5 g); [done | simpl; lia | lia]. }
  split.
  { rewrite Hdelta.
    apply (safe_strncpy_cstr A_delta_string (chars "+0.3" ++ [0]) 6 g);
      [done | simpl; lia | lia]. }
  split; [done|].
  intros now' Hnz Hnow.
  assert (Hlen : length (s_time_ago_buffer g') = 4%nat).
  { unfold sizes in Hsz'. by injection Hsz' as _ _ H3 _ _. }
  assert (Hts' : s_bg_timestamp g' <> 0) by (by rewrite Hts).
  destruct (time_ago_buffer_after now' g' Hts' Hlen) as (_ & _ & ->).
  assert (Hm : to_uint32 (now' - s_bg_timestamp g') / 60 = 3).
  { rewrite Hts. unfold to_uint32. rewrite Zminus_mod_idemp_r.
    rewrite Z.mod_small by lia.
    symmetry. apply Z.div_unique with (r := now' - now); lia. }
  rewrite Hm. reflexivity.
Qed.

Lemma X9_witness :
  let g' := exec (Compact.init_test_mode_data 1700000000) Compact.initial in
  sizes Compact.initial
  = (5%nat, 6%nat, 4%nat, Z.to_nat Compact.MAX_GRAPH_POINTS,
     Z.to_nat Compact.MAX_GRAPH_POINTS)
  /\ s_graph_count g' = 36
  /\ load (s_graph_bg_values g') 6 = 174
  /\ cstr (s_bg_string g') = chars "10.2".
Proof.
  intros g'.
  pose proof (X9_test_mode_data 1700000000 Compact.initial eq_refl)
    as (_ & _ & (_ & Hc & Hs) & _ & Hbg & _).
  split; [reflexivity|]. split; [exact Hc|].
  split; [exact (proj2 (Hs 6 ltac:(lia)))|exact Hbg].
Defined.

(** ** The timestamp of a message and the age it shows *)

(** X10. A data message stores as timestamp the little-endian 32-bit number
    of the four bytes at the value of the timestamp tuple and, when that
    number is not 0, ends by showing the age of the reading computed from
    it: the time-ago layer points at its buffer, which holds the minutes or
    hours between the stored timestamp and now, cut to three characters. *)
Theorem X10_timestamp_stored_and_age_shown
    (now : Z) (iter : DictionaryIterator) (g : globals) (timestamp_tuple : Tuple) :
  dict_find iter Extended.KEY_BG_TIMESTAMP = Some timestamp_tuple ->
  (4 <= length (memory timestamp_tuple))%nat ->
  length (s_time_ago_buffer g) = 4%nat ->
  let stamp :=
    load (memory timestamp_tuple) 0 + 256 * load (memory timestamp_tuple) 1
    + 65536 * load (memory timestamp_tuple) 2
    + 16777216 * load (memory timestamp_tuple) 3 in
  stamp <> 0 ->
  let minutes_ago := to_uint32 (now - stamp) / 60 in
  let g' := exec (Extended.new_xdrip_data_callback now iter) g in
  s_bg_timestamp g' = stamp
  /\ s_time_ago_layer g' = Some A_time_ago_buffer
  /\ cstr (s_time_ago_buffer g')
     = take 3 (if minutes_ago <? 60 then format_d minutes_ago ++ chars "m"
               else format_d (minutes_ago / 60) ++ chars "h").
Proof.
  intros Hts _ Hlen stamp Hstamp minutes_ago g'.
  split.
  - subst g'. by rewrite (extended_bg_timestamp now iter g timestamp_tuple Hts).
  - destruct (extended_before_time_ago now iter g timestamp_tuple Hts)
      as (X & T & Hexec & _ & HtsX & Hbuf & _ & _).
    change (uint32 timestamp_tuple) with stamp in HtsX.
    subst g'. rewrite Hexec.
    destruct (time_ago_buffer_after now X) as (_ & Hlayer & Hstr).
    + by rewrite HtsX.
    + by rewrite Hbuf.
    + rewrite HtsX in Hstr. by split.
Qed.

Lemma X10_witness :
  let ts := mkTuple 10 [0; 241; 83; 101] in
  let iter := [ts; mkTuple 11 (chars "7.5" ++ [0])] in
  let g' := exec (Extended.new_xdrip_data_callback 1700000300 iter) Extended.initial in
  (dict_find iter Extended.KEY_BG_TIMESTAMP = Some ts
   /\ (4 <= length (memory ts))%nat
   /\ length (s_time_ago_buffer Extended.initial) = 4%nat)
  /\ s_bg_timestamp g' = 1700000000
  /\ cstr (s_time_ago_buffer g') = chars "5m".
Proof.
  intros ts iter g'.
  assert (H4 : (4 <= length (memory ts))%nat) by (simpl; lia).
  split; [repeat split; (reflexivity || assumption)|].
  pose proof (X10_timestamp_stored_and_age_shown 1700000300 iter Extended.initial ts
                eq_refl H4 eq_refl ltac:(vm_compute; discriminate)) as (H1 & _ & H3).
  split; [exact H1 | exact H3].
Defined.
